(** * IHPS fluid calculator: the fluid plan engine of [server.js]

    A shallow embedding of the request path of [server.js]
    ([validateInputs], [calculateIHPSFluidPlan] and the functions it
    calls) together with the properties its specification states.

    Number model.  A JavaScript number is an IEEE 754 binary64 value.
    It is embedded as [JS.number]: either [NaN] or [Fin q], where the
    rational [q] stands for the binary64 value nearest to it
    ([JS.rnd64 q], ties to even); a magnitude that rounds to [2^1024] or
    beyond stands for an infinity.  A parsed input or a literal of the
    source is carried as the decimal that denotes it (the shortest one
    that rounds to its double), the result of an arithmetic operation as
    the exact value of the double it produces.  Comparisons relate the
    carried rationals; the engine only ever compares parsed inputs with
    literals, for which this is the order of the doubles.
    Multiplication, addition and subtraction round their operands and
    their result to binary64, [Math.round] takes the nearest integer of
    the double with ties towards plus infinity.  The sign of a zero is
    not modelled.  Counters that only ever hold integer literals in the
    source ([baseTime], [bolusVolume]) are carried as [Z] and injected
    where the source multiplies them with a number. *)

From Stdlib Require Import ZArith QArith Qround Qpower Qabs Qcanon Lqa Lia.
From Stdlib Require Import String Ascii List Bool DecimalString Sorted Floats.
Import ListNotations.

Set Implicit Arguments.

(** ** JavaScript numbers *)

Module JS.

Inductive number : Type :=
| NaN : number
| Fin (q : Q) : number.

Definition ofZ (z : Z) : number := Fin (inject_Z z).

Definition Qltb (x y : Q) : bool := negb (Qle_bool y x).

(** Relational operators: a comparison with [NaN] is [false]. *)
Definition lt (a b : number) : bool :=
  match a, b with Fin x, Fin y => Qltb x y | _, _ => false end.
Definition gt (a b : number) : bool := lt b a.
Definition le (a b : number) : bool :=
  match a, b with Fin x, Fin y => Qle_bool x y | _, _ => false end.
Definition ge (a b : number) : bool := le b a.

(** Strict equality [===] on numbers. *)
Definition strict_eq (a b : number) : bool :=
  match a, b with Fin x, Fin y => Qeq_bool x y | _, _ => false end.

(** *** Rounding to binary64 *)

Definition pow2 (e : Z) : Q := (2 ^ e)%Q.

(** The exponent [e] with [2^e <= a < 2^(e+1)], for a positive [a]. *)
Definition ilog2 (a : Q) : Z :=
  let e := (Z.log2 (Qnum a) - Z.log2 (Z.pos (Qden a)))%Z in
  if Qle_bool (pow2 e) a then e else (e - 1)%Z.

(** The nearest integer, a tie goes to the even one. *)
Definition rne (m : Q) : Z :=
  let f := Qfloor m in
  match Qcompare (m - inject_Z f) (1 # 2) with
  | Lt => f
  | Gt => (f + 1)%Z
  | Eq => if Z.even f then f else (f + 1)%Z
  end.

(** The spacing of the binary64 values around a positive [a]: 53
    significant bits, exponents from -1022 (below it, the subnormal
    spacing [2^-1074]). *)
Definition ulp (a : Q) : Q := pow2 (Z.max (ilog2 a) (-1022) - 52).

Definition roundPos (a : Q) : Q := (inject_Z (rne (a / ulp a)) * ulp a)%Q.

(** The magnitude that stands for an infinity: a result whose rounding
    reaches [2^1024] overflows. *)
Definition infinity : Q := inject_Z (2 ^ 1024).

Definition saturate (r : Q) : Q := if Qle_bool infinity r then infinity else r.

(** The binary64 value nearest to [q], in lowest terms. *)
Definition rnd64 (q : Q) : Q :=
  let q := Qred q in
  match Qnum q with
  | Z0 => 0%Q
  | Zpos _ => Qred (saturate (roundPos q))
  | Zneg _ => Qred (- saturate (roundPos (- q)))
  end.

Definition isInf (d : Q) : bool := Qle_bool infinity (Qabs d).

(** *** Arithmetic on doubles *)

(** The product of two binary64 values; [None] is [NaN]
    (an infinity times zero). *)
Definition mulQ (dx dy : Q) : option Q :=
  if isInf dx || isInf dy then
    if Qeq_bool dx 0 || Qeq_bool dy 0 then None
    else Some (if Qltb (dx * dy) 0 then - infinity else infinity)%Q
  else Some (rnd64 (dx * dy)).

(** The sum of two binary64 values; [None] is [NaN] (the sum of the two
    opposite infinities). *)
Definition addQ (dx dy : Q) : option Q :=
  if isInf dx then
    if isInf dy && negb (Qeq_bool dx dy) then None else Some dx
  else if isInf dy then Some dy
  else Some (rnd64 (dx + dy)).

Definition subQ (dx dy : Q) : option Q := addQ dx (- dy).

Definition liftQ (f : Q -> Q -> option Q) (a b : number) : number :=
  match a, b with
  | Fin x, Fin y =>
    match f (rnd64 x) (rnd64 y) with
    | Some r => Fin r
    | None => NaN
    end
  | _, _ => NaN
  end.

Definition add : number -> number -> number := liftQ addQ.
Definition sub : number -> number -> number := liftQ subQ.
Definition mul : number -> number -> number := liftQ mulQ.

(** [Math.round]: nearest integer, a tie goes towards plus infinity; an
    infinity is returned as it is. *)
Definition Qround (q : Q) : Z := Qfloor (q + (1 # 2))%Q.
Definition round (a : number) : number :=
  match a with
  | NaN => NaN
  | Fin q => let d := rnd64 q in if isInf d then Fin d else ofZ (Qround d)
  end.

(** Truthiness of a number: [NaN] and zero are falsy. *)
Definition truthy (a : number) : bool :=
  match a with NaN => false | Fin q => negb (Qeq_bool q 0) end.

(** Truthiness of a value that is a number or [null] ([None]). *)
Definition truthy_opt (a : option number) : bool :=
  match a with None => false | Some n => truthy n end.

(** [a && a < c] and [a && a > c] on a number-or-null [a]; the
    comparison is only evaluated when [a] is truthy. *)
Definition and_lt (a : option number) (c : number) : bool :=
  match a with
  | Some n => truthy n && lt n c
  | None => false
  end.
Definition and_gt (a : option number) (c : number) : bool :=
  match a with
  | Some n => truthy n && gt n c
  | None => false
  end.

(** ** Strings *)

(** [s.replace(pat, rep)] with a string pattern: the first occurrence
    of [pat] in [s] is replaced.  (The replacements used by the engine
    contain no [$], so no replacement pattern is expanded.) *)
Fixpoint drop (n : nat) (s : string) : string :=
  match n, s with
  | O, _ => s
  | S n', String _ s' => drop n' s'
  | S _, EmptyString => EmptyString
  end.

Fixpoint replace (pat rep s : string) : string :=
  if prefix pat s then append rep (drop (String.length pat) s)
  else match s with
       | EmptyString => EmptyString
       | String c s' => String c (replace pat rep s')
       end.

(** [s.includes(pat)]. *)
Fixpoint includes (pat s : string) : bool :=
  if prefix pat s then true
  else match s with
       | EmptyString => false
       | String _ s' => includes pat s'
       end.

Fixpoint endsWith (suffix s : string) : bool :=
  if String.eqb suffix s then true
  else match s with
       | EmptyString => false
       | String _ s' => endsWith suffix s'
       end.

End JS.

Import JS.

Arguments rnd64 : simpl never.
Arguments infinity : simpl never.
Arguments mul : simpl never.
Arguments add : simpl never.
Arguments sub : simpl never.
Arguments round : simpl never.

Open Scope Q_scope.
Open Scope string_scope.

(** ** Data model *)

(** The argument object of [calculateIHPSFluidPlan]: five required
    numbers, [urineOutput], and the optional values, [null] ([None]) when
    not measured. *)
Record Snapshot : Type := mkSnapshot {
  sodium : number;
  potassium : number;
  chloride : number;
  ph : number;
  weight : number;
  urineOutput : number;
  glucose : option number;
  pco2 : option number;
  hct : option number;
  lactate : option number;
  be : option number;
  hco3 : option number;
  creatinine : option number;
  bun : option number
}.

Module FluidSelection.
Record t : Type := mk { fluid : string; reason : string }.
End FluidSelection.

Module Bolus.
Record t : Type := mk { volume : Z; totalVolume : number; reason : string }.
End Bolus.

Record FluidPlan : Type := mkPlan {
  fluidType : string;
  fluidSelectionReason : string;
  fluidRatePerHour : number;
  maintenanceRate : number;
  correctionTime : Z;
  totalFluidVolume : number;
  bolusRecommendation : Bolus.t;
  alerts : list string;
  recheckInterval : string;
  nextLabCheck : string
}.

(** ** The engine *)

(** [calculateCorrectionTime]; [potassium] is destructured but unused. *)
Definition sodiumTime (sodium : number) (baseTime : Z) : Z :=
  if lt sodium (Fin 130) then 36%Z
  else if lt sodium (Fin 135) then 24%Z
  else if ge sodium (Fin 135) then 12%Z
  else baseTime.

Definition chlorideTime (chloride : number) (baseTime : Z) : Z :=
  if lt chloride (Fin 70) then Z.max baseTime 36
  else if lt chloride (Fin 90) then Z.max baseTime 24
  else baseTime.

Definition phTime (ph : number) (baseTime : Z) : Z :=
  if gt ph (Fin 7.55) then Z.max baseTime 24
  else if gt ph (Fin 7.45) then Z.max baseTime 18
  else baseTime.

Definition weightTime (weight : number) (baseTime : Z) : Z :=
  if lt weight (Fin 3.0) then (baseTime + 6)%Z else baseTime.

Definition calculateCorrectionTime
    (sodium potassium chloride ph weight : number) : Z :=
  let baseTime := 12%Z in
  let baseTime := sodiumTime sodium baseTime in
  let baseTime := chlorideTime chloride baseTime in
  let baseTime := phTime ph baseTime in
  let baseTime := weightTime weight baseTime in
  baseTime.

(** [generateSimpleAlerts]: [push] appends at the end of the array. *)
Definition alertHypokalaemia : string :=
  "CRITICAL: Severe hypokalaemia - aggressive KCl needed".
Definition alertHyperkalaemia : string :=
  "CRITICAL: Hyperkalaemia risk - hold KCl, monitor closely".
Definition alertHyponatremia : string :=
  "WARNING: Severe hyponatremia - use NS + 5% Dextrose".
Definition alertHypochloremia : string :=
  "WARNING: Severe hypochloremia - expect longer correction time".
Definition alertAlkalosis : string :=
  "WARNING: Severe alkalosis - slow correction needed".

Definition pushIf (c : bool) (msg : string) (arr : list string) : list string :=
  if c then arr ++ [msg] else arr.

Definition generateSimpleAlerts (sodium potassium chloride ph : number)
    : list string :=
  let alerts := [] in
  let alerts := pushIf (lt potassium (Fin 3.0)) alertHypokalaemia alerts in
  let alerts := pushIf (gt potassium (Fin 5.5)) alertHyperkalaemia alerts in
  let alerts := pushIf (lt sodium (Fin 130)) alertHyponatremia alerts in
  let alerts := pushIf (lt chloride (Fin 70)) alertHypochloremia alerts in
  let alerts := pushIf (gt ph (Fin 7.55)) alertAlkalosis alerts in
  alerts.

(** [selectOptimalFluidEnhanced].  The body is two statements in
    sequence: the glucose/sodium tree that fixes [fluid] and [reason],
    then the potassium adjustment that rewrites them.  [chloride], [ph],
    [creatinine], [bun], [hct] and [lactate] are destructured but unused. *)
Definition selectBaseFluid (sodium : number) (glucose : option number)
    : FluidSelection.t :=
  if and_lt glucose (Fin 2.5) then
    if lt sodium (Fin 135) then
      FluidSelection.mk "D10 1/2 NS + 20 mEq/L KCl"
        "Low glucose + low sodium - D10 1/2 NS for both glucose and sodium correction"
    else
      FluidSelection.mk "D10 NS + 20 mEq/L KCl"
        "Low glucose + normal sodium - D10 NS for glucose support"
  else if and_lt glucose (Fin 3.0) then
    if lt sodium (Fin 135) then
      FluidSelection.mk "D10 1/2 NS + 20 mEq/L KCl"
        "Mildly low glucose + low sodium - D10 1/2 NS"
    else
      FluidSelection.mk "D5 1/2 NS + 20 mEq/L KCl"
        "Mildly low glucose - standard D5 1/2 NS with monitoring"
  else
    if lt sodium (Fin 135) then
      FluidSelection.mk "NS + 5% Dextrose + 20 mEq/L KCl"
        "Low sodium - NS + 5% Dextrose for sodium correction"
    else
      FluidSelection.mk "D5 1/2 NS + 20 mEq/L KCl"
        "Normal sodium - standard D5 1/2 NS".

Definition adjustKCl (potassium : number) (sel : FluidSelection.t)
    : FluidSelection.t :=
  if lt potassium (Fin 3.0) then
    FluidSelection.mk
      (replace "20 mEq/L" "40 mEq/L" (FluidSelection.fluid sel))
      (FluidSelection.reason sel ++ " + aggressive KCl for severe hypokalaemia")
  else if gt potassium (Fin 5.0) then
    FluidSelection.mk
      (replace " + 20 mEq/L KCl" "" (FluidSelection.fluid sel))
      (FluidSelection.reason sel ++ " + hold KCl for hyperkalaemia")
  else sel.

Definition selectOptimalFluidEnhanced
    (sodium potassium chloride ph : number)
    (glucose creatinine bun hct lactate : option number) : FluidSelection.t :=
  adjustKCl potassium (selectBaseFluid sodium glucose).

(** [calculateBolusRecommendation].  The running pair
    [(bolusVolume, bolusReason)] is threaded through the severity tiers
    and the two additional factors. *)
Definition bolusTier (sodium chloride ph : number) : Z * string :=
  if lt sodium (Fin 130) || lt chloride (Fin 70) || gt ph (Fin 7.55) then
    (20%Z, "Severe depletion - 20 mL/kg NS bolus recommended")
  else if lt sodium (Fin 135) || lt chloride (Fin 90) || gt ph (Fin 7.45) then
    (10%Z, "Moderate depletion - 10 mL/kg NS bolus recommended")
  else
    (0%Z, "No bolus needed - mild abnormalities").

Definition hctFactor (hct : option number) (st : Z * string) : Z * string :=
  if and_gt hct (Fin 50) then
    (Z.max (fst st) 10, snd st ++ " + high hematocrit indicates dehydration")
  else st.

Definition lactateFactor (lactate : option number) (st : Z * string)
    : Z * string :=
  if and_gt lactate (Fin 2.0) then
    (Z.max (fst st) 10, snd st ++ " + elevated lactate indicates poor perfusion")
  else st.

Definition calculateBolusRecommendation
    (sodium chloride ph weight : number) (hct lactate : option number)
    : Bolus.t :=
  let st := bolusTier sodium chloride ph in
  let st := hctFactor hct st in
  let st := lactateFactor lactate st in
  Bolus.mk (fst st) (round (mul (ofZ (fst st)) weight)) (snd st).

(** [calculateNextLabCheck]. *)
Definition calculateNextLabCheck (correctionTime : Z) : string :=
  if (correctionTime <=? 24)%Z
  then "Next lab check in 12 hours (critical first 24 hours)"
  else "Next lab check in 24 hours (monitoring improvement)".

(** The two rates before rounding, as the local variables
    [maintenanceRate] and [fluidRatePerHour] hold them. *)
Definition rawMaintenanceRate (weight : number) : number :=
  if le weight (Fin 10) then mul weight (Fin 4)
  else add (mul (Fin 10) (Fin 4)) (mul (sub weight (Fin 10)) (Fin 2)).

Definition rawFluidRate (weight : number) : number :=
  if le weight (Fin 10) then mul weight (Fin 6)
  else add (mul (Fin 10) (Fin 6)) (mul (sub weight (Fin 10)) (Fin 3)).

(** [calculateIHPSFluidPlan]. *)
Definition calculateIHPSFluidPlan (s : Snapshot) : FluidPlan :=
  let maintenanceRate := rawMaintenanceRate (weight s) in
  let fluidRatePerHour := rawFluidRate (weight s) in
  let fluidSelection :=
    selectOptimalFluidEnhanced (sodium s) (potassium s) (chloride s) (ph s)
      (glucose s) (creatinine s) (bun s) (hct s) (lactate s) in
  let bolusRecommendation :=
    calculateBolusRecommendation (sodium s) (chloride s) (ph s) (weight s)
      (hct s) (lactate s) in
  let correctionTime :=
    calculateCorrectionTime (sodium s) (potassium s) (chloride s) (ph s)
      (weight s) in
  let totalFluidVolume := mul fluidRatePerHour (ofZ correctionTime) in
  let alerts :=
    generateSimpleAlerts (sodium s) (potassium s) (chloride s) (ph s) in
  let recheckInterval :=
    if (correctionTime <=? 24)%Z then "12 hours" else "24 hours" in
  {| fluidType := FluidSelection.fluid fluidSelection;
     fluidSelectionReason := FluidSelection.reason fluidSelection;
     fluidRatePerHour := round fluidRatePerHour;
     maintenanceRate := round maintenanceRate;
     correctionTime := correctionTime;
     totalFluidVolume := round totalFluidVolume;
     bolusRecommendation := bolusRecommendation;
     alerts := alerts;
     recheckInterval := recheckInterval;
     nextLabCheck := calculateNextLabCheck correctionTime |}.

(** ** The boundary: [validateInputs] and the [/calculate] handler *)

(** A field of the request body: a number, or absent ([undefined],
    [None]).  A relational operator coerces [undefined] to [NaN];
    [parseFloat] of a number gives the number, of [undefined] [NaN]. *)
Definition toNumber (v : option Q) : number :=
  match v with Some q => Fin q | None => NaN end.

Definition parseFloat (v : option Q) : number := toNumber v.

(** [v ? parseFloat(v) : null]: absent and zero are falsy. *)
Definition parseOptional (v : option Q) : option number :=
  if truthy (toNumber v) then Some (parseFloat v) else None.

Record Request : Type := mkRequest {
  req_sodium : option Q;
  req_potassium : option Q;
  req_chloride : option Q;
  req_ph : option Q;
  req_weight : option Q;
  req_urineOutput : option Q;
  req_glucose : option Q;
  req_pco2 : option Q;
  req_hct : option Q;
  req_lactate : option Q;
  req_be : option Q;
  req_hco3 : option Q;
  req_creatinine : option Q;
  req_bun : option Q
}.

Record Validation : Type := mkValidation {
  valid : bool;
  error : option string
}.

Definition invalid (msg : string) : Validation := mkValidation false (Some msg).

Definition validateInputs (sodium potassium chloride ph weight : option Q)
    : Validation :=
  if lt (toNumber sodium) (Fin 120) || gt (toNumber sodium) (Fin 155) then
    invalid "Sodium must be between 120-155 mmol/L"
  else if lt (toNumber potassium) (Fin 2.0) || gt (toNumber potassium) (Fin 8.0) then
    invalid "Potassium must be between 2.0-8.0 mmol/L"
  else if lt (toNumber chloride) (Fin 60) || gt (toNumber chloride) (Fin 120) then
    invalid "Chloride must be between 60-120 mmol/L"
  else if lt (toNumber ph) (Fin 7.0) || gt (toNumber ph) (Fin 7.7) then
    invalid "pH must be between 7.0-7.7"
  else if lt (toNumber weight) (Fin 1.0) || gt (toNumber weight) (Fin 10.0) then
    invalid "Weight must be between 1.0-10.0 kg"
  else mkValidation true None.

Inductive Response : Type :=
| Failure (error : option string)
| Success (plan : FluidPlan).

(** The snapshot the handler builds from a body whose fields are numbers
    or absent; the destructuring default [urineOutput = 1] applies when
    the field is absent. *)
Definition snapshotOfRequest (r : Request) : Snapshot :=
  {| sodium := parseFloat (req_sodium r);
     potassium := parseFloat (req_potassium r);
     chloride := parseFloat (req_chloride r);
     ph := parseFloat (req_ph r);
     weight := parseFloat (req_weight r);
     urineOutput :=
       parseFloat (match req_urineOutput r with
                   | None => Some 1
                   | Some q => Some q
                   end);
     glucose := parseOptional (req_glucose r);
     pco2 := parseOptional (req_pco2 r);
     hct := parseOptional (req_hct r);
     lactate := parseOptional (req_lactate r);
     be := parseOptional (req_be r);
     hco3 := parseOptional (req_hco3 r);
     creatinine := parseOptional (req_creatinine r);
     bun := parseOptional (req_bun r) |}.

(** ** The handler with its [catch] branch *)

(** A value of a body field: absent, a number, or a value whose
    conversion to a primitive throws a [TypeError] (a JSON object with an
    own [toString] property, such as [{"toString": 1}]).  Such a value is
    truthy, and both a relational operator and [parseFloat] throw on it.
    Strings, [null], booleans and arrays are not represented. *)
Inductive BodyValue : Type :=
| Absent : BodyValue
| Numeric (q : Q) : BodyValue
| Unconvertible : BodyValue.

Record Body : Type := mkBody {
  body_sodium : BodyValue;
  body_potassium : BodyValue;
  body_chloride : BodyValue;
  body_ph : BodyValue;
  body_weight : BodyValue;
  body_urineOutput : BodyValue;
  body_glucose : BodyValue;
  body_pco2 : BodyValue;
  body_hct : BodyValue;
  body_lactate : BodyValue;
  body_be : BodyValue;
  body_hco3 : BodyValue;
  body_creatinine : BodyValue;
  body_bun : BodyValue
}.

(** A step that may throw returns [None] when it does. *)
Definition bind {A B : Type} (m : option A) (f : A -> option B) : option B :=
  match m with
  | Some a => f a
  | None => None
  end.

(** The coercion of a relational operator, and [parseFloat]. *)
Definition toNumberRaw (v : BodyValue) : option number :=
  match v with
  | Absent => Some NaN
  | Numeric q => Some (Fin q)
  | Unconvertible => None
  end.

Definition parseFloatRaw (v : BodyValue) : option number := toNumberRaw v.

Definition truthyRaw (v : BodyValue) : bool :=
  match v with
  | Absent => false
  | Numeric q => truthy (Fin q)
  | Unconvertible => true
  end.

(** [v ? parseFloat(v) : null]. *)
Definition parseOptionalRaw (v : BodyValue) : option (option number) :=
  if truthyRaw v then bind (parseFloatRaw v) (fun n => Some (Some n))
  else Some None.

(** [v < lo || v > hi]. *)
Definition rangeTest (lo hi : Q) (v : BodyValue) : option bool :=
  bind (toNumberRaw v) (fun n => Some (lt n (Fin lo) || gt n (Fin hi))).

(** [validateInputs] on arbitrary values: the checks run in order and the
    first one that fails returns, so a later value is not converted. *)
Definition validateInputsRaw (sodium potassium chloride ph weight : BodyValue)
    : option Validation :=
  bind (rangeTest 120 155 sodium) (fun bad =>
  if bad then Some (invalid "Sodium must be between 120-155 mmol/L") else
  bind (rangeTest 2.0 8.0 potassium) (fun bad =>
  if bad then Some (invalid "Potassium must be between 2.0-8.0 mmol/L") else
  bind (rangeTest 60 120 chloride) (fun bad =>
  if bad then Some (invalid "Chloride must be between 60-120 mmol/L") else
  bind (rangeTest 7.0 7.7 ph) (fun bad =>
  if bad then Some (invalid "pH must be between 7.0-7.7") else
  bind (rangeTest 1.0 10.0 weight) (fun bad =>
  if bad then Some (invalid "Weight must be between 1.0-10.0 kg") else
  Some (mkValidation true None)))))).

(** The argument object of the call to [calculateIHPSFluidPlan]. *)
Definition snapshotOfBody (b : Body) : option Snapshot :=
  bind (parseFloatRaw (body_sodium b)) (fun sodium =>
  bind (parseFloatRaw (body_potassium b)) (fun potassium =>
  bind (parseFloatRaw (body_chloride b)) (fun chloride =>
  bind (parseFloatRaw (body_ph b)) (fun ph =>
  bind (parseFloatRaw (body_weight b)) (fun weight =>
  bind (parseFloatRaw (match body_urineOutput b with
                       | Absent => Numeric 1
                       | v => v
                       end)) (fun urineOutput =>
  bind (parseOptionalRaw (body_glucose b)) (fun glucose =>
  bind (parseOptionalRaw (body_pco2 b)) (fun pco2 =>
  bind (parseOptionalRaw (body_hct b)) (fun hct =>
  bind (parseOptionalRaw (body_lactate b)) (fun lactate =>
  bind (parseOptionalRaw (body_be b)) (fun be =>
  bind (parseOptionalRaw (body_hco3 b)) (fun hco3 =>
  bind (parseOptionalRaw (body_creatinine b)) (fun creatinine =>
  bind (parseOptionalRaw (body_bun b)) (fun bun =>
  Some (mkSnapshot sodium potassium chloride ph weight urineOutput glucose
          pco2 hct lactate be hco3 creatinine bun))))))))))))))).

Definition calculationError : string := "An error occurred during calculation".

(** The [/calculate] handler.  [None] is a request whose [req.body] is
    [undefined]: the destructuring throws.  Whatever throws inside the
    [try] block is answered by the [catch] branch. *)
Definition postCalculateHandler (body : option Body) : Response :=
  match body with
  | None => Failure (Some calculationError)
  | Some b =>
    match validateInputsRaw (body_sodium b) (body_potassium b)
            (body_chloride b) (body_ph b) (body_weight b) with
    | None => Failure (Some calculationError)
    | Some validation =>
      if negb (valid validation) then Failure (error validation)
      else match snapshotOfBody b with
           | None => Failure (Some calculationError)
           | Some s => Success (calculateIHPSFluidPlan s)
           end
    end
  end.

(** A body whose fields are numbers or absent. *)
Definition valueOfOption (v : option Q) : BodyValue :=
  match v with
  | Some q => Numeric q
  | None => Absent
  end.

Definition bodyOfRequest (r : Request) : Body :=
  {| body_sodium := valueOfOption (req_sodium r);
     body_potassium := valueOfOption (req_potassium r);
     body_chloride := valueOfOption (req_chloride r);
     body_ph := valueOfOption (req_ph r);
     body_weight := valueOfOption (req_weight r);
     body_urineOutput := valueOfOption (req_urineOutput r);
     body_glucose := valueOfOption (req_glucose r);
     body_pco2 := valueOfOption (req_pco2 r);
     body_hct := valueOfOption (req_hct r);
     body_lactate := valueOfOption (req_lactate r);
     body_be := valueOfOption (req_be r);
     body_hco3 := valueOfOption (req_hco3 r);
     body_creatinine := valueOfOption (req_creatinine r);
     body_bun := valueOfOption (req_bun r) |}.

(** The handler on a body whose fields are numbers or absent. *)
Definition postCalculate (r : Request) : Response :=
  postCalculateHandler (Some (bodyOfRequest r)).

(** ** Validity of a snapshot *)

(** A required field is valid when it is a finite number inside its
    declared range. *)
Definition inRange (lo hi : Q) (n : number) : Prop :=
  match n with
  | Fin q => lo <= q /\ q <= hi
  | NaN => False
  end.

Definition validSnapshot (s : Snapshot) : Prop :=
  inRange 120 155 (sodium s) /\
  inRange 2.0 8.0 (potassium s) /\
  inRange 60 120 (chloride s) /\
  inRange 7.0 7.7 (ph s) /\
  inRange 1.0 10.0 (weight s).

(** ** The correction-time rules as the specification words them *)

Definition within (lo x hi : Q) : bool := Qle_bool lo x && Qltb x hi.
Definition withinRight (lo x hi : Q) : bool := Qltb lo x && Qle_bool x hi.

Definition specSodiumRule (na : Q) (t : Z) : Z :=
  if Qltb na 130 then 36%Z
  else if within 130 na 135 then 24%Z
  else if Qle_bool 135 na then 12%Z
  else t.

Definition specChlorideRule (cl : Q) (t : Z) : Z :=
  if Qltb cl 70 then Z.max t 36
  else if within 70 cl 90 then Z.max t 24
  else t.

Definition specPhRule (pH : Q) (t : Z) : Z :=
  if Qltb 7.55 pH then Z.max t 24
  else if withinRight 7.45 pH 7.55 then Z.max t 18
  else t.

Definition specCorrectionTime (na cl pH w : Q) : Z :=
  let t := specPhRule pH (specChlorideRule cl (specSodiumRule na 12)) in
  if Qltb w 3.0 then (t + 6)%Z else t.

(** The values a correction time can take. *)
Definition correctionTimes : list Z := [12; 18; 24; 30; 36; 42]%Z.

(** The fixed evaluation order of the alert checks, as a table. *)
Definition alertTable (sodium potassium chloride ph : number)
    : list (bool * string) :=
  [ (lt potassium (Fin 3.0), alertHypokalaemia);
    (gt potassium (Fin 5.5), alertHyperkalaemia);
    (lt sodium (Fin 130), alertHyponatremia);
    (lt chloride (Fin 70), alertHypochloremia);
    (gt ph (Fin 7.55), alertAlkalosis) ].

(** ** Example inputs *)

(** A snapshot with the five required values and nothing else measured,
    as the handler builds it from a body that has only those fields. *)
Definition requiredOnly (na k cl pH w : Q) : Snapshot :=
  {| sodium := Fin na; potassium := Fin k; chloride := Fin cl; ph := Fin pH;
     weight := Fin w; urineOutput := Fin 1;
     glucose := None; pco2 := None; hct := None; lactate := None;
     be := None; hco3 := None; creatinine := None; bun := None |}.

(** The first worked example of the specification: sodium 129,
    potassium 2.8, chloride 67, pH 7.4, weight 3.2. *)
Definition exampleSevere : Snapshot := requiredOnly 129 2.8 67 7.4 3.2.

(** The second worked example: sodium 140, potassium 4.0, chloride 105,
    pH 7.4, weight 5. *)
Definition exampleNormal : Snapshot := requiredOnly 140 4.0 105 7.4 5.

(** A body with sodium, potassium, chloride and pH in range and no
    [weight] field. *)
Definition bodyWithoutWeight : Request :=
  {| req_sodium := Some 140; req_potassium := Some 4.0;
     req_chloride := Some 105; req_ph := Some 7.4; req_weight := None;
     req_urineOutput := None; req_glucose := None; req_pco2 := None;
     req_hct := None; req_lactate := None; req_be := None; req_hco3 := None;
     req_creatinine := None; req_bun := None |}.

(** The four solutions the glucose/sodium tree can select, without the
    KCl additive. *)
Definition baseLabels : list string :=
  ["D10 1/2 NS"; "D10 NS"; "D5 1/2 NS"; "NS + 5% Dextrose"].

(** ** The severity-score protocol

    The functions below [calculateNextLabCheck] in [server.js] are not
    reached from the [/calculate] handler.  Their arguments are embedded
    with the types the live path gives the same names: numbers for
    [sodium], [potassium], [weight], [age] and [severityScore], a number
    or [null] for [creatinine] and [bun]. *)

(** A relational operator coerces [null] to [+0]. *)
Definition nullToNumber (a : option number) : number :=
  match a with None => Fin 0 | Some n => n end.

(** [creatinine > 110 || bun > 20]. *)
Definition renalImpairment (creatinine bun : option number) : bool :=
  gt (nullToNumber creatinine) (Fin 110) || gt (nullToNumber bun) (Fin 20).

(** [determinePatientCategory]. *)
Definition determinePatientCategory (severityScore : number) : string :=
  if gt severityScore (Fin 60) then "Severe Depletion"
  else if gt severityScore (Fin 20) then "Classic IHPS"
  else "Compensated IHPS".

Module OptimalFluid.
Record t : Type := mk {
  fluid : string;
  baseFluid : string;
  kclDose : Z;
  selectionReason : string
}.
End OptimalFluid.

(** The template literal prints the integer [kclDose] in decimal. *)
Definition numberToString (z : Z) : string :=
  NilZero.string_of_int (Z.to_int z).

(** [selectOptimalFluid]; [chloride], [ph] and [patientCategory] are
    destructured but unused. *)
Definition selectOptimalFluid
    (sodium potassium : number) (creatinine bun : option number)
    : OptimalFluid.t :=
  let fluid :=
    if lt sodium (Fin 135) then "NS + 5% Dextrose"
    else if ge sodium (Fin 135) && lt sodium (Fin 140) then "D5 1/2 NS"
    else "D5 1/2 NS" in
  let fluid :=
    if renalImpairment creatinine bun then
      if lt sodium (Fin 135) then "D10 1/2 NS" else "D10 1/2 NS"
    else fluid in
  let kclDose :=
    if lt potassium (Fin 3.0) then 40%Z
    else if lt potassium (Fin 3.5) then 30%Z
    else if gt potassium (Fin 5.0) then 0%Z
    else 20%Z in
  OptimalFluid.mk
    (fluid ++ " + " ++ numberToString kclDose ++ " mEq/L KCl")
    fluid
    kclDose
    (if lt sodium (Fin 135) then "Low sodium - using NS + 5% Dextrose"
     else "Normal sodium - using D5 1/2 NS").

Module InfusionRate.
Record t : Type := mk {
  ratePerKg : number;
  totalVolumePerHour : number;
  baseMaintenanceRate : number;
  ihpsMultiplier : number
}.
End InfusionRate.

(** [calculateInfusionRate]; [severityScore] and [patientCategory] are
    destructured but unused. *)
Definition calculateInfusionRate (weight : number) : InfusionRate.t :=
  let baseRate :=
    if ge weight (Fin 1) && le weight (Fin 10) then Fin 4
    else if gt weight (Fin 10) && le weight (Fin 20) then Fin 2
    else Fin 4 in
  let ihpsRate := mul baseRate (Fin 1.5) in
  let totalVolumePerHour := round (mul weight ihpsRate) in
  InfusionRate.mk ihpsRate totalVolumePerHour baseRate (Fin 1.5).

(** [estimateCorrectionTime]; only [creatinine], [bun] and
    [severityScore] are used. *)
Definition estimateCorrectionTime
    (creatinine bun : option number) (severityScore : number) : Z :=
  let baseTime := 12%Z in
  let baseTime :=
    if gt severityScore (Fin 60) then 48%Z
    else if gt severityScore (Fin 20) then 24%Z
    else 12%Z in
  let baseTime :=
    if renalImpairment creatinine bun then (baseTime + 24)%Z else baseTime in
  baseTime.

(** [determineMonitoringInterval]. *)
Definition determineMonitoringInterval
    (severityScore : number) (patientCategory : string) : string :=
  if gt severityScore (Fin 60) || (patientCategory =? "Severe Depletion")%string
  then "4 hours"
  else if gt severityScore (Fin 20) then "6 hours"
  else "8 hours".

(** [generateClinicalAlerts]: each alert is an object with a [type] and a
    [message]. *)
Record ClinicalAlert : Type := mkAlert {
  alertType : string;
  alertMessage : string
}.

Definition pushAlert (c : bool) (a : ClinicalAlert) (arr : list ClinicalAlert)
    : list ClinicalAlert :=
  if c then arr ++ [a] else arr.

Definition generateClinicalAlerts
    (sodium potassium chloride ph : number) (creatinine bun : option number)
    (weight age : number) (patientCategory : string) : list ClinicalAlert :=
  let alerts := [] in
  let alerts :=
    pushAlert (lt potassium (Fin 3.0))
      (mkAlert "critical"
         "Severe hypokalaemia - supplement aggressively with 40 mEq/L KCl")
      alerts in
  let alerts :=
    pushAlert (gt potassium (Fin 5.5))
      (mkAlert "critical"
         "Hyperkalaemia risk - hold KCl supplementation, monitor closely")
      alerts in
  let alerts :=
    pushAlert (renalImpairment creatinine bun)
      (mkAlert "critical"
         "Renal impairment - reduce fluid rate, consider nephrology consult")
      alerts in
  let alerts :=
    pushAlert (gt ph (Fin 7.55))
      (mkAlert "critical"
         "Severe alkalosis - slow correction needed, monitor closely")
      alerts in
  let alerts :=
    pushAlert (lt sodium (Fin 130) && lt chloride (Fin 80))
      (mkAlert "warning" "Severe depletion - consider bolus therapy")
      alerts in
  let alerts :=
    pushAlert (lt weight (Fin 3.0))
      (mkAlert "warning" "Low weight infant - adjust rates carefully")
      alerts in
  let alerts :=
    pushAlert (lt age (Fin 30))
      (mkAlert "warning"
         "Very young infant - more conservative approach needed")
      alerts in
  let alerts :=
    pushAlert (patientCategory =? "Severe Depletion")%string
      (mkAlert "info" "High-risk case - frequent monitoring required")
      alerts in
  alerts.

(** ** Auxiliary notions for the properties *)

(** A request field that is present and outside [lo, hi]. *)
Definition outOfRange (lo hi : Q) (v : option Q) : Prop :=
  match v with
  | Some q => q < lo \/ hi < q
  | None => False
  end.

(** Replacing one laboratory value of a snapshot. *)
Definition setSodium (n : number) (s : Snapshot) : Snapshot :=
  mkSnapshot n (potassium s) (chloride s) (ph s) (weight s) (urineOutput s)
    (glucose s) (pco2 s) (hct s) (lactate s) (be s) (hco3 s) (creatinine s)
    (bun s).

Definition setPotassium (n : number) (s : Snapshot) : Snapshot :=
  mkSnapshot (sodium s) n (chloride s) (ph s) (weight s) (urineOutput s)
    (glucose s) (pco2 s) (hct s) (lactate s) (be s) (hco3 s) (creatinine s)
    (bun s).

Definition setChloride (n : number) (s : Snapshot) : Snapshot :=
  mkSnapshot (sodium s) (potassium s) n (ph s) (weight s) (urineOutput s)
    (glucose s) (pco2 s) (hct s) (lactate s) (be s) (hco3 s) (creatinine s)
    (bun s).

Definition setPh (n : number) (s : Snapshot) : Snapshot :=
  mkSnapshot (sodium s) (potassium s) (chloride s) n (weight s) (urineOutput s)
    (glucose s) (pco2 s) (hct s) (lactate s) (be s) (hco3 s) (creatinine s)
    (bun s).

(** The order of alert types in which [generateClinicalAlerts] pushes. *)
Definition typeRank (ty : string) : nat :=
  if (ty =? "critical")%string then 0
  else if (ty =? "warning")%string then 1
  else 2.

(** ** Notions used to state the arithmetic properties *)

(** The exponent of the binade that the binary64 format uses for a
    positive [a]. *)
Definition binade (a : Q) : Z := Z.max (ilog2 a) (-1022).

(** The double product of the doubles of [x] and [y], when neither is
    infinite. *)
Definition mul64 (x y : Q) : Q := rnd64 (rnd64 x * rnd64 y).

(** [z] is the integer nearest to [v], a tie going up. *)
Definition nearestInteger (v : Q) (z : Z) : Prop :=
  inject_Z z - (1 # 2) <= v /\ v < inject_Z z + (1 # 2).

(** Magnitudes up to [2^53], far from the overflow threshold. *)
Definition small (q : Q) : Prop :=
  - inject_Z (2 ^ 53) <= q /\ q <= inject_Z (2 ^ 53).

(** The value of an unrounded rate at weight [w]: [w * lo] up to 10 kg,
    [10 * lo + (w - 10) * rest] above, each operation rounded to
    binary64.  Rounding with saturation covers the overflow cases. *)
Definition rateValue (lo rest : Z) (w : Q) : Q :=
  if Qle_bool w 10 then rnd64 (rnd64 w * inject_Z lo)
  else rnd64 (inject_Z (10 * lo)
              + rnd64 (rnd64 (rnd64 w - 10) * inject_Z rest)).

(** ** Conversion to and from the kernel's binary64 floats

    Used to compare the arithmetic above with the [PrimFloat] operations
    on sample operands. *)
(** The odd part and the number of trailing zero bits of a positive
    integer. *)
Fixpoint oddPart (p : positive) : positive * Z :=
  match p with
  | xO p' => let (m, e) := oddPart p' in (m, (e + 1)%Z)
  | _ => (p, 0%Z)
  end.

(** The float with the value of the double [rnd64 q]. *)
Definition float_of_Q (q : Q) : float :=
  let d := rnd64 q in
  if isInf d then (if Qltb d 0 then neg_infinity else PrimFloat.infinity)
  else
    match Qnum d with
    | Z0 => zero
    | Zpos p =>
      let (m, e) := oddPart p in
      SF2Prim (S754_finite false m (e - Z.log2 (Z.pos (Qden d))))
    | Zneg p =>
      let (m, e) := oddPart p in
      SF2Prim (S754_finite true m (e - Z.log2 (Z.pos (Qden d))))
    end.

(** The number that a float stands for. *)
Definition number_of_float (f : float) : number :=
  match Prim2SF f with
  | S754_zero _ => Fin 0
  | S754_infinity s => Fin (if s then - infinity else infinity)
  | S754_nan => NaN
  | S754_finite s m e =>
    Fin (Qred ((if s then - inject_Z (Z.pos m) else inject_Z (Z.pos m)) * pow2 e))
  end.

Definition sameNumber (a b : number) : bool :=
  match a, b with
  | NaN, NaN => true
  | Fin x, Fin y => Qeq_bool x y
  | _, _ => false
  end.

Definition agreesOn (op : number -> number -> number)
    (fop : float -> float -> float) (x y : Q) : bool :=
  sameNumber (op (Fin x) (Fin y))
             (number_of_float (fop (float_of_Q x) (float_of_Q y))).

Definition samples : list (Q * Q) :=
  [ (1.025, 6); (6.1499999999999995, 30); (1.0833333333333333, 6);
    (1.8499999999999999, 10); (11.499999999999998, 10); (1.499999999999998, 3);
    (60, 4.499999999999994); (3.2, 6); (19.200000000000003, 36);
    (10.001, 4); (0.1, 0.2); (0.1, 3); (1e308, 10); (-1e308, 10);
    (1e400, 0); (1e400, -1e400); (1e400, 1e-320); (1e-320, 0.001);
    (4.9e-324, 0.5); (1.7976931348623157e308, 1.0000000000000002);
    (9007199254740993, 1); (0, -5); (2.5e-308, 0.3); (7.55, 7.45) ].

(** * Properties *)

(** ** Comparisons *)

Lemma Qltb_spec (x y : Q) : reflect (x < y) (Qltb x y).
Proof.
  unfold Qltb. destruct (Qle_bool y x) eqn:E; simpl; constructor.
  - apply Qle_bool_iff in E. lra.
  - apply Qnot_le_lt. intro L. apply Qle_bool_iff in L. congruence.
Qed.

Lemma Qleb_spec (x y : Q) : reflect (x <= y) (Qle_bool x y).
Proof.
  destruct (Qle_bool x y) eqn:E; constructor.
  - apply Qle_bool_iff; exact E.
  - intro L. apply Qle_bool_iff in L. congruence.
Qed.

Lemma Qeqb_spec (x y : Q) : reflect (x == y) (Qeq_bool x y).
Proof.
  destruct (Qeq_bool x y) eqn:E; constructor.
  - apply Qeq_bool_iff; exact E.
  - intro L. apply Qeq_bool_iff in L. congruence.
Qed.

Lemma lt_Fin (x y : Q) : lt (Fin x) (Fin y) = true <-> x < y.
Proof. simpl. destruct (Qltb_spec x y); split; auto; discriminate. Qed.

Lemma gt_Fin (x y : Q) : gt (Fin x) (Fin y) = true <-> y < x.
Proof. unfold gt. apply lt_Fin. Qed.

Lemma le_Fin (x y : Q) : le (Fin x) (Fin y) = true <-> x <= y.
Proof. simpl. apply Qle_bool_iff. Qed.

(** Split every rational comparison in the goal into its two outcomes
    and discharge the impossible combinations by linear arithmetic. *)
Ltac split_cmp :=
  repeat match goal with
         | |- context [Qltb ?a ?b] => destruct (Qltb_spec a b)
         | |- context [Qle_bool ?a ?b] => destruct (Qleb_spec a b)
         | |- context [Qeq_bool ?a ?b] => destruct (Qeqb_spec a b)
         end.

Ltac unfold_cmp :=
  unfold gt, ge, lt, le, within, withinRight in *.

(** Order facts between rational literals. *)
Ltac q_concrete := unfold Qle, Qlt, Qeq; simpl; lia.

Ltac cmp_cases := unfold_cmp; split_cmp; simpl; try reflexivity; try lra.

(** * Binary64 rounding *)

(** ** Powers of two *)

Lemma pow2_pos (e : Z) : 0 < pow2 e.
Proof. unfold pow2. apply Qpower_0_lt. reflexivity. Qed.

Lemma pow2_add (a b : Z) : pow2 (a + b) == pow2 a * pow2 b.
Proof. unfold pow2. apply Qpower_plus. discriminate. Qed.

Lemma pow2_succ (a : Z) : pow2 (a + 1) == 2 * pow2 a.
Proof. rewrite pow2_add. unfold pow2 at 2. simpl. lra. Qed.

Lemma pow2_le (a b : Z) : (a <= b)%Z -> pow2 a <= pow2 b.
Proof. intro H. unfold pow2. apply Qpower_le_compat_l; [exact H | lra]. Qed.

Lemma pow2_lt (a b : Z) : (a < b)%Z -> pow2 a < pow2 b.
Proof. intro H. unfold pow2. apply Qpower_lt_compat_l; [exact H | lra]. Qed.

Lemma pow2_lt_inv (a b : Z) : pow2 a < pow2 b -> (a < b)%Z.
Proof. intro H. unfold pow2 in H. apply Qpower_lt_compat_l_inv in H; [exact H | lra]. Qed.

Lemma pow2_inject (n : Z) : (0 <= n)%Z -> pow2 n == inject_Z (2 ^ n).
Proof. intro H. unfold pow2. rewrite Zpower_Qpower by exact H. reflexivity. Qed.

(** ** The binade of a positive rational *)

Lemma Q_as_quotient (a : Q) :
  a * inject_Z (Z.pos (Qden a)) == inject_Z (Qnum a).
Proof.
  destruct a as [n d]. unfold Qeq, inject_Z, Qmult. simpl. lia.
Qed.

Lemma log2_bounds (n : Z) :
  (0 < n)%Z ->
  pow2 (Z.log2 n) <= inject_Z n /\ inject_Z n < 2 * pow2 (Z.log2 n).
Proof.
  intro H. destruct (Z.log2_spec n H) as [L U].
  pose proof (Z.log2_nonneg n) as Hn.
  rewrite pow2_inject by exact Hn. split.
  - rewrite <- Zle_Qle. exact L.
  - rewrite Z.pow_succ_r in U by exact Hn.
    change 2 with (inject_Z 2). rewrite <- inject_Z_mult, <- Zlt_Qlt. exact U.
Qed.

Lemma ilog2_spec (a : Q) :
  0 < a -> pow2 (ilog2 a) <= a /\ a < pow2 (ilog2 a + 1).
Proof.
  intro Ha.
  pose proof (Q_as_quotient a) as Hq.
  assert (Hn : (0 < Qnum a)%Z).
  { destruct a as [n d]. unfold Qlt in Ha. simpl in *. lia. }
  destruct (log2_bounds Hn) as [Ln Un].
  destruct (log2_bounds (n := Z.pos (Qden a)) eq_refl) as [Ld Ud].
  set (N := inject_Z (Qnum a)) in *. set (D := inject_Z (Z.pos (Qden a))) in *.
  set (ln := Z.log2 (Qnum a)) in *. set (ld := Z.log2 (Z.pos (Qden a))) in *.
  pose proof (pow2_pos ln) as Pn. pose proof (pow2_pos ld) as Pd.
  pose proof (pow2_pos (ln - ld)) as Pe.
  assert (He : pow2 (ln - ld) * pow2 ld == pow2 ln).
  { rewrite <- pow2_add. replace (ln - ld + ld)%Z with ln by lia. reflexivity. }
  assert (Hup : a < 2 * pow2 (ln - ld)) by nra.
  assert (Hlo : pow2 (ln - ld) < 2 * a) by nra.
  unfold ilog2. fold ln ld.
  destruct (Qle_bool (pow2 (ln - ld)) a) eqn:E.
  - apply Qle_bool_iff in E. split; [exact E|]. rewrite pow2_succ. exact Hup.
  - assert (E' : a < pow2 (ln - ld)).
    { apply Qnot_le_lt. intro L. apply Qle_bool_iff in L. congruence. }
    replace (ln - ld - 1 + 1)%Z with (ln - ld)%Z by lia.
    split; [|exact E'].
    assert (H2 : 2 * pow2 (ln - ld - 1) == pow2 (ln - ld)).
    { rewrite <- pow2_succ. replace (ln - ld - 1 + 1)%Z with (ln - ld)%Z by lia.
      reflexivity. }
    lra.
Qed.

Lemma ilog2_unique (a : Q) (e : Z) :
  pow2 e <= a -> a < pow2 (e + 1) -> ilog2 a = e.
Proof.
  intros L U.
  assert (Ha : 0 < a) by (pose proof (pow2_pos e); lra).
  destruct (ilog2_spec Ha) as [L' U'].
  assert (A : (e < ilog2 a + 1)%Z) by (apply pow2_lt_inv; lra).
  assert (B : (ilog2 a < e + 1)%Z) by (apply pow2_lt_inv; lra).
  lia.
Qed.

Lemma ilog2_comp (a b : Q) : 0 < a -> a == b -> ilog2 a = ilog2 b.
Proof.
  intros Ha E. destruct (ilog2_spec Ha) as [L U].
  symmetry. apply ilog2_unique; rewrite <- E; assumption.
Qed.

Lemma ilog2_mono (a b : Q) : 0 < a -> a <= b -> (ilog2 a <= ilog2 b)%Z.
Proof.
  intros Ha H. destruct (ilog2_spec Ha) as [L _].
  assert (Hb : 0 < b) by lra. destruct (ilog2_spec Hb) as [_ U].
  assert (A : (ilog2 a < ilog2 b + 1)%Z) by (apply pow2_lt_inv; lra).
  lia.
Qed.

(** ** Rounding to the nearest integer, ties to even *)

Lemma rne_cases (m : Q) :
  let f := Qfloor m in
  (m - inject_Z f < 1 # 2 /\ rne m = f) \/
  (1 # 2 < m - inject_Z f /\ rne m = (f + 1)%Z) \/
  (m - inject_Z f == 1 # 2 /\ rne m = if Z.even f then f else (f + 1)%Z).
Proof.
  cbv zeta. unfold rne.
  destruct (Qcompare_spec (m - inject_Z (Qfloor m)) (1 # 2)) as [E|L|G].
  - right. right. split; [exact E | reflexivity].
  - left. split; [exact L | reflexivity].
  - right. left. split; [exact G | reflexivity].
Qed.

Lemma Qfloor_bounds (m : Q) :
  inject_Z (Qfloor m) <= m /\ m < inject_Z (Qfloor m) + 1.
Proof.
  split; [apply Qfloor_le|].
  pose proof (Qlt_floor m) as H. rewrite inject_Z_plus in H. exact H.
Qed.

Lemma rne_near (m : Q) :
  inject_Z (rne m) - (1 # 2) <= m /\ m <= inject_Z (rne m) + (1 # 2).
Proof.
  destruct (Qfloor_bounds m) as [L U].
  destruct (rne_cases m) as [[H E]|[[H E]|[H E]]]; rewrite E.
  - lra.
  - rewrite inject_Z_plus. change (inject_Z 1) with 1. lra.
  - destruct (Z.even (Qfloor m)); [lra|].
    rewrite inject_Z_plus. change (inject_Z 1) with 1. lra.
Qed.

Lemma rne_comp (x y : Q) : x == y -> rne x = rne y.
Proof.
  intro E. unfold rne. rewrite (Qfloor_comp _ _ E).
  assert (E' : x - inject_Z (Qfloor y) == y - inject_Z (Qfloor y))
    by (rewrite E; reflexivity).
  rewrite (Qcompare_comp _ _ E' _ _ (Qeq_refl (1 # 2))). reflexivity.
Qed.

Lemma Qfloor_eq (x : Q) (z : Z) :
  inject_Z z <= x -> x < inject_Z z + 1 -> Qfloor x = z.
Proof.
  intros H1 H2. destruct (Qfloor_bounds x) as [F1 F2].
  assert (A : inject_Z (Qfloor x) < inject_Z (z + 1))
    by (rewrite inject_Z_plus; change (inject_Z 1) with 1; lra).
  assert (B : inject_Z z < inject_Z (Qfloor x + 1))
    by (rewrite inject_Z_plus; change (inject_Z 1) with 1; lra).
  rewrite <- Zlt_Qlt in A, B. lia.
Qed.

Lemma rne_Z (k : Z) : rne (inject_Z k) = k.
Proof.
  assert (F : Qfloor (inject_Z k) = k) by (apply Qfloor_eq; lra).
  destruct (rne_cases (inject_Z k)) as [[H E]|[[H E]|[H E]]];
    rewrite F in *; [exact E | lra | lra].
Qed.

Lemma rne_mono (x y : Q) : x <= y -> (rne x <= rne y)%Z.
Proof.
  intro H.
  destruct (Qfloor_bounds x) as [Lx Ux]. destruct (Qfloor_bounds y) as [Ly Uy].
  pose proof (Qfloor_resp_le _ _ H) as Hf.
  destruct (Z.eq_dec (Qfloor x) (Qfloor y)) as [E|N].
  - destruct (rne_cases x) as [[Hx Ex]|[[Hx Ex]|[Hx Ex]]];
      destruct (rne_cases y) as [[Hy Ey]|[[Hy Ey]|[Hy Ey]]];
      rewrite Ex, Ey; rewrite E in *; try lia; try lra;
      destruct (Z.even (Qfloor y)); lia.
  - assert (Hlt : (Qfloor x + 1 <= Qfloor y)%Z) by lia.
    assert (A : (rne x <= Qfloor x + 1)%Z).
    { destruct (rne_cases x) as [[_ E]|[[_ E]|[_ E]]]; rewrite E; try lia.
      destruct (Z.even (Qfloor x)); lia. }
    assert (B : (Qfloor y <= rne y)%Z).
    { destruct (rne_cases y) as [[_ E]|[[_ E]|[_ E]]]; rewrite E; try lia.
      destruct (Z.even (Qfloor y)); lia. }
    lia.
Qed.

Lemma rne_nonneg (x : Q) : 0 <= x -> (0 <= rne x)%Z.
Proof.
  intro H. change 0%Z with (rne (inject_Z 0)) at 1.
  rewrite rne_Z. rewrite <- (rne_Z 0). apply rne_mono. exact H.
Qed.

(** ** Rounding a positive rational to 53 significant bits *)

Lemma ulp_eq (a : Q) : ulp a = pow2 (binade a - 52).
Proof. reflexivity. Qed.

Lemma pow2_inv (e : Z) : / pow2 e == pow2 (- e).
Proof. unfold pow2. rewrite Qpower_opp. reflexivity. Qed.

Lemma pow2_cancel (a b : Z) : pow2 a * pow2 (b - a) == pow2 b.
Proof. rewrite <- pow2_add. replace (a + (b - a))%Z with b by lia. reflexivity. Qed.

Lemma scaled_eq (a : Q) : a / ulp a == a * pow2 (52 - binade a).
Proof.
  rewrite ulp_eq. unfold Qdiv. rewrite pow2_inv.
  replace (- (binade a - 52))%Z with (52 - binade a)%Z by lia. reflexivity.
Qed.

Lemma roundPos_eq (a : Q) :
  roundPos a == inject_Z (rne (a * pow2 (52 - binade a))) * pow2 (binade a - 52).
Proof.
  unfold roundPos. rewrite (rne_comp (scaled_eq a)), ulp_eq. reflexivity.
Qed.

Lemma binade_comp (a b : Q) : 0 < a -> a == b -> binade a = binade b.
Proof. intros Ha E. unfold binade. rewrite (ilog2_comp Ha E). reflexivity. Qed.

Lemma roundPos_comp (a b : Q) : 0 < a -> a == b -> roundPos a == roundPos b.
Proof.
  intros Ha E. rewrite !roundPos_eq, (binade_comp Ha E).
  assert (E' : a * pow2 (52 - binade b) == b * pow2 (52 - binade b))
    by (rewrite E; reflexivity).
  rewrite (rne_comp E'). reflexivity.
Qed.

Lemma binade_bounds (a : Q) :
  0 < a -> a < pow2 (binade a + 1) /\ (-1022 <= binade a)%Z /\
  ((-1022 <= ilog2 a)%Z -> pow2 (binade a) <= a).
Proof.
  intro Ha. destruct (ilog2_spec Ha) as [L U]. unfold binade.
  split; [|split; [lia|]].
  - apply Qlt_le_trans with (1 := U). apply pow2_le. lia.
  - intro H. rewrite Z.max_l by lia. exact L.
Qed.

Lemma roundPos_nonneg (a : Q) : 0 < a -> 0 <= roundPos a.
Proof.
  intro Ha. rewrite roundPos_eq.
  pose proof (pow2_pos (52 - binade a)). pose proof (pow2_pos (binade a - 52)).
  assert (Hr : (0 <= rne (a * pow2 (52 - binade a)))%Z) by (apply rne_nonneg; nra).
  rewrite Zle_Qle in Hr. change (inject_Z 0) with 0 in Hr. nra.
Qed.

Lemma roundPos_upper (a : Q) : 0 < a -> roundPos a <= pow2 (binade a + 1).
Proof.
  intro Ha. destruct (binade_bounds Ha) as (U & _ & _).
  rewrite roundPos_eq.
  pose proof (pow2_pos (52 - binade a)) as P1.
  pose proof (pow2_pos (binade a - 52)) as P2.
  assert (S : a * pow2 (52 - binade a) <= inject_Z (2 ^ 53)).
  { rewrite <- pow2_inject by lia.
    rewrite <- (pow2_cancel (binade a + 1) 53).
    replace (53 - (binade a + 1))%Z with (52 - binade a)%Z by lia. nra. }
  apply rne_mono in S. rewrite rne_Z in S. rewrite Zle_Qle in S.
  rewrite <- (pow2_cancel 53 (binade a + 1)).
  replace (binade a + 1 - 53)%Z with (binade a - 52)%Z by lia.
  rewrite (pow2_inject (n := 53)) by lia. nra.
Qed.

Lemma roundPos_lower (a : Q) :
  0 < a -> (-1022 <= ilog2 a)%Z -> pow2 (binade a) <= roundPos a.
Proof.
  intros Ha He. destruct (binade_bounds Ha) as (_ & _ & L). specialize (L He).
  rewrite roundPos_eq.
  pose proof (pow2_pos (52 - binade a)) as P1.
  pose proof (pow2_pos (binade a - 52)) as P2.
  assert (S : inject_Z (2 ^ 52) <= a * pow2 (52 - binade a)).
  { rewrite <- pow2_inject by lia.
    rewrite <- (pow2_cancel (binade a) 52). nra. }
  apply rne_mono in S. rewrite rne_Z in S. rewrite Zle_Qle in S.
  rewrite <- (pow2_cancel 52 (binade a)) at 1.
  rewrite (pow2_inject (n := 52)) by lia. nra.
Qed.

Lemma roundPos_mono (a b : Q) : 0 < a -> a <= b -> roundPos a <= roundPos b.
Proof.
  intros Ha H. assert (Hb : 0 < b) by lra.
  pose proof (ilog2_mono Ha H) as Hl.
  assert (Hbin : (binade a <= binade b)%Z) by (unfold binade; lia).
  destruct (Z.eq_dec (binade a) (binade b)) as [E|N].
  - rewrite !roundPos_eq, E.
    pose proof (pow2_pos (52 - binade b)) as P1.
    pose proof (pow2_pos (binade b - 52)) as P2.
    assert (S : a * pow2 (52 - binade b) <= b * pow2 (52 - binade b)) by nra.
    apply rne_mono in S. rewrite Zle_Qle in S. nra.
  - assert (Hlb : (-1022 <= ilog2 b)%Z) by (unfold binade in *; lia).
    apply Qle_trans with (pow2 (binade a + 1)); [apply roundPos_upper, Ha|].
    apply Qle_trans with (pow2 (binade b)); [apply pow2_le; lia|].
    apply roundPos_lower; assumption.
Qed.

Lemma roundPos_representable (a : Q) (K c : Z) :
  (0 < K <= 2 ^ 53)%Z -> (-1074 <= c)%Z -> a == inject_Z K * pow2 c ->
  roundPos a == a.
Proof.
  intros HK Hc Ea.
  pose proof (pow2_pos c) as Pc.
  assert (HKq : 0 < inject_Z K /\ inject_Z K <= inject_Z (2 ^ 53)).
  { split; [change 0 with (inject_Z 0); rewrite <- Zlt_Qlt
           | rewrite <- Zle_Qle]; lia. }
  assert (Ha : 0 < a) by (rewrite Ea; nra).
  destruct (binade_bounds Ha) as (U & Hmin & L).
  rewrite roundPos_eq.
  set (B := binade a) in *.
  pose proof (pow2_pos (B - 52)) as PB.
  destruct (Z_le_gt_dec 0 (c + 52 - B)) as [Hj|Hj].
  - assert (S : a * pow2 (52 - B) == inject_Z (K * 2 ^ (c + 52 - B))).
    { rewrite inject_Z_mult, <- pow2_inject by lia. rewrite Ea.
      rewrite <- Qmult_assoc, <- pow2_add.
      replace (c + (52 - B))%Z with (c + 52 - B)%Z by lia. reflexivity. }
    rewrite (rne_comp S), rne_Z, inject_Z_mult, <- pow2_inject by lia.
    rewrite <- Qmult_assoc, <- pow2_add.
    replace (c + 52 - B + (B - 52))%Z with c by lia. rewrite Ea. reflexivity.
  - assert (HB : B = ilog2 a) by (unfold B, binade in *; lia).
    assert (L' : pow2 B <= a) by (apply L; lia).
    assert (Hup : a <= pow2 (c + 53)).
    { rewrite Ea, <- (pow2_cancel c (c + 53)).
      replace (c + 53 - c)%Z with 53%Z by lia.
      rewrite (pow2_inject (n := 53)) by lia. nra. }
    assert (HBc : (B < c + 53 + 1)%Z).
    { apply pow2_lt_inv.
      assert (pow2 (c + 53) < pow2 (c + 53 + 1)) by (apply pow2_lt; lia). lra. }
    assert (EB : B = (c + 53)%Z) by lia.
    assert (EK : K = (2 ^ 53)%Z).
    { assert (inject_Z (2 ^ 53) <= inject_Z K).
      { rewrite EB in L'. rewrite Ea in L'.
        rewrite <- (pow2_cancel c (c + 53)) in L'.
        replace (c + 53 - c)%Z with 53%Z in L' by lia.
        rewrite (pow2_inject (n := 53)) in L' by lia. nra. }
      rewrite <- Zle_Qle in H. lia. }
    assert (S : a * pow2 (52 - B) == inject_Z (2 ^ 52)).
    { rewrite Ea, EK, EB, <- (pow2_inject (n := 53)), <- (pow2_inject (n := 52))
        by lia.
      rewrite <- Qmult_assoc, <- !pow2_add.
      replace (53 + (c + (52 - (c + 53))))%Z with 52%Z by lia. reflexivity. }
    rewrite (rne_comp S), rne_Z, <- (pow2_inject (n := 52)), <- pow2_add by lia.
    rewrite Ea, EK, EB, <- (pow2_inject (n := 53)), <- pow2_add by lia.
    replace (52 + (c + 53 - 52))%Z with (53 + c)%Z by lia. reflexivity.
Qed.

(** ** Rounding to binary64 *)

Lemma saturate_le (r : Q) : saturate r <= infinity.
Proof.
  unfold saturate. destruct (Qle_bool infinity r) eqn:E; [lra|].
  apply Qlt_le_weak, Qnot_le_lt. intro L. apply Qle_bool_iff in L. congruence.
Qed.

Lemma saturate_id (r : Q) : r < infinity -> saturate r = r.
Proof.
  intro H. unfold saturate. destruct (Qle_bool infinity r) eqn:E; [|reflexivity].
  apply Qle_bool_iff in E. lra.
Qed.

Lemma saturate_mono (r r' : Q) : r <= r' -> saturate r <= saturate r'.
Proof.
  intro H. unfold saturate.
  destruct (Qle_bool infinity r) eqn:E, (Qle_bool infinity r') eqn:E'; try lra.
  - apply Qle_bool_iff in E.
    assert (~ infinity <= r') by (intro L; apply Qle_bool_iff in L; congruence).
    lra.
  - assert (~ infinity <= r) by (intro L; apply Qle_bool_iff in L; congruence).
    lra.
Qed.

Lemma saturate_comp (r r' : Q) : r == r' -> saturate r == saturate r'.
Proof.
  intro E. unfold saturate. rewrite (Qleb_comp _ _ (Qeq_refl infinity) _ _ E).
  destruct (Qle_bool infinity r'); [reflexivity | exact E].
Qed.

Lemma infinity_pow2 : infinity == pow2 1024.
Proof. unfold infinity. rewrite pow2_inject by lia. reflexivity. Qed.

Lemma infinity_pos : 0 < infinity.
Proof. rewrite infinity_pow2. apply pow2_pos. Qed.

Lemma saturate_nonneg (r : Q) : 0 <= r -> 0 <= saturate r.
Proof.
  intro H. unfold saturate. destruct (Qle_bool infinity r); [|exact H].
  apply Qlt_le_weak, infinity_pos.
Qed.

Lemma Qnum_sign (q : Q) :
  match Qnum q with
  | Z0 => q == 0
  | Zpos _ => 0 < q
  | Zneg _ => q < 0
  end.
Proof. destruct q as [[|p|p] d]; unfold Qeq, Qlt; simpl; lia. Qed.

Lemma rnd64_pos (q : Q) : 0 < q -> rnd64 q == saturate (roundPos q).
Proof.
  intro H. unfold rnd64. pose proof (Qred_correct q) as R.
  pose proof (Qnum_sign (Qred q)) as S.
  destruct (Qnum (Qred q)); try lra.
  rewrite Qred_correct. apply saturate_comp, roundPos_comp; lra.
Qed.

Lemma rnd64_neg (q : Q) : q < 0 -> rnd64 q == - saturate (roundPos (- q)).
Proof.
  intro H. unfold rnd64. pose proof (Qred_correct q) as R.
  pose proof (Qnum_sign (Qred q)) as S.
  destruct (Qnum (Qred q)); try lra.
  rewrite Qred_correct. apply Qopp_comp, saturate_comp, roundPos_comp; lra.
Qed.

Lemma rnd64_zero (q : Q) : q == 0 -> rnd64 q = 0.
Proof.
  intro H. unfold rnd64. pose proof (Qred_correct q) as R.
  pose proof (Qnum_sign (Qred q)) as S.
  destruct (Qnum (Qred q)); [reflexivity | lra | lra].
Qed.

Lemma rnd64_comp (x y : Q) : x == y -> rnd64 x = rnd64 y.
Proof. intro E. unfold rnd64. rewrite (Qred_complete _ _ E). reflexivity. Qed.

Lemma rnd64_nonneg (q : Q) : 0 <= q -> 0 <= rnd64 q.
Proof.
  intro H. destruct (Qlt_le_dec 0 q) as [P|Z].
  - rewrite (rnd64_pos P). apply saturate_nonneg, roundPos_nonneg, P.
  - rewrite (rnd64_zero (q := q)) by lra. lra.
Qed.

Lemma rnd64_opp (q : Q) : rnd64 (- q) == - rnd64 q.
Proof.
  destruct (Q_dec q 0) as [[N|P]|Z].
  - rewrite (rnd64_neg N), (rnd64_pos (q := - q)) by lra. lra.
  - rewrite (rnd64_pos P), (rnd64_neg (q := - q)) by lra.
    apply Qopp_comp, saturate_comp, roundPos_comp; lra.
  - rewrite (rnd64_zero Z), (rnd64_zero (q := - q)) by lra. reflexivity.
Qed.

Lemma rnd64_mono (x y : Q) : x <= y -> rnd64 x <= rnd64 y.
Proof.
  intro H.
  destruct (Q_dec x 0) as [[Nx|Px]|Zx], (Q_dec y 0) as [[Ny|Py]|Zy]; try lra.
  - rewrite (rnd64_neg Nx), (rnd64_neg Ny).
    assert (M : saturate (roundPos (- y)) <= saturate (roundPos (- x)))
      by (apply saturate_mono, roundPos_mono; lra).
    lra.
  - pose proof (rnd64_nonneg (q := y)). pose proof (rnd64_nonneg (q := - x)).
    pose proof (rnd64_opp x). lra.
  - rewrite (rnd64_zero Zy). pose proof (rnd64_nonneg (q := - x)).
    pose proof (rnd64_opp x). lra.
  - rewrite (rnd64_pos Px), (rnd64_pos Py).
    apply saturate_mono, roundPos_mono; lra.
  - rewrite (rnd64_zero Zx). apply rnd64_nonneg. lra.
  - rewrite (rnd64_zero Zx), (rnd64_zero Zy). lra.
Qed.

Lemma rnd64_bounded (q : Q) : - infinity <= rnd64 q /\ rnd64 q <= infinity.
Proof.
  pose proof infinity_pos as P.
  destruct (Q_dec q 0) as [[N|Pq]|Z].
  - rewrite (rnd64_neg N). pose proof (saturate_le (roundPos (- q))).
    assert (0 <= saturate (roundPos (- q)))
      by (apply saturate_nonneg, roundPos_nonneg; lra).
    lra.
  - rewrite (rnd64_pos Pq). pose proof (saturate_le (roundPos q)).
    assert (0 <= saturate (roundPos q))
      by (apply saturate_nonneg, roundPos_nonneg; lra).
    lra.
  - rewrite (rnd64_zero Z). lra.
Qed.

Lemma rnd64_canonical (q : Q) : Qred (rnd64 q) = rnd64 q.
Proof.
  unfold rnd64. destruct (Qnum (Qred q)); [reflexivity| |];
    apply Qred_involutive.
Qed.

Lemma Qred_inject_Z (n : Z) : Qred (inject_Z n) = inject_Z n.
Proof. apply Qred_identity. simpl. apply Z.gcd_1_r. Qed.

Lemma infinity_large : inject_Z (2 ^ 53) < infinity.
Proof.
  unfold infinity. rewrite <- Zlt_Qlt. apply Z.pow_lt_mono_r; lia.
Qed.

Lemma rnd64_representable (a : Q) (K c : Z) :
  (0 < K <= 2 ^ 53)%Z -> (-1074 <= c)%Z -> a == inject_Z K * pow2 c ->
  a < infinity -> rnd64 a == a.
Proof.
  intros HK Hc Ea Hfin.
  assert (Ha : 0 < a).
  { pose proof (pow2_pos c). rewrite Ea.
    assert (0 < inject_Z K) by (change 0 with (inject_Z 0); rewrite <- Zlt_Qlt; lia).
    nra. }
  rewrite (rnd64_pos Ha).
  pose proof (roundPos_representable HK Hc Ea) as R.
  rewrite (saturate_comp R). rewrite saturate_id by exact Hfin. reflexivity.
Qed.

Lemma rnd64_integer (n : Z) :
  (Z.abs n <= 2 ^ 53)%Z -> rnd64 (inject_Z n) = inject_Z n.
Proof.
  intro H.
  assert (Hpos : forall k, (0 < k <= 2 ^ 53)%Z -> rnd64 (inject_Z k) == inject_Z k).
  { intros k Hk. apply (rnd64_representable (K := k) (c := 0)); try lia.
    - unfold pow2. simpl. lra.
    - apply Qle_lt_trans with (inject_Z (2 ^ 53)); [|apply infinity_large].
      rewrite <- Zle_Qle. lia. }
  assert (E : rnd64 (inject_Z n) == inject_Z n).
  { destruct (Z.lt_trichotomy n 0) as [N|[Z|P]].
    - assert (En : inject_Z n == - inject_Z (- n))
        by (rewrite inject_Z_opp; lra).
      rewrite (rnd64_comp En), rnd64_opp, Hpos by lia.
      rewrite inject_Z_opp. lra.
    - subst n. rewrite (rnd64_zero (q := inject_Z 0)); reflexivity.
    - apply Hpos. lia. }
  rewrite <- (rnd64_canonical (inject_Z n)), (Qred_complete _ _ E).
  apply Qred_inject_Z.
Qed.

Lemma mantissa_bounds (a : Q) :
  0 < a -> (0 <= rne (a * pow2 (52 - binade a)) <= 2 ^ 53)%Z.
Proof.
  intro Ha. destruct (binade_bounds Ha) as (U & _ & _).
  pose proof (pow2_pos (52 - binade a)) as P1.
  split; [apply rne_nonneg; nra|].
  rewrite <- (rne_Z (2 ^ 53)). apply rne_mono.
  rewrite <- pow2_inject by lia.
  rewrite <- (pow2_cancel (binade a + 1) 53).
  replace (53 - (binade a + 1))%Z with (52 - binade a)%Z by lia. nra.
Qed.

Lemma rnd64_infinity : rnd64 infinity = infinity.
Proof.
  assert (E : rnd64 infinity == infinity).
  { rewrite (rnd64_pos infinity_pos).
    assert (R : roundPos infinity == infinity).
    { apply (roundPos_representable (K := 2 ^ 53) (c := 971)); try lia.
      rewrite infinity_pow2, <- (pow2_inject (n := 53)), <- pow2_add by lia.
      reflexivity. }
    rewrite (saturate_comp R). unfold saturate.
    destruct (Qle_bool infinity infinity); reflexivity. }
  rewrite <- (rnd64_canonical infinity), (Qred_complete _ _ E).
  apply Qred_inject_Z.
Qed.

Lemma rnd64_idem_pos (q : Q) : 0 < q -> rnd64 (rnd64 q) == rnd64 q.
Proof.
  intro Hq. pose proof (rnd64_pos Hq) as E.
  pose proof (roundPos_eq q) as R. pose proof (mantissa_bounds Hq) as HK.
  set (K := rne (q * pow2 (52 - binade q))) in *.
  destruct (binade_bounds Hq) as (_ & Hmin & _).
  unfold saturate in E. destruct (Qle_bool infinity (roundPos q)) eqn:S.
  - rewrite (rnd64_comp E), rnd64_infinity. symmetry. exact E.
  - assert (Hfin : roundPos q < infinity).
    { apply Qnot_le_lt. intro L. apply Qle_bool_iff in L. congruence. }
    rewrite (rnd64_comp E). rewrite E.
    destruct (Z.eq_dec K 0) as [Z|NZ].
    + assert (Z0 : roundPos q == 0)
        by (rewrite R, Z; change (inject_Z 0) with 0; lra).
      rewrite (rnd64_zero Z0). symmetry. exact Z0.
    + apply (rnd64_representable (K := K) (c := binade q - 52));
        [lia | lia | exact R | exact Hfin].
Qed.

Lemma rnd64_idem (q : Q) : rnd64 (rnd64 q) = rnd64 q.
Proof.
  assert (E : rnd64 (rnd64 q) == rnd64 q).
  { destruct (Q_dec q 0) as [[N|P]|Z].
    - assert (En : q == - (- q)) by lra.
      assert (E1 : rnd64 q == - rnd64 (- q))
        by (rewrite (rnd64_comp En); apply rnd64_opp).
      assert (P : 0 < - q) by lra.
      pose proof (rnd64_idem_pos P) as I.
      rewrite (rnd64_comp E1), rnd64_opp, I. symmetry. exact E1.
    - apply rnd64_idem_pos, P.
    - rewrite (rnd64_zero Z). reflexivity. }
  rewrite <- (rnd64_canonical (rnd64 q)), (Qred_complete _ _ E).
  apply rnd64_canonical.
Qed.

Lemma rnd64_saturates (q : Q) : infinity <= q -> rnd64 q = infinity.
Proof.
  intro H. pose proof (rnd64_mono H) as M. rewrite rnd64_infinity in M.
  destruct (rnd64_bounded q) as [_ U].
  assert (E : rnd64 q == infinity) by lra.
  rewrite <- (rnd64_canonical q), (Qred_complete _ _ E). apply Qred_inject_Z.
Qed.

Lemma roundPos_near (a : Q) :
  0 < a -> Qabs (roundPos a - a) <= ulp a * (1 # 2).
Proof.
  intro Ha. rewrite roundPos_eq, ulp_eq.
  pose proof (rne_near (a * pow2 (52 - binade a))) as [L U].
  pose proof (pow2_pos (binade a - 52)) as P.
  assert (E : a == a * pow2 (52 - binade a) * pow2 (binade a - 52)).
  { rewrite <- Qmult_assoc, <- pow2_add.
    replace (52 - binade a + (binade a - 52))%Z with 0%Z by lia.
    unfold pow2. simpl. lra. }
  set (m := a * pow2 (52 - binade a)) in *.
  set (k := inject_Z (rne m)) in *.
  set (u := pow2 (binade a - 52)) in *.
  apply Qabs_Qle_condition. split; nra.
Qed.

(** ** Arithmetic on numbers *)

Lemma isInf_false (d : Q) : - infinity < d -> d < infinity -> isInf d = false.
Proof.
  intros L U. unfold isInf.
  destruct (Qleb_spec infinity (Qabs d)) as [H|_]; [|reflexivity].
  exfalso. revert H. apply Qlt_not_le. apply Qabs_Qlt_condition. tauto.
Qed.

Lemma small_finite (q : Q) :
  small q -> - infinity < q /\ q < infinity.
Proof.
  intros [L U]. pose proof infinity_large. split; lra.
Qed.

Lemma rnd64_small (q : Q) : small q -> small (rnd64 q).
Proof.
  intros [L U]. unfold small in *.
  apply rnd64_mono in L. apply rnd64_mono in U.
  assert (E : - inject_Z (2 ^ 53) == inject_Z (- 2 ^ 53))
    by (rewrite inject_Z_opp; reflexivity).
  rewrite (rnd64_comp E), rnd64_integer in L by lia.
  rewrite rnd64_integer in U by lia.
  rewrite inject_Z_opp in L. split; assumption.
Qed.

Lemma rnd64_not_inf (q : Q) : small q -> isInf (rnd64 q) = false.
Proof.
  intro H. destruct (small_finite (rnd64_small H)). apply isInf_false; assumption.
Qed.

Lemma small_inject_Z (n : Z) : (Z.abs n <= 2 ^ 53)%Z -> small (inject_Z n).
Proof.
  intro H. unfold small. rewrite <- inject_Z_opp, <- !Zle_Qle. lia.
Qed.

Lemma small_between (q : Q) (lo hi : Z) :
  (- 2 ^ 53 <= lo)%Z -> (hi <= 2 ^ 53)%Z ->
  inject_Z lo <= q -> q <= inject_Z hi -> small q.
Proof.
  intros Hlo Hhi L U. unfold small.
  rewrite Zle_Qle in Hlo, Hhi. rewrite inject_Z_opp in Hlo. split; lra.
Qed.

Lemma rnd64_between (q : Q) (lo hi : Z) :
  (Z.abs lo <= 2 ^ 53)%Z -> (Z.abs hi <= 2 ^ 53)%Z ->
  inject_Z lo <= q -> q <= inject_Z hi ->
  inject_Z lo <= rnd64 q /\ rnd64 q <= inject_Z hi.
Proof.
  intros Hlo Hhi L U. apply rnd64_mono in L. apply rnd64_mono in U.
  rewrite rnd64_integer in L, U by assumption. split; assumption.
Qed.

Lemma mul_Fin (x y : Q) :
  small x -> small y -> mul (Fin x) (Fin y) = Fin (mul64 x y).
Proof.
  intros Hx Hy. unfold mul, liftQ, mulQ.
  rewrite (rnd64_not_inf Hx), (rnd64_not_inf Hy). reflexivity.
Qed.

Lemma round_Fin (q : Q) :
  small q -> round (Fin q) = ofZ (Qround (rnd64 q)).
Proof. intro H. unfold round. rewrite (rnd64_not_inf H). reflexivity. Qed.

Lemma Qround_nearest (v : Q) : nearestInteger v (Qround v).
Proof.
  unfold nearestInteger, Qround.
  destruct (Qfloor_bounds (v + (1 # 2))) as [L U]. split; lra.
Qed.

Lemma nearestInteger_unique (v : Q) (z : Z) :
  nearestInteger v z -> z = Qround v.
Proof.
  intros [L U]. symmetry. unfold Qround. apply Qfloor_eq; lra.
Qed.

Lemma round_ofZ (n : Z) : (Z.abs n <= 2 ^ 53)%Z -> round (ofZ n) = ofZ n.
Proof.
  intro H. unfold ofZ. rewrite round_Fin by (apply small_inject_Z, H).
  rewrite rnd64_integer by exact H.
  unfold Qround. rewrite (Qfloor_eq (x := inject_Z n + (1 # 2)) (z := n)) by lra.
  reflexivity.
Qed.

Lemma mul_ofZ (a b : Z) :
  (Z.abs a <= 2 ^ 26)%Z -> (Z.abs b <= 2 ^ 26)%Z ->
  mul (ofZ a) (ofZ b) = ofZ (a * b).
Proof.
  intros Ha Hb.
  assert (P : (2 ^ 26 * 2 ^ 26 = 2 ^ 52)%Z) by reflexivity.
  assert (P' : (2 ^ 52 <= 2 ^ 53)%Z) by (apply Z.pow_le_mono_r; lia).
  assert (P'' : (2 ^ 26 <= 2 ^ 53)%Z) by (apply Z.pow_le_mono_r; lia).
  unfold ofZ. rewrite mul_Fin by (apply small_inject_Z; lia).
  unfold mul64. rewrite !rnd64_integer by lia.
  rewrite <- inject_Z_mult, rnd64_integer; [reflexivity|].
  rewrite Z.abs_mul. nia.
Qed.

Lemma weight_double (w : Q) :
  1 <= w -> w <= 10 -> 1 <= rnd64 w /\ rnd64 w <= 10.
Proof.
  intros L U. apply (rnd64_between (q := w) (lo := 1) (hi := 10));
    solve [assumption | vm_compute; discriminate].
Qed.

Lemma mul64_weight (w : Q) (c : Z) :
  1 <= w -> w <= 10 -> (1 <= c <= 100)%Z ->
  inject_Z c <= mul64 w (inject_Z c) /\
  mul64 w (inject_Z c) <= inject_Z (10 * c).
Proof.
  intros L U Hc. destruct (weight_double L U) as [L' U'].
  assert (P : (100 <= 2 ^ 53)%Z) by (vm_compute; discriminate).
  assert (Hq : 1 <= inject_Z c).
  { change 1 with (inject_Z 1). rewrite <- Zle_Qle. lia. }
  unfold mul64. rewrite (rnd64_integer c) by lia.
  apply rnd64_between; try lia.
  - nra.
  - rewrite inject_Z_mult. change (inject_Z 10) with 10. nra.
Qed.

Lemma round_mul_weight (w : Q) (c : Z) :
  1 <= w -> w <= 10 -> (1 <= c <= 100)%Z ->
  mul (Fin w) (ofZ c) = Fin (mul64 w (inject_Z c)) /\
  round (Fin (mul64 w (inject_Z c))) = ofZ (Qround (mul64 w (inject_Z c))).
Proof.
  intros L U Hc. destruct (mul64_weight L U Hc) as [Lm Um].
  assert (P : (100 <= 2 ^ 53)%Z) by (vm_compute; discriminate).
  split.
  - apply mul_Fin.
    + apply (small_between (lo := 1) (hi := 10)); try lia; assumption.
    + apply small_inject_Z. lia.
  - rewrite round_Fin.
    + unfold mul64 at 1. rewrite rnd64_idem. reflexivity.
    + apply (small_between (lo := c) (hi := 10 * c)); try lia; assumption.
Qed.

Lemma round_mul_volume (v : Z) (q : Q) :
  (0 <= v <= 20)%Z -> 1 <= q -> q <= 10 ->
  mul (ofZ v) (Fin q) = Fin (mul64 (inject_Z v) q) /\
  round (Fin (mul64 (inject_Z v) q)) = ofZ (Qround (mul64 (inject_Z v) q)) /\
  0 <= mul64 (inject_Z v) q /\ mul64 (inject_Z v) q <= 200.
Proof.
  intros Hv L U. destruct (weight_double L U) as [L' U'].
  assert (P : (200 <= 2 ^ 53)%Z) by (vm_compute; discriminate).
  assert (Hq : 0 <= inject_Z v /\ inject_Z v <= 20).
  { split; [change 0 with (inject_Z 0) | change 20 with (inject_Z 20)];
      rewrite <- Zle_Qle; lia. }
  assert (B : 0 <= mul64 (inject_Z v) q /\ mul64 (inject_Z v) q <= 200).
  { unfold mul64. rewrite (rnd64_integer v) by lia.
    apply (rnd64_between (lo := 0) (hi := 200)); try lia;
      [change (inject_Z 0) with 0 | change (inject_Z 200) with 200]; nra. }
  split.
  - apply mul_Fin.
    + apply small_inject_Z. lia.
    + apply (small_between (lo := 1) (hi := 10)); try lia; assumption.
  - split; [|exact B]. rewrite round_Fin.
    + unfold mul64 at 1. rewrite rnd64_idem. reflexivity.
    + apply (small_between (lo := 0) (hi := 200)); try lia; tauto.
Qed.

Lemma canonical_eq (x y : Q) : Qred x = x -> Qred y = y -> x == y -> x = y.
Proof. intros Hx Hy E. rewrite <- Hx, <- Hy. apply Qred_complete, E. Qed.

(** ** Arithmetic with a constant, overflow included *)

Lemma Qred_infinity : Qred infinity = infinity.
Proof. apply Qred_inject_Z. Qed.

Lemma Qred_neg_infinity : Qred (- infinity) = - infinity.
Proof. rewrite Qred_opp, Qred_infinity. reflexivity. Qed.

Lemma rnd64_saturates_neg (q : Q) : q <= - infinity -> rnd64 q = - infinity.
Proof.
  intro H.
  assert (E : rnd64 q == - infinity).
  { assert (En : q == - (- q)) by lra.
    rewrite (rnd64_comp En), rnd64_opp, (rnd64_saturates (q := - q)) by lra.
    reflexivity. }
  apply canonical_eq; [apply rnd64_canonical | apply Qred_neg_infinity | exact E].
Qed.

Lemma near_infinity : rnd64 (infinity - inject_Z (2 ^ 53)) = infinity.
Proof. vm_compute. reflexivity. Qed.

Lemma rnd64_near_infinity (q : Q) :
  infinity - inject_Z (2 ^ 53) <= q -> rnd64 q = infinity.
Proof.
  intro H. pose proof (rnd64_mono H) as M. rewrite near_infinity in M.
  destruct (rnd64_bounded q) as [_ U].
  apply canonical_eq; [apply rnd64_canonical | apply Qred_infinity | lra].
Qed.

Lemma rnd64_near_neg_infinity (q : Q) :
  q <= - infinity + inject_Z (2 ^ 53) -> rnd64 q = - infinity.
Proof.
  intro H.
  assert (E : rnd64 q == - infinity).
  { assert (En : q == - (- q)) by lra.
    rewrite (rnd64_comp En), rnd64_opp, (rnd64_near_infinity (q := - q)) by lra.
    reflexivity. }
  apply canonical_eq; [apply rnd64_canonical | apply Qred_neg_infinity | exact E].
Qed.

Lemma isInf_cases (q : Q) :
  isInf (rnd64 q) = true -> rnd64 q = infinity \/ rnd64 q = - infinity.
Proof.
  intro H. unfold isInf in H. apply Qle_bool_iff in H.
  destruct (rnd64_bounded q) as [L U].
  destruct (Qlt_le_dec (rnd64 q) 0) as [N|P].
  - right. rewrite Qabs_neg in H by lra.
    apply canonical_eq; [apply rnd64_canonical | apply Qred_neg_infinity | lra].
  - left. rewrite Qabs_pos in H by lra.
    apply canonical_eq; [apply rnd64_canonical | apply Qred_infinity | lra].
Qed.

Lemma isInf_integer (c : Z) : (Z.abs c <= 2 ^ 53)%Z -> isInf (inject_Z c) = false.
Proof.
  intro H. destruct (small_finite (small_inject_Z c H)).
  apply isInf_false; assumption.
Qed.

Lemma Qeq_bool_false (x y : Q) : ~ x == y -> Qeq_bool x y = false.
Proof. intro H. destruct (Qeqb_spec x y); [contradiction | reflexivity]. Qed.

Lemma Qltb_true (x y : Q) : x < y -> Qltb x y = true.
Proof. intro H. destruct (Qltb_spec x y); [reflexivity | contradiction]. Qed.

Lemma Qltb_false (x y : Q) : y <= x -> Qltb x y = false.
Proof. intro H. destruct (Qltb_spec x y); [lra | reflexivity]. Qed.

(** Multiplying by a positive integer constant. *)
Lemma mul_const (x : Q) (c : Z) :
  (1 <= c <= 2 ^ 53)%Z ->
  mul (Fin x) (ofZ c) = Fin (rnd64 (rnd64 x * inject_Z c)).
Proof.
  intro Hc. pose proof infinity_pos as Pinf.
  assert (Hq : 1 <= inject_Z c)
    by (change 1 with (inject_Z 1); rewrite <- Zle_Qle; lia).
  unfold mul, ofZ, liftQ, mulQ.
  rewrite (rnd64_integer c), (isInf_integer c) by lia.
  rewrite orb_false_r.
  destruct (isInf (rnd64 x)) eqn:E; [|reflexivity].
  rewrite (Qeq_bool_false (x := inject_Z c) (y := 0)) by lra.
  rewrite orb_false_r.
  destruct (isInf_cases x E) as [-> | ->].
  - rewrite Qeq_bool_false by lra. rewrite Qltb_false by nra.
    rewrite rnd64_saturates by nra. reflexivity.
  - rewrite Qeq_bool_false by lra. rewrite Qltb_true by nra.
    rewrite rnd64_saturates_neg by nra. reflexivity.
Qed.

(** Adding an integer constant on the left. *)
Lemma add_const (c : Z) (y : Q) :
  (Z.abs c <= 2 ^ 53)%Z ->
  add (ofZ c) (Fin y) = Fin (rnd64 (inject_Z c + rnd64 y)).
Proof.
  intro Hc. pose proof infinity_pos as Pinf.
  destruct (small_inject_Z c Hc) as [Lc Uc].
  unfold add, ofZ, liftQ, addQ.
  rewrite (rnd64_integer c), (isInf_integer c) by lia.
  destruct (isInf (rnd64 y)) eqn:E; [|reflexivity].
  destruct (isInf_cases y E) as [-> | ->].
  - rewrite rnd64_near_infinity by lra. reflexivity.
  - rewrite rnd64_near_neg_infinity by lra. reflexivity.
Qed.

(** Subtracting an integer constant. *)
Lemma sub_const (x : Q) (c : Z) :
  (Z.abs c <= 2 ^ 53)%Z ->
  sub (Fin x) (ofZ c) = Fin (rnd64 (rnd64 x - inject_Z c)).
Proof.
  intro Hc. pose proof infinity_pos as Pinf.
  destruct (small_inject_Z c Hc) as [Lc Uc].
  unfold sub, ofZ, liftQ, subQ, addQ.
  rewrite (rnd64_integer c) by lia.
  assert (Ic : isInf (- inject_Z c) = false).
  { rewrite <- inject_Z_opp. apply isInf_integer. lia. }
  rewrite Ic. simpl andb.
  destruct (isInf (rnd64 x)) eqn:E; [|reflexivity].
  destruct (isInf_cases x E) as [-> | ->].
  - rewrite rnd64_near_infinity; [reflexivity|].
    unfold Qminus. lra.
  - rewrite rnd64_near_neg_infinity; [reflexivity|].
    unfold Qminus. lra.
Qed.


(** ** Correction time *)

Ltac unfold_time :=
  unfold calculateCorrectionTime, sodiumTime, chlorideTime, phTime, weightTime,
    specCorrectionTime, specSodiumRule, specChlorideRule, specPhRule.

(** C3: on finite inputs [calculateCorrectionTime] computes exactly the
    rule chain of the specification: start at 12, the sodium rule sets 36,
    24 or 12, the chloride rule raises to at least 36 or 24, the pH rule
    raises to at least 24 or 18, and a weight below 3.0 adds 6 hours at
    the end. *)
Theorem calculateCorrectionTime_rules (na cl pH w : Q) (k : number) :
  calculateCorrectionTime (Fin na) k (Fin cl) (Fin pH) (Fin w)
  = specCorrectionTime na cl pH w.
Proof. unfold_time. cmp_cases. Qed.

Lemma sodiumTime_antitone (na na' : Q) (t : Z) :
  na' <= na -> (sodiumTime (Fin na) t <= sodiumTime (Fin na') t)%Z.
Proof. intro H. unfold sodiumTime. cmp_cases; lia. Qed.

Lemma chlorideTime_antitone (cl cl' : Q) (t t' : Z) :
  cl' <= cl -> (t <= t')%Z ->
  (chlorideTime (Fin cl) t <= chlorideTime (Fin cl') t')%Z.
Proof. intros H Ht. unfold chlorideTime. cmp_cases; lia. Qed.

Lemma chlorideTime_mono_time (cl : number) (t t' : Z) :
  (t <= t')%Z -> (chlorideTime cl t <= chlorideTime cl t')%Z.
Proof.
  intro Ht. unfold chlorideTime.
  destruct (lt cl (Fin 70)); [lia|]. destruct (lt cl (Fin 90)); lia.
Qed.

Lemma phTime_monotone (pH pH' : Q) (t t' : Z) :
  pH <= pH' -> (t <= t')%Z -> (phTime (Fin pH) t <= phTime (Fin pH') t')%Z.
Proof. intros H Ht. unfold phTime. cmp_cases; lia. Qed.

Lemma phTime_mono_time (pH : number) (t t' : Z) :
  (t <= t')%Z -> (phTime pH t <= phTime pH t')%Z.
Proof.
  intro Ht. unfold phTime.
  destruct (gt pH (Fin 7.55)); [lia|]. destruct (gt pH (Fin 7.45)); lia.
Qed.

Lemma weightTime_mono_time (w : number) (t t' : Z) :
  (t <= t')%Z -> (weightTime w t <= weightTime w t')%Z.
Proof. intro Ht. unfold weightTime. destruct (lt w (Fin 3.0)); lia. Qed.

Lemma calculateCorrectionTime_in_set (na k cl pH w : number) :
  In (calculateCorrectionTime na k cl pH w) correctionTimes.
Proof.
  unfold calculateCorrectionTime, sodiumTime, chlorideTime, phTime, weightTime.
  destruct (lt na (Fin 130)), (lt na (Fin 135)), (ge na (Fin 135)),
    (lt cl (Fin 70)), (lt cl (Fin 90)), (gt pH (Fin 7.55)),
    (gt pH (Fin 7.45)), (lt w (Fin 3.0));
    vm_compute; tauto.
Qed.

(** C4: the correction time is always one of 12, 18, 24, 30, 36, 42, and
    with the other inputs fixed it does not decrease when sodium
    decreases, when chloride decreases, or when pH increases. *)
Theorem calculateCorrectionTime_set_and_monotone :
  (forall na k cl pH w : number,
      In (calculateCorrectionTime na k cl pH w) correctionTimes) /\
  (forall (na na' : Q) (k cl pH w : number),
      na' <= na ->
      (calculateCorrectionTime (Fin na) k cl pH w
       <= calculateCorrectionTime (Fin na') k cl pH w)%Z) /\
  (forall (cl cl' : Q) (na k pH w : number),
      cl' <= cl ->
      (calculateCorrectionTime na k (Fin cl) pH w
       <= calculateCorrectionTime na k (Fin cl') pH w)%Z) /\
  (forall (pH pH' : Q) (na k cl w : number),
      pH <= pH' ->
      (calculateCorrectionTime na k cl (Fin pH) w
       <= calculateCorrectionTime na k cl (Fin pH') w)%Z).
Proof.
  split; [exact calculateCorrectionTime_in_set|].
  unfold calculateCorrectionTime. repeat split; intros.
  - apply weightTime_mono_time, phTime_mono_time, chlorideTime_mono_time,
      sodiumTime_antitone. assumption.
  - apply weightTime_mono_time, phTime_mono_time, chlorideTime_antitone;
      [assumption | lia].
  - apply weightTime_mono_time, phTime_monotone; [assumption | lia].
Qed.

Lemma calculateCorrectionTime_set_and_monotone_witness :
  In (calculateCorrectionTime (Fin 129) (Fin 2.8) (Fin 67) (Fin 7.4) (Fin 3.2))
     correctionTimes /\
  (calculateCorrectionTime (Fin 136) (Fin 4) (Fin 95) (Fin 7.4) (Fin 5)
   <= calculateCorrectionTime (Fin 131) (Fin 4) (Fin 95) (Fin 7.4) (Fin 5))%Z /\
  (calculateCorrectionTime (Fin 136) (Fin 4) (Fin 95) (Fin 7.4) (Fin 5)
   <= calculateCorrectionTime (Fin 136) (Fin 4) (Fin 65) (Fin 7.4) (Fin 5))%Z /\
  (calculateCorrectionTime (Fin 136) (Fin 4) (Fin 95) (Fin 7.4) (Fin 5)
   <= calculateCorrectionTime (Fin 136) (Fin 4) (Fin 95) (Fin 7.6) (Fin 5))%Z.
Proof.
  destruct calculateCorrectionTime_set_and_monotone as (Hset & Hna & Hcl & Hph).
  split; [apply Hset|].
  split; [apply Hna; q_concrete|].
  split; [apply Hcl; q_concrete | apply Hph; q_concrete].
Defined.

(** ** Alerts *)

Lemma generateSimpleAlerts_table (na k cl pH : number) :
  generateSimpleAlerts na k cl pH
  = map snd (filter fst (alertTable na k cl pH)).
Proof.
  unfold generateSimpleAlerts, alertTable, pushIf.
  destruct (lt k (Fin 3.0)), (gt k (Fin 5.5)), (lt na (Fin 130)),
    (lt cl (Fin 70)), (gt pH (Fin 7.55)); reflexivity.
Qed.

Lemma filter_fst_nil (l : list (bool * string)) :
  map snd (filter fst l) = [] <-> forall c, In c (map fst l) -> c = false.
Proof.
  induction l as [|[c m] l IH]; simpl.
  - split; [intros _ c [] | reflexivity].
  - destruct c; simpl.
    + split; [discriminate|]. intro H. specialize (H true (or_introl eq_refl)).
      discriminate.
    + rewrite IH. split.
      * intros H c [<-|Hc]; [reflexivity | apply H, Hc].
      * intros H c Hc. apply H. right. exact Hc.
Qed.

(** C9: the alerts are the messages of the checks that hold, taken in the
    fixed order potassium < 3.0, potassium > 5.5, sodium < 130,
    chloride < 70, pH > 7.55; so the list is empty exactly when none of
    the five checks holds. *)
Theorem generateSimpleAlerts_order_and_empty (na k cl pH : number) :
  generateSimpleAlerts na k cl pH
  = map snd (filter fst
      [ (lt k (Fin 3.0), alertHypokalaemia);
        (gt k (Fin 5.5), alertHyperkalaemia);
        (lt na (Fin 130), alertHyponatremia);
        (lt cl (Fin 70), alertHypochloremia);
        (gt pH (Fin 7.55), alertAlkalosis) ]) /\
  (generateSimpleAlerts na k cl pH = [] <->
   lt k (Fin 3.0) = false /\ gt k (Fin 5.5) = false /\
   lt na (Fin 130) = false /\ lt cl (Fin 70) = false /\
   gt pH (Fin 7.55) = false).
Proof.
  split; [apply generateSimpleAlerts_table|].
  rewrite generateSimpleAlerts_table, filter_fst_nil. unfold alertTable. simpl.
  split.
  - intro H. repeat split; apply H; tauto.
  - intros (H1 & H2 & H3 & H4 & H5) c Hc.
    repeat (destruct Hc as [<-|Hc]; [assumption|]). destruct Hc.
Qed.

(** ** Bolus *)

Lemma bolusTier_cases (na cl pH : Q) :
  ((na < 130 \/ cl < 70 \/ 7.55 < pH) ->
   bolusTier (Fin na) (Fin cl) (Fin pH)
   = (20%Z, "Severe depletion - 20 mL/kg NS bolus recommended")) /\
  (~ (na < 130 \/ cl < 70 \/ 7.55 < pH) ->
   (na < 135 \/ cl < 90 \/ 7.45 < pH) ->
   bolusTier (Fin na) (Fin cl) (Fin pH)
   = (10%Z, "Moderate depletion - 10 mL/kg NS bolus recommended")) /\
  (~ (na < 130 \/ cl < 70 \/ 7.55 < pH) ->
   ~ (na < 135 \/ cl < 90 \/ 7.45 < pH) ->
   bolusTier (Fin na) (Fin cl) (Fin pH)
   = (0%Z, "No bolus needed - mild abnormalities")).
Proof.
  unfold bolusTier. repeat split; intros; cmp_cases; tauto.
Qed.

Lemma bolusTier_volume (na cl pH : number) :
  In (fst (bolusTier na cl pH)) [0; 10; 20]%Z.
Proof.
  unfold bolusTier.
  destruct (lt na (Fin 130) || lt cl (Fin 70) || gt pH (Fin 7.55));
    [simpl; tauto|].
  destruct (lt na (Fin 135) || lt cl (Fin 90) || gt pH (Fin 7.45));
    simpl; tauto.
Qed.

Lemma hctFactor_raises (hct : option number) (st : Z * string) :
  (fst st <= fst (hctFactor hct st))%Z /\
  (and_gt hct (Fin 50) = true -> fst (hctFactor hct st) = Z.max (fst st) 10) /\
  (and_gt hct (Fin 50) = false -> hctFactor hct st = st).
Proof.
  unfold hctFactor. destruct (and_gt hct (Fin 50)); simpl;
    repeat split; try discriminate; lia.
Qed.

Lemma lactateFactor_raises (lactate : option number) (st : Z * string) :
  (fst st <= fst (lactateFactor lactate st))%Z /\
  (and_gt lactate (Fin 2.0) = true ->
   fst (lactateFactor lactate st) = Z.max (fst st) 10) /\
  (and_gt lactate (Fin 2.0) = false -> lactateFactor lactate st = st).
Proof.
  unfold lactateFactor. destruct (and_gt lactate (Fin 2.0)); simpl;
    repeat split; try discriminate; lia.
Qed.

(** C6: the severity tiers choose 20, 10 or 0 mL/kg (20 when sodium < 130
    or chloride < 70 or pH > 7.55, else 10 when sodium < 135 or
    chloride < 90 or pH > 7.45, else 0 with the no-bolus reason); the
    hematocrit and lactate factors never lower the volume and, when they
    fire, raise it to at least 10; the returned volume is the tier volume
    after both factors and the total volume is [Math.round] of the double
    product [volume * weight], which for a weight in the validated range
    is the integer nearest to that double. *)
Theorem calculateBolusRecommendation_tiers_and_factors
    (na cl pH : Q) (w : number) (hct lactate : option number) :
  let tier := bolusTier (Fin na) (Fin cl) (Fin pH) in
  let b := calculateBolusRecommendation (Fin na) (Fin cl) (Fin pH) w hct lactate in
  In (fst tier) [0; 10; 20]%Z /\
  ((na < 130 \/ cl < 70 \/ 7.55 < pH) -> fst tier = 20%Z) /\
  (~ (na < 130 \/ cl < 70 \/ 7.55 < pH) ->
   (na < 135 \/ cl < 90 \/ 7.45 < pH) -> fst tier = 10%Z) /\
  (~ (na < 130 \/ cl < 70 \/ 7.55 < pH) ->
   ~ (na < 135 \/ cl < 90 \/ 7.45 < pH) ->
   tier = (0%Z, "No bolus needed - mild abnormalities")) /\
  (forall st, (fst st <= fst (hctFactor hct st))%Z /\
              (and_gt hct (Fin 50) = true ->
               (10 <= fst (hctFactor hct st))%Z)) /\
  (forall st, (fst st <= fst (lactateFactor lactate st))%Z /\
              (and_gt lactate (Fin 2.0) = true ->
               (10 <= fst (lactateFactor lactate st))%Z)) /\
  Bolus.volume b = fst (lactateFactor lactate (hctFactor hct tier)) /\
  (fst tier <= Bolus.volume b)%Z /\
  Bolus.totalVolume b = round (mul (ofZ (Bolus.volume b)) w) /\
  (forall q : Q,
      w = Fin q -> 1 <= q -> q <= 10 ->
      exists z : Z,
        Bolus.totalVolume b = ofZ z /\
        nearestInteger (mul64 (inject_Z (Bolus.volume b)) q) z).
Proof.
  intros tier b.
  destruct (bolusTier_cases na cl pH) as (H20 & H10 & H0).
  split; [apply bolusTier_volume|].
  split; [intro H; unfold tier; rewrite (H20 H); reflexivity|].
  split; [intros H H'; unfold tier; rewrite (H10 H H'); reflexivity|].
  split; [intros H H'; unfold tier; exact (H0 H H')|].
  split.
  { intro st. destruct (hctFactor_raises hct st) as (Hle & Hfire & _).
    split; [exact Hle | intro H; rewrite (Hfire H); lia]. }
  split.
  { intro st. destruct (lactateFactor_raises lactate st) as (Hle & Hfire & _).
    split; [exact Hle | intro H; rewrite (Hfire H); lia]. }
  split; [reflexivity|].
  assert (Hge : (fst tier <= Bolus.volume b)%Z).
  { unfold b, calculateBolusRecommendation. simpl. fold tier.
    pose proof (hctFactor_raises hct tier) as (H1 & _).
    pose proof (lactateFactor_raises lactate (hctFactor hct tier)) as (H2 & _).
    lia. }
  split; [exact Hge|]. split; [reflexivity|].
  intros q Hq L U.
  assert (Hv : (0 <= Bolus.volume b <= 20)%Z).
  { pose proof (bolusTier_volume (Fin na) (Fin cl) (Fin pH)) as Hin.
    fold tier in Hin. split; [simpl in Hin; lia|].
    unfold b, calculateBolusRecommendation. cbn [Bolus.volume]. fold tier.
    unfold lactateFactor, hctFactor.
    destruct (and_gt hct (Fin 50)), (and_gt lactate (Fin 2.0)); simpl;
      simpl in Hin; lia. }
  destruct (round_mul_volume Hv L U) as (Hm & Hr & _).
  exists (Qround (mul64 (inject_Z (Bolus.volume b)) q)).
  split; [|apply Qround_nearest].
  change (Bolus.totalVolume b) with (round (mul (ofZ (Bolus.volume b)) w)).
  rewrite Hq, Hm, Hr. reflexivity.
Qed.

Lemma calculateBolusRecommendation_tiers_and_factors_witness :
  let b := calculateBolusRecommendation (Fin 129) (Fin 67) (Fin 7.4) (Fin 3.2)
             None None in
  let b' := calculateBolusRecommendation (Fin 132) (Fin 105) (Fin 7.4)
              (Fin 1.8499999999999999) None None in
  Bolus.volume b = 20%Z /\ Bolus.totalVolume b = Fin 64 /\
  Bolus.volume b' = 10%Z /\ Bolus.totalVolume b' = Fin 19.
Proof.
  pose proof (calculateBolusRecommendation_tiers_and_factors
                129 67 7.4 (Fin 3.2) None None)
    as (_ & H20 & _ & _ & _ & _ & Hvol & _ & Htot & _).
  pose proof (calculateBolusRecommendation_tiers_and_factors
                132 105 7.4 (Fin 1.8499999999999999) None None)
    as (_ & _ & H10 & _ & _ & _ & Hvol' & _ & Htot' & _).
  cbv zeta. split; [|split; [|split]].
  - rewrite Hvol. apply H20. left. q_concrete.
  - rewrite Htot. vm_compute. reflexivity.
  - rewrite Hvol'. apply H10.
    + intros [H|[H|H]]; revert H; q_concrete.
    + left. q_concrete.
  - rewrite Htot'. vm_compute. reflexivity.
Defined.

(** ** Rates *)

Lemma requiredOnly_valid (na k cl pH w : Q) :
  120 <= na /\ na <= 155 -> 2.0 <= k /\ k <= 8.0 -> 60 <= cl /\ cl <= 120 ->
  7.0 <= pH /\ pH <= 7.7 -> 1.0 <= w /\ w <= 10.0 ->
  validSnapshot (requiredOnly na k cl pH w).
Proof. unfold validSnapshot; simpl; tauto. Qed.

(** C7: for weight <= 10 the plan's rates are [round (weight * 6)] and
    [round (weight * 4)]; for weight > 10 they are
    [round (10*6 + (weight-10)*3)] and [round (10*4 + (weight-10)*2)],
    where the products, sums and differences are those of doubles and
    [round] is [Math.round].  For a weight in the validated range the two
    rates are the integers nearest to the double products [weight * 6]
    and [weight * 4]. *)
Theorem calculateIHPSFluidPlan_rates (s : Snapshot) (w : Q) :
  weight s = Fin w ->
  let p := calculateIHPSFluidPlan s in
  (w <= 10 ->
   fluidRatePerHour p = round (mul (Fin w) (Fin 6)) /\
   maintenanceRate p = round (mul (Fin w) (Fin 4))) /\
  (10 < w ->
   maintenanceRate p
   = round (add (mul (Fin 10) (Fin 4)) (mul (sub (Fin w) (Fin 10)) (Fin 2))) /\
   fluidRatePerHour p
   = round (add (mul (Fin 10) (Fin 6)) (mul (sub (Fin w) (Fin 10)) (Fin 3)))) /\
  (1 <= w -> w <= 10 ->
   exists r m : Z,
     fluidRatePerHour p = ofZ r /\ nearestInteger (mul64 w 6) r /\
     maintenanceRate p = ofZ m /\ nearestInteger (mul64 w 4) m).
Proof.
  intros Hw p. unfold p, calculateIHPSFluidPlan.
  cbn [fluidRatePerHour maintenanceRate].
  unfold rawFluidRate, rawMaintenanceRate. rewrite Hw.
  split; [|split].
  - intro H. replace (le (Fin w) (Fin 10)) with true
      by (symmetry; apply le_Fin; exact H).
    split; reflexivity.
  - intro H. replace (le (Fin w) (Fin 10)) with false.
    + split; reflexivity.
    + simpl. destruct (Qleb_spec w 10); [lra | reflexivity].
  - intros L U. replace (le (Fin w) (Fin 10)) with true
      by (symmetry; apply le_Fin; exact U).
    destruct (@round_mul_weight w 6 L U) as [M6 R6]; [lia|].
    destruct (@round_mul_weight w 4 L U) as [M4 R4]; [lia|].
    change (Fin 6) with (ofZ 6). change (Fin 4) with (ofZ 4).
    rewrite M6, M4, R6, R4.
    exists (Qround (mul64 w 6)), (Qround (mul64 w 4)).
    repeat split; try reflexivity; apply Qround_nearest.
Qed.

Lemma calculateIHPSFluidPlan_rates_witness :
  fluidRatePerHour
    (calculateIHPSFluidPlan (requiredOnly 132 4.0 105 7.4 1.0833333333333333))
  = Fin 7 /\
  maintenanceRate
    (calculateIHPSFluidPlan (requiredOnly 132 4.0 105 7.4 1.0833333333333333))
  = Fin 4 /\
  maintenanceRate
    (calculateIHPSFluidPlan (requiredOnly 140 4.0 105 7.4 11.499999999999998))
  = Fin 43 /\
  fluidRatePerHour
    (calculateIHPSFluidPlan (requiredOnly 140 4.0 105 7.4 11.499999999999998))
  = Fin 65.
Proof.
  pose proof (calculateIHPSFluidPlan_rates
                (requiredOnly 132 4.0 105 7.4 1.0833333333333333) eq_refl)
    as (Hlow & _ & _).
  pose proof (calculateIHPSFluidPlan_rates
                (requiredOnly 140 4.0 105 7.4 11.499999999999998) eq_refl)
    as (_ & Hhigh & _).
  destruct Hlow as (Hr & Hm); [q_concrete|].
  destruct Hhigh as (Hm' & Hr'); [q_concrete|].
  rewrite Hr, Hm, Hm', Hr'. vm_compute. repeat split.
Defined.

(** ** Rounding *)

Lemma Qfloor_unique (x : Q) (z : Z) :
  inject_Z z <= x -> x < inject_Z (z + 1) -> Qfloor x = z.
Proof.
  intros H1 H2.
  pose proof (Qfloor_le x) as F1. pose proof (Qlt_floor x) as F2.
  assert (A : inject_Z (Qfloor x) < inject_Z (z + 1)) by lra.
  assert (B : inject_Z z < inject_Z (Qfloor x + 1)) by lra.
  rewrite <- Zlt_Qlt in A, B. lia.
Qed.

Lemma Qround_integer (x : Q) (z : Z) : x == inject_Z z -> Qround x = z.
Proof.
  intro H. unfold Qround. apply Qfloor_unique.
  - lra.
  - rewrite inject_Z_plus. change (inject_Z 1) with 1. lra.
Qed.

(** ** Total volume *)

(** C1 as stated fails: on the valid snapshot [exampleSevere] the plan has
    rate 19 and correction time 36, whose product is 684, while the total
    volume is 691 (the rounding of 19.2 * 36). *)
Lemma totalFluidVolume_counterexample :
  let p := calculateIHPSFluidPlan exampleSevere in
  validSnapshot exampleSevere /\
  fluidRatePerHour p = Fin 19 /\
  correctionTime p = 36%Z /\
  totalFluidVolume p = Fin 691 /\
  strict_eq (totalFluidVolume p)
            (mul (fluidRatePerHour p) (ofZ (correctionTime p))) = false.
Proof.
  cbv zeta. split.
  - apply requiredOnly_valid; split; q_concrete.
  - vm_compute. repeat split.
Qed.

Lemma total_volume_double (w : Q) (t : Z) :
  1 <= w -> w <= 10 -> (12 <= t <= 42)%Z ->
  let raw := mul64 w 6 in
  mul (Fin raw) (ofZ t) = Fin (mul64 raw (inject_Z t)) /\
  round (Fin (mul64 raw (inject_Z t)))
  = ofZ (Qround (mul64 raw (inject_Z t))) /\
  72 <= mul64 raw (inject_Z t) /\ mul64 raw (inject_Z t) <= 2520.
Proof.
  intros L U Ht raw.
  destruct (@mul64_weight w 6 L U) as [Lr Ur]; [lia|].
  change (inject_Z 6) with 6 in Lr, Ur. change (inject_Z (10 * 6)) with 60 in Ur.
  fold raw in Lr, Ur.
  assert (P : (100 <= 2 ^ 53)%Z) by (vm_compute; discriminate).
  assert (Sr : small raw)
    by (apply (small_between (lo := 6) (hi := 60)); try lia; assumption).
  assert (Hq : 12 <= inject_Z t /\ inject_Z t <= 42).
  { split; [change 12 with (inject_Z 12) | change 42 with (inject_Z 42)];
      rewrite <- Zle_Qle; lia. }
  assert (B : 72 <= mul64 raw (inject_Z t) /\ mul64 raw (inject_Z t) <= 2520).
  { assert (Er : rnd64 raw = raw) by (unfold raw, mul64; apply rnd64_idem).
    assert (Ex : mul64 raw (inject_Z t) = rnd64 (raw * inject_Z t)).
    { unfold mul64 at 1. rewrite Er, (rnd64_integer t) by lia. reflexivity. }
    rewrite Ex.
    apply (rnd64_between (lo := 72) (hi := 2520)); try lia;
      [change (inject_Z 72) with 72 | change (inject_Z 2520) with 2520]; nra. }
  split; [apply mul_Fin; [exact Sr | apply small_inject_Z; lia]|].
  split; [|exact B].
  rewrite round_Fin.
  - unfold mul64 at 1. rewrite rnd64_idem. reflexivity.
  - apply (small_between (lo := 72) (hi := 2520)); try lia; tauto.
Qed.

(** C1, amended: for a valid snapshot the rate is [Math.round] of the
    double product [weight * 6], and the total volume is [Math.round] of
    the double product of that unrounded rate with the correction time:
    they are the integers nearest to these two doubles.  The total equals
    rate times correction time whenever the unrounded rate is an
    integer. *)
Theorem totalFluidVolume_from_unrounded_rate (s : Snapshot) :
  validSnapshot s ->
  let p := calculateIHPSFluidPlan s in
  let raw := mul (weight s) (Fin 6) in
  fluidRatePerHour p = round raw /\
  totalFluidVolume p = round (mul raw (ofZ (correctionTime p))) /\
  (forall z : Z,
      strict_eq raw (ofZ z) = true ->
      strict_eq (totalFluidVolume p)
                (mul (fluidRatePerHour p) (ofZ (correctionTime p))) = true) /\
  (forall w : Q,
      weight s = Fin w ->
      exists r v : Z,
        fluidRatePerHour p = ofZ r /\ nearestInteger (mul64 w 6) r /\
        totalFluidVolume p = ofZ v /\
        nearestInteger (mul64 (mul64 w 6) (inject_Z (correctionTime p))) v).
Proof.
  intros (_ & _ & _ & _ & Hw) p raw.
  destruct (weight s) as [|w] eqn:Ew; [destruct Hw|].
  simpl in Hw. destruct Hw as [Lw Uw].
  assert (Hraw : rawFluidRate (Fin w) = raw).
  { unfold rawFluidRate, raw.
    replace (le (Fin w) (Fin 10)) with true
      by (symmetry; apply le_Fin; lra). reflexivity. }
  assert (Hp : fluidRatePerHour p = round raw /\
               totalFluidVolume p = round (mul raw (ofZ (correctionTime p)))).
  { unfold p, calculateIHPSFluidPlan.
    cbn [fluidRatePerHour totalFluidVolume correctionTime].
    rewrite Ew, Hraw. split; reflexivity. }
  destruct Hp as [Hrate Htotal].
  set (t := correctionTime p) in *.
  assert (Ht : (12 <= t <= 42)%Z).
  { pose proof (calculateCorrectionTime_in_set (sodium s) (potassium s)
                  (chloride s) (ph s) (weight s)) as Hin.
    unfold t, p, calculateIHPSFluidPlan. cbn [correctionTime].
    simpl in Hin. lia. }
  assert (L1 : 1 <= w) by lra. assert (U1 : w <= 10) by lra.
  destruct (@round_mul_weight w 6 L1 U1) as [M6 R6]; [lia|].
  destruct (@mul64_weight w 6 L1 U1) as [Lr Ur]; [lia|].
  destruct (total_volume_double L1 U1 Ht) as (Mt & Rt & _).
  cbv zeta in Mt, Rt.
  change (inject_Z 6) with 6 in M6, R6, Lr, Ur.
  change (inject_Z (10 * 6)) with (inject_Z 60) in Ur.
  assert (Eraw : raw = Fin (mul64 w 6)) by exact M6.
  split; [exact Hrate|]. split; [exact Htotal|]. split.
  - intros z Hz. rewrite Eraw in Hz. simpl in Hz. apply Qeq_bool_iff in Hz.
    assert (Ez : mul64 w 6 = inject_Z z).
    { apply canonical_eq; [apply rnd64_canonical | apply Qred_inject_Z | exact Hz]. }
    assert (Bz : (6 <= z <= 60)%Z).
    { assert (Lz : inject_Z 6 <= inject_Z z) by (rewrite <- Ez; exact Lr).
      assert (Uz : inject_Z z <= inject_Z 60) by (rewrite <- Ez; exact Ur).
      rewrite <- Zle_Qle in Lz, Uz. lia. }
    assert (P : (100 <= 2 ^ 26)%Z) by (vm_compute; discriminate).
    assert (P' : (2 ^ 26 <= 2 ^ 53)%Z) by (vm_compute; discriminate).
    rewrite Htotal, Hrate, Eraw, Ez. fold (ofZ z).
    rewrite (round_ofZ z) by lia. rewrite (mul_ofZ z t) by lia.
    rewrite round_ofZ by nia.
    simpl. apply Qeq_bool_iff. reflexivity.
  - intros w' Hw'. injection Hw' as <-.
    exists (Qround (mul64 w 6)), (Qround (mul64 (mul64 w 6) (inject_Z t))).
    rewrite Hrate, Htotal, Eraw, R6, Mt, Rt.
    repeat split; try reflexivity; apply Qround_nearest.
Qed.

Lemma totalFluidVolume_from_unrounded_rate_witness :
  let s := requiredOnly 132 4.0 105 7.4 1.025 in
  let p := calculateIHPSFluidPlan s in
  validSnapshot s /\
  fluidRatePerHour p = Fin 6 /\
  correctionTime p = 30%Z /\
  totalFluidVolume p = Fin 184 /\
  strict_eq
    (totalFluidVolume (calculateIHPSFluidPlan exampleNormal))
    (mul (fluidRatePerHour (calculateIHPSFluidPlan exampleNormal))
         (ofZ (correctionTime (calculateIHPSFluidPlan exampleNormal)))) = true.
Proof.
  assert (V : validSnapshot (requiredOnly 132 4.0 105 7.4 1.025)).
  { apply requiredOnly_valid; split; q_concrete. }
  assert (V' : validSnapshot exampleNormal).
  { apply requiredOnly_valid; split; q_concrete. }
  pose proof (totalFluidVolume_from_unrounded_rate V) as (Hr & Ht & _ & _).
  pose proof (totalFluidVolume_from_unrounded_rate V') as (_ & _ & Hz & _).
  cbv zeta. split; [exact V|].
  split; [rewrite Hr; vm_compute; reflexivity|].
  split; [reflexivity|].
  split; [rewrite Ht; vm_compute; reflexivity|].
  apply (Hz 30%Z). vm_compute. reflexivity.
Defined.

(** ** Fluid selection *)

(** C2 as stated fails: a glucose value of 0 is present and below 2.5,
    yet the guard [glucose && ...] is falsy for it and the standard branch
    is taken, which selects no 10%-dextrose solution. *)
Lemma selectBaseFluid_zero_glucose_counterexample :
  lt (Fin 0) (Fin 2.5) = true /\
  FluidSelection.fluid (selectBaseFluid (Fin 130) (Some (Fin 0)))
  = "NS + 5% Dextrose + 20 mEq/L KCl" /\
  FluidSelection.fluid (selectBaseFluid (Fin 140) (Some (Fin 0)))
  = "D5 1/2 NS + 20 mEq/L KCl" /\
  includes "D10"
    (FluidSelection.fluid (selectBaseFluid (Fin 130) (Some (Fin 0)))) = false /\
  includes "D10"
    (FluidSelection.fluid (selectBaseFluid (Fin 140) (Some (Fin 0)))) = false.
Proof. vm_compute. repeat split. Qed.

(** C2, amended: when glucose is present, non-zero and below 2.5 the base
    fluid, before the potassium adjustment, is "D10 1/2 NS" if
    sodium < 135 and "D10 NS" otherwise, each with the standard
    20 mEq/L KCl additive. *)
Theorem selectBaseFluid_low_glucose (na : number) (g : Q) :
  ~ g == 0 -> g < 2.5 ->
  FluidSelection.fluid (selectBaseFluid na (Some (Fin g)))
  = (if lt na (Fin 135) then "D10 1/2 NS" else "D10 NS") ++ " + 20 mEq/L KCl".
Proof.
  intros Hnz Hlow. unfold selectBaseFluid, and_lt, truthy.
  destruct (Qeqb_spec g 0) as [E|_]; [contradiction|].
  replace (lt (Fin g) (Fin 2.5)) with true
    by (symmetry; apply lt_Fin; exact Hlow).
  simpl. destruct (lt na (Fin 135)); reflexivity.
Qed.

Lemma selectBaseFluid_low_glucose_witness :
  FluidSelection.fluid (selectBaseFluid (Fin 130) (Some (Fin 2.0)))
  = "D10 1/2 NS + 20 mEq/L KCl" /\
  FluidSelection.fluid (selectBaseFluid (Fin 140) (Some (Fin 2.0)))
  = "D10 NS + 20 mEq/L KCl".
Proof.
  split.
  - apply (@selectBaseFluid_low_glucose (Fin 130) 2.0); q_concrete.
  - apply (@selectBaseFluid_low_glucose (Fin 140) 2.0); q_concrete.
Defined.

Lemma selectBaseFluid_label (na : number) (glucose : option number) :
  exists label,
    In label baseLabels /\
    FluidSelection.fluid (selectBaseFluid na glucose)
    = label ++ " + 20 mEq/L KCl".
Proof.
  unfold selectBaseFluid, baseLabels.
  destruct (and_lt glucose (Fin 2.5)), (and_lt glucose (Fin 3.0)),
    (lt na (Fin 135)); simpl;
    first [ exists "D10 1/2 NS"; split; [simpl; tauto | reflexivity]
          | exists "D10 NS"; split; [simpl; tauto | reflexivity]
          | exists "D5 1/2 NS"; split; [simpl; tauto | reflexivity]
          | exists "NS + 5% Dextrose"; split; [simpl; tauto | reflexivity] ].
Qed.

Lemma adjustKCl_label (k : number) (label r : string) :
  In label baseLabels ->
  let sel := adjustKCl k (FluidSelection.mk (label ++ " + 20 mEq/L KCl") r) in
  (lt k (Fin 3.0) = true ->
   sel = FluidSelection.mk (label ++ " + 40 mEq/L KCl")
           (r ++ " + aggressive KCl for severe hypokalaemia")) /\
  (lt k (Fin 3.0) = false -> gt k (Fin 5.0) = true ->
   sel = FluidSelection.mk label (r ++ " + hold KCl for hyperkalaemia")) /\
  (lt k (Fin 3.0) = false -> gt k (Fin 5.0) = false ->
   sel = FluidSelection.mk (label ++ " + 20 mEq/L KCl") r).
Proof.
  intros Hl sel. unfold sel, adjustKCl.
  repeat split; intros; repeat match goal with H : _ = _ |- _ => rewrite H end;
    simpl FluidSelection.fluid; simpl FluidSelection.reason;
    try reflexivity;
    simpl in Hl; decompose [or] Hl; subst; try contradiction; reflexivity.
Qed.

Lemma gt5_not_lt3 (k : number) : gt k (Fin 5.0) = true -> lt k (Fin 3.0) = false.
Proof.
  destruct k as [|q]; [discriminate|]. intro H. apply gt_Fin in H.
  simpl. destruct (Qltb_spec q 3.0); [lra | reflexivity].
Qed.

Lemma baseLabels_no_KCl (label : string) :
  In label baseLabels -> includes "KCl" label = false.
Proof.
  simpl. intro H. decompose [or] H; subst; try contradiction; reflexivity.
Qed.

Lemma selectOptimalFluidEnhanced_overlay_base
    (na k cl pH : number) (glucose creatinine bun hct lactate : option number) :
  let base := selectBaseFluid na glucose in
  let sel :=
    selectOptimalFluidEnhanced na k cl pH glucose creatinine bun hct lactate in
  exists label,
    In label baseLabels /\
    FluidSelection.fluid base = label ++ " + 20 mEq/L KCl" /\
    (lt k (Fin 3.0) = true ->
     FluidSelection.fluid sel = label ++ " + 40 mEq/L KCl" /\
     FluidSelection.reason sel
     = FluidSelection.reason base ++ " + aggressive KCl for severe hypokalaemia") /\
    (gt k (Fin 5.0) = true ->
     FluidSelection.fluid sel = label /\
     includes "KCl" (FluidSelection.fluid sel) = false /\
     FluidSelection.reason sel
     = FluidSelection.reason base ++ " + hold KCl for hyperkalaemia") /\
    (lt k (Fin 3.0) = false -> gt k (Fin 5.0) = false -> sel = base).
Proof.
  intros base sel.
  destruct (selectBaseFluid_label na glucose) as (label & Hin & Hfluid).
  exists label. split; [exact Hin|]. split; [exact Hfluid|].
  assert (Hbase : base = FluidSelection.mk (label ++ " + 20 mEq/L KCl")
                           (FluidSelection.reason base)).
  { unfold base in *. destruct (selectBaseFluid na glucose) as [f r].
    simpl in *. rewrite Hfluid. reflexivity. }
  unfold sel, selectOptimalFluidEnhanced. fold base. rewrite Hbase.
  destruct (adjustKCl_label k (FluidSelection.reason base) Hin)
    as (Hlow & Hhigh & Hmid).
  simpl FluidSelection.reason at 2 4.
  split; [intro H; rewrite (Hlow H); split; reflexivity|].
  split; [|intros H H'; exact (Hmid H H')].
  intro H. rewrite (Hhigh (gt5_not_lt3 k H) H). simpl.
  split; [reflexivity|]. split; [apply baseLabels_no_KCl, Hin | reflexivity].
Qed.

(** C5: whatever base fluid the glucose/sodium tree selects, it carries the
    standard 20 mEq/L KCl additive; potassium < 3.0 turns that additive
    into 40 mEq/L and appends the aggressive-KCl fragment to the reason,
    potassium > 5.0 removes the additive and appends the hold-KCl
    fragment, and otherwise fluid and reason are left as selected. *)
Theorem selectOptimalFluidEnhanced_overlay
    (na k cl pH : number) (glucose creatinine bun hct lactate : option number) :
  let base := selectBaseFluid na glucose in
  let sel :=
    selectOptimalFluidEnhanced na k cl pH glucose creatinine bun hct lactate in
  exists label,
    In label baseLabels /\
    FluidSelection.fluid base = label ++ " + 20 mEq/L KCl" /\
    (lt k (Fin 3.0) = true ->
     FluidSelection.fluid sel = label ++ " + 40 mEq/L KCl" /\
     FluidSelection.reason sel
     = FluidSelection.reason base ++ " + aggressive KCl for severe hypokalaemia") /\
    (gt k (Fin 5.0) = true ->
     FluidSelection.fluid sel = label /\
     includes "KCl" (FluidSelection.fluid sel) = false /\
     FluidSelection.reason sel
     = FluidSelection.reason base ++ " + hold KCl for hyperkalaemia") /\
    (lt k (Fin 3.0) = false -> gt k (Fin 5.0) = false -> sel = base).
Proof.
  exact (selectOptimalFluidEnhanced_overlay_base na k cl pH glucose creatinine
           bun hct lactate).
Qed.

Lemma selectOptimalFluidEnhanced_overlay_witness :
  FluidSelection.fluid
    (selectOptimalFluidEnhanced (Fin 129) (Fin 2.8) (Fin 67) (Fin 7.4)
       None None None None None)
  = "NS + 5% Dextrose + 40 mEq/L KCl" /\
  FluidSelection.fluid
    (selectOptimalFluidEnhanced (Fin 140) (Fin 5.2) (Fin 105) (Fin 7.4)
       (Some (Fin 2.0)) None None None None)
  = "D10 NS" /\
  FluidSelection.fluid
    (selectOptimalFluidEnhanced (Fin 140) (Fin 4.0) (Fin 105) (Fin 7.4)
       None None None None None)
  = "D5 1/2 NS + 20 mEq/L KCl".
Proof.
  split; [|split].
  - destruct (selectOptimalFluidEnhanced_overlay (Fin 129) (Fin 2.8) (Fin 67)
                (Fin 7.4) None None None None None)
      as (label & Hin & Hbase & Hlow & _ & _).
    destruct (Hlow eq_refl) as (Hf & _). rewrite Hf.
    simpl in Hin. decompose [or] Hin; subst; try contradiction;
      solve [discriminate Hbase | reflexivity].
  - destruct (selectOptimalFluidEnhanced_overlay (Fin 140) (Fin 5.2) (Fin 105)
                (Fin 7.4) (Some (Fin 2.0)) None None None None)
      as (label & Hin & Hbase & _ & Hhigh & _).
    destruct (Hhigh eq_refl) as (Hf & _). rewrite Hf.
    simpl in Hin. decompose [or] Hin; subst; try contradiction;
      solve [discriminate Hbase | reflexivity].
  - destruct (selectOptimalFluidEnhanced_overlay (Fin 140) (Fin 4.0) (Fin 105)
                (Fin 7.4) None None None None None)
      as (label & _ & _ & _ & _ & Hmid).
    rewrite (Hmid eq_refl eq_refl). reflexivity.
Defined.

(** ** Potassium between 5.0 and 5.5 *)

Lemma endsWith_append (suffix s : string) :
  endsWith suffix (s ++ suffix) = true.
Proof.
  induction s as [|c s IH]; simpl.
  - destruct suffix; simpl; [reflexivity|].
    rewrite Ascii.eqb_refl, String.eqb_refl. reflexivity.
  - rewrite IH. destruct (suffix =? String c (s ++ suffix))%string; reflexivity.
Qed.

Lemma generateSimpleAlerts_hyperkalaemia (na k cl pH : number) :
  In alertHyperkalaemia (generateSimpleAlerts na k cl pH) ->
  gt k (Fin 5.5) = true.
Proof.
  unfold generateSimpleAlerts, pushIf.
  destruct (gt k (Fin 5.5)); [reflexivity|].
  destruct (lt k (Fin 3.0)), (lt na (Fin 130)), (lt cl (Fin 70)),
    (gt pH (Fin 7.55)); simpl; intro H; decompose [or] H;
    try contradiction; discriminate.
Qed.

(** C10: for 5.0 < potassium <= 5.5 the plan's fluid carries no KCl
    additive and its reason ends with the hold-KCl fragment, while the
    alerts contain no hyperkalaemia alert. *)
Theorem calculateIHPSFluidPlan_hold_KCl_without_alert (s : Snapshot) (k : Q) :
  potassium s = Fin k -> 5.0 < k -> k <= 5.5 ->
  let p := calculateIHPSFluidPlan s in
  In (fluidType p) baseLabels /\
  includes "KCl" (fluidType p) = false /\
  endsWith " + hold KCl for hyperkalaemia" (fluidSelectionReason p) = true /\
  ~ In alertHyperkalaemia (alerts p).
Proof.
  intros Hk Hlo Hhi p. unfold p, calculateIHPSFluidPlan.
  cbn [fluidType fluidSelectionReason alerts]. rewrite Hk.
  assert (Hgt : gt (Fin k) (Fin 5.0) = true) by (apply gt_Fin; exact Hlo).
  destruct (selectOptimalFluidEnhanced_overlay_base (sodium s) (Fin k)
              (chloride s) (ph s) (glucose s) (creatinine s) (bun s) (hct s)
              (lactate s)) as (label & Hin & _ & _ & Hhigh & _).
  destruct (Hhigh Hgt) as (Hf & Hno & Hr).
  split; [rewrite Hf; exact Hin|].
  split; [exact Hno|].
  split; [rewrite Hr; apply endsWith_append|].
  intro H. apply generateSimpleAlerts_hyperkalaemia, gt_Fin in H. lra.
Qed.

Lemma calculateIHPSFluidPlan_hold_KCl_without_alert_witness :
  let p := calculateIHPSFluidPlan (requiredOnly 140 5.2 105 7.4 5) in
  fluidType p = "D5 1/2 NS" /\
  includes "KCl" (fluidType p) = false /\
  ~ In alertHyperkalaemia (alerts p).
Proof.
  destruct (@calculateIHPSFluidPlan_hold_KCl_without_alert
              (requiredOnly 140 5.2 105 7.4 5) 5.2 eq_refl)
    as (_ & Hno & _ & Halert); [q_concrete | q_concrete |].
  cbv zeta. split; [reflexivity|]. split; [exact Hno | exact Halert].
Defined.

(** ** Validation *)

Lemma validateInputsRaw_numeric (na k cl pH w : option Q) :
  validateInputsRaw (valueOfOption na) (valueOfOption k) (valueOfOption cl)
    (valueOfOption pH) (valueOfOption w)
  = Some (validateInputs na k cl pH w).
Proof.
  unfold validateInputsRaw, validateInputs, rangeTest.
  assert (T : forall v, toNumberRaw (valueOfOption v) = Some (toNumber v))
    by (intros [q|]; reflexivity).
  rewrite !T. unfold bind.
  repeat match goal with
         | |- context [lt (toNumber ?v) (Fin ?lo) || gt (toNumber ?v) (Fin ?hi)] =>
           destruct (lt (toNumber v) (Fin lo) || gt (toNumber v) (Fin hi))
         end; reflexivity.
Qed.

Lemma parseOptionalRaw_numeric (v : option Q) :
  parseOptionalRaw (valueOfOption v) = Some (parseOptional v).
Proof.
  destruct v as [q|]; [|reflexivity].
  unfold parseOptionalRaw, parseOptional. simpl.
  destruct (Qeq_bool q 0); reflexivity.
Qed.

Lemma snapshotOfBody_numeric (r : Request) :
  snapshotOfBody (bodyOfRequest r) = Some (snapshotOfRequest r).
Proof.
  unfold snapshotOfBody, bodyOfRequest, snapshotOfRequest.
  cbn [body_sodium body_potassium body_chloride body_ph body_weight
         body_urineOutput body_glucose body_pco2 body_hct body_lactate
         body_be body_hco3 body_creatinine body_bun].
  rewrite !parseOptionalRaw_numeric.
  destruct (req_sodium r), (req_potassium r), (req_chloride r), (req_ph r),
    (req_weight r), (req_urineOutput r); reflexivity.
Qed.

(** On a body whose fields are numbers or absent nothing throws: the
    handler answers the validation error, or runs the engine on the
    parsed snapshot. *)
Lemma postCalculate_unfold (r : Request) :
  postCalculate r
  = (let validation :=
       validateInputs (req_sodium r) (req_potassium r) (req_chloride r)
         (req_ph r) (req_weight r) in
     if negb (valid validation) then Failure (error validation)
     else Success (calculateIHPSFluidPlan (snapshotOfRequest r))).
Proof.
  unfold postCalculate, postCalculateHandler.
  change (validateInputsRaw _ _ _ _ _)
    with (validateInputsRaw (valueOfOption (req_sodium r))
            (valueOfOption (req_potassium r)) (valueOfOption (req_chloride r))
            (valueOfOption (req_ph r)) (valueOfOption (req_weight r))).
  rewrite validateInputsRaw_numeric, snapshotOfBody_numeric. reflexivity.
Qed.


Lemma validateInputs_present (na k cl pH w : Q) :
  valid (validateInputs (Some na) (Some k) (Some cl) (Some pH) (Some w)) = true
  <-> (120 <= na /\ na <= 155) /\ (2.0 <= k /\ k <= 8.0) /\
      (60 <= cl /\ cl <= 120) /\ (7.0 <= pH /\ pH <= 7.7) /\
      (1.0 <= w /\ w <= 10.0).
Proof.
  unfold validateInputs, toNumber. unfold_cmp. split_cmp; simpl;
    split; try discriminate; try (intros _; lra); try reflexivity;
    intros; exfalso; lra.
Qed.

Lemma validateInputs_error (na k cl pH w : option Q) :
  valid (validateInputs na k cl pH w) = false ->
  exists msg,
    error (validateInputs na k cl pH w) = Some msg /\
    In msg [ "Sodium must be between 120-155 mmol/L";
             "Potassium must be between 2.0-8.0 mmol/L";
             "Chloride must be between 60-120 mmol/L";
             "pH must be between 7.0-7.7";
             "Weight must be between 1.0-10.0 kg" ].
Proof.
  unfold validateInputs.
  repeat match goal with
         | |- context [if ?c then _ else _] => destruct c
         end; simpl; try discriminate; intros _;
    eexists; (split; [reflexivity|]); simpl; tauto.
Qed.

(** For a body whose five required fields are all present, the engine is
    reached exactly when every one of them is in range; otherwise the
    response is a failure that carries a field message. *)
Lemma postCalculate_present (r : Request) (na k cl pH w : Q) :
  req_sodium r = Some na -> req_potassium r = Some k ->
  req_chloride r = Some cl -> req_ph r = Some pH -> req_weight r = Some w ->
  ((exists plan, postCalculate r = Success plan) <->
   validSnapshot (snapshotOfRequest r)) /\
  (~ validSnapshot (snapshotOfRequest r) ->
   exists msg, postCalculate r = Failure (Some msg)).
Proof.
  intros Hna Hk Hcl HpH Hw.
  assert (Hv : validSnapshot (snapshotOfRequest r) <->
               valid (validateInputs (Some na) (Some k) (Some cl) (Some pH)
                        (Some w)) = true).
  { rewrite validateInputs_present. unfold validSnapshot, snapshotOfRequest.
    simpl. rewrite Hna, Hk, Hcl, HpH, Hw. simpl. tauto. }
  rewrite postCalculate_unfold. cbv zeta. rewrite Hna, Hk, Hcl, HpH, Hw.
  destruct (valid (validateInputs (Some na) (Some k) (Some cl) (Some pH)
                     (Some w))) eqn:E; simpl.
  - split; [|intro N; exfalso; apply N, Hv; reflexivity].
    split; [intros _; apply Hv; reflexivity | intros _; eexists; reflexivity].
  - destruct (validateInputs_error _ _ _ _ _ E) as (msg & Hmsg & _).
    rewrite Hmsg. split; [|intros _; exists msg; reflexivity].
    split; [intros (plan & H); discriminate H|].
    intro V. apply Hv in V. discriminate V.
Qed.

(** C8, where the code departs from it: a body without [weight] passes
    [validateInputs], because every comparison with [undefined] is false,
    and the engine runs on a [NaN] weight. *)
Theorem postCalculate_absent_weight_runs_engine :
  valid (validateInputs (Some 140) (Some 4.0) (Some 105) (Some 7.4) None)
  = true /\
  postCalculate bodyWithoutWeight
  = Success (calculateIHPSFluidPlan (snapshotOfRequest bodyWithoutWeight)) /\
  weight (snapshotOfRequest bodyWithoutWeight) = NaN /\
  ~ validSnapshot (snapshotOfRequest bodyWithoutWeight) /\
  fluidRatePerHour
    (calculateIHPSFluidPlan (snapshotOfRequest bodyWithoutWeight)) = NaN.
Proof.
  repeat split; try reflexivity.
  unfold validSnapshot. simpl. tauto.
Qed.

(** ** The worked examples of the specification *)

Example exampleSevere_plan :
  let p := calculateIHPSFluidPlan exampleSevere in
  correctionTime p = 36%Z /\
  Bolus.volume (bolusRecommendation p) = 20%Z /\
  Bolus.totalVolume (bolusRecommendation p) = Fin 64 /\
  In alertHypokalaemia (alerts p) /\ In alertHyponatremia (alerts p) /\
  fluidType p = "NS + 5% Dextrose + 40 mEq/L KCl" /\
  recheckInterval p = "24 hours".
Proof. vm_compute. intuition. Qed.

Example exampleNormal_plan :
  let p := calculateIHPSFluidPlan exampleNormal in
  correctionTime p = 12%Z /\
  Bolus.volume (bolusRecommendation p) = 0%Z /\
  Bolus.reason (bolusRecommendation p) = "No bolus needed - mild abnormalities" /\
  alerts p = [] /\
  fluidType p = "D5 1/2 NS + 20 mEq/L KCl" /\
  recheckInterval p = "12 hours".
Proof. vm_compute. intuition. Qed.

(** * Further properties of the request path *)

(** ** Validation and the handler *)

Lemma rangeCheck_spec (lo hi : Q) (v : option Q) :
  lt (toNumber v) (Fin lo) || gt (toNumber v) (Fin hi) = true
  <-> outOfRange lo hi v.
Proof.
  destruct v as [q|]; simpl; [|split; [discriminate | tauto]].
  unfold Qltb. destruct (Qleb_spec lo q), (Qleb_spec q hi); simpl;
    split; try discriminate; try reflexivity; intros; try lra.
  all: exfalso; lra.
Qed.

Lemma rangeCheck_false (lo hi : Q) (v : option Q) :
  lt (toNumber v) (Fin lo) || gt (toNumber v) (Fin hi) = false
  <-> ~ outOfRange lo hi v.
Proof.
  rewrite <- rangeCheck_spec.
  destruct (lt (toNumber v) (Fin lo) || gt (toNumber v) (Fin hi)); split.
  - discriminate.
  - intro H. exfalso. apply H. reflexivity.
  - intros _. discriminate.
  - reflexivity.
Qed.

Ltac range_cases :=
  unfold validateInputs;
  repeat match goal with
         | |- context [lt (toNumber ?v) (Fin ?lo) || gt (toNumber ?v) (Fin ?hi)] =>
           let E := fresh "E" in
           destruct (lt (toNumber v) (Fin lo) || gt (toNumber v) (Fin hi)) eqn:E;
           [apply rangeCheck_spec in E | apply rangeCheck_false in E]
         end.

(** X1: [validateInputs] accepts exactly the bodies in which no required
    field is present and out of range; an absent field is never a reason
    to reject. *)
Theorem validateInputs_valid_iff (na k cl pH w : option Q) :
  valid (validateInputs na k cl pH w) = true
  <-> ~ outOfRange 120 155 na /\ ~ outOfRange 2.0 8.0 k /\
      ~ outOfRange 60 120 cl /\ ~ outOfRange 7.0 7.7 pH /\
      ~ outOfRange 1.0 10.0 w.
Proof.
  range_cases; simpl; split; try discriminate; try tauto; reflexivity.
Qed.

(** X2: the error names the first out-of-range field in the order
    sodium, potassium, chloride, pH, weight; later fields are not
    examined. *)
Theorem validateInputs_first_error (na k cl pH w : option Q) :
  (outOfRange 120 155 na ->
   error (validateInputs na k cl pH w)
   = Some "Sodium must be between 120-155 mmol/L") /\
  (~ outOfRange 120 155 na -> outOfRange 2.0 8.0 k ->
   error (validateInputs na k cl pH w)
   = Some "Potassium must be between 2.0-8.0 mmol/L") /\
  (~ outOfRange 120 155 na -> ~ outOfRange 2.0 8.0 k ->
   outOfRange 60 120 cl ->
   error (validateInputs na k cl pH w)
   = Some "Chloride must be between 60-120 mmol/L") /\
  (~ outOfRange 120 155 na -> ~ outOfRange 2.0 8.0 k ->
   ~ outOfRange 60 120 cl -> outOfRange 7.0 7.7 pH ->
   error (validateInputs na k cl pH w) = Some "pH must be between 7.0-7.7") /\
  (~ outOfRange 120 155 na -> ~ outOfRange 2.0 8.0 k ->
   ~ outOfRange 60 120 cl -> ~ outOfRange 7.0 7.7 pH ->
   outOfRange 1.0 10.0 w ->
   error (validateInputs na k cl pH w)
   = Some "Weight must be between 1.0-10.0 kg").
Proof.
  repeat split; intros; range_cases; simpl; try reflexivity; tauto.
Qed.

Lemma validateInputs_first_error_witness :
  error (validateInputs (Some 160) (Some 1.0) None None None)
  = Some "Sodium must be between 120-155 mmol/L" /\
  error (validateInputs None (Some 1.0) (Some 10) None None)
  = Some "Potassium must be between 2.0-8.0 mmol/L" /\
  error (validateInputs (Some 140) (Some 4.0) (Some 105) (Some 7.4) (Some 11))
  = Some "Weight must be between 1.0-10.0 kg".
Proof.
  split; [|split].
  - apply (validateInputs_first_error
             (Some 160) (Some 1.0) None None None).
    simpl. right. q_concrete.
  - apply (validateInputs_first_error
             None (Some 1.0) (Some 10) None None).
    + simpl. tauto.
    + simpl. left. q_concrete.
  - apply (validateInputs_first_error
             (Some 140) (Some 4.0) (Some 105) (Some 7.4) (Some 11));
      simpl; try (intros [H|H]; revert H; q_concrete).
    right. q_concrete.
Defined.

Lemma parseOptionalRaw_convertible (v : BodyValue) :
  v <> Unconvertible -> exists o, parseOptionalRaw v = Some o.
Proof.
  destruct v as [|q|]; [eexists; reflexivity | | contradiction].
  intros _. unfold parseOptionalRaw. simpl.
  destruct (negb (Qeq_bool q 0)); eexists; reflexivity.
Qed.

(** X3: the response does not depend on the numbers given for
    [urineOutput], [pco2], [be], [hco3], [creatinine] and [bun], nor on
    their being absent: two bodies that differ only in these fields get
    the same response, provided none of these values is one whose
    conversion throws.  When one is, a body that passes validation is
    answered by the [catch] branch. *)
Theorem postCalculateHandler_unused_fields
    (na k cl pH w g h l u p b hc c n u' p' b' hc' c' n' : BodyValue) :
  (u <> Unconvertible /\ p <> Unconvertible /\ b <> Unconvertible /\
   hc <> Unconvertible /\ c <> Unconvertible /\ n <> Unconvertible ->
   u' <> Unconvertible /\ p' <> Unconvertible /\ b' <> Unconvertible /\
   hc' <> Unconvertible /\ c' <> Unconvertible /\ n' <> Unconvertible ->
   postCalculateHandler (Some (mkBody na k cl pH w u g p h l b hc c n))
   = postCalculateHandler (Some (mkBody na k cl pH w u' g p' h l b' hc' c' n')))
  /\
  (forall v,
      validateInputsRaw na k cl pH w = Some v -> valid v = true ->
      u = Unconvertible \/ p = Unconvertible \/ b = Unconvertible \/
      hc = Unconvertible \/ c = Unconvertible \/ n = Unconvertible ->
      postCalculateHandler (Some (mkBody na k cl pH w u g p h l b hc c n))
      = Failure (Some calculationError)).
Proof.
  split.
  - intros (Hu & Hp & Hb & Hhc & Hc & Hn) (Hu' & Hp' & Hb' & Hhc' & Hc' & Hn').
    unfold postCalculateHandler.
    cbn [body_sodium body_potassium body_chloride body_ph body_weight].
    destruct (validateInputsRaw na k cl pH w) as [v|]; [|reflexivity].
    destruct (negb (valid v)); [reflexivity|].
    unfold snapshotOfBody.
    cbn [body_sodium body_potassium body_chloride body_ph body_weight
           body_urineOutput body_glucose body_pco2 body_hct body_lactate
           body_be body_hco3 body_creatinine body_bun].
    destruct (parseOptionalRaw_convertible Hp) as (o1 & ->).
    destruct (parseOptionalRaw_convertible Hb) as (o2 & ->).
    destruct (parseOptionalRaw_convertible Hhc) as (o3 & ->).
    destruct (parseOptionalRaw_convertible Hc) as (o4 & ->).
    destruct (parseOptionalRaw_convertible Hn) as (o5 & ->).
    destruct (parseOptionalRaw_convertible Hp') as (o1' & ->).
    destruct (parseOptionalRaw_convertible Hb') as (o2' & ->).
    destruct (parseOptionalRaw_convertible Hhc') as (o3' & ->).
    destruct (parseOptionalRaw_convertible Hc') as (o4' & ->).
    destruct (parseOptionalRaw_convertible Hn') as (o5' & ->).
    destruct (parseFloatRaw na), (parseFloatRaw k), (parseFloatRaw cl),
      (parseFloatRaw pH), (parseFloatRaw w); try reflexivity.
    destruct u as [|qu|], u' as [|qu'|]; try contradiction;
      simpl;
      destruct (parseOptionalRaw g), (parseOptionalRaw h),
        (parseOptionalRaw l); reflexivity.
  - intros v Hv Hvalid Hbad. unfold postCalculateHandler.
    cbn [body_sodium body_potassium body_chloride body_ph body_weight].
    rewrite Hv, Hvalid. simpl negb. cbv iota.
    unfold snapshotOfBody.
    cbn [body_sodium body_potassium body_chloride body_ph body_weight
           body_urineOutput body_glucose body_pco2 body_hct body_lactate
           body_be body_hco3 body_creatinine body_bun].
    destruct (parseFloatRaw na), (parseFloatRaw k), (parseFloatRaw cl),
      (parseFloatRaw pH), (parseFloatRaw w); try reflexivity; simpl.
    destruct Hbad as [ -> | [ -> | [ -> | [ -> | [ -> | -> ] ] ] ] ]; simpl;
      repeat match goal with
             | |- context [bind ?m _] =>
               match m with
               | parseFloatRaw _ => destruct m
               | parseOptionalRaw _ => destruct m
               end; simpl
             end; try reflexivity.
Qed.

Lemma postCalculateHandler_unused_fields_witness :
  postCalculateHandler
    (Some (mkBody (Numeric 140) (Numeric 4.0) (Numeric 105) (Numeric 7.4)
             (Numeric 5) Absent Absent (Numeric 40) Absent Absent Absent
             Absent (Numeric 60) Absent))
  = postCalculateHandler (Some (bodyOfRequest
      (mkRequest (Some 140) (Some 4.0) (Some 105) (Some 7.4) (Some 5) None
         None None None None None None None None))) /\
  postCalculateHandler
    (Some (mkBody (Numeric 140) (Numeric 4.0) (Numeric 105) (Numeric 7.4)
             (Numeric 5) Absent Absent Unconvertible Absent Absent Absent
             Absent Absent Absent))
  = Failure (Some calculationError).
Proof.
  destruct (postCalculateHandler_unused_fields
              (Numeric 140) (Numeric 4.0) (Numeric 105) (Numeric 7.4)
              (Numeric 5) Absent Absent Absent
              Absent (Numeric 40) Absent Absent (Numeric 60) Absent
              Absent Absent Absent Absent Absent Absent) as (Hsame & _).
  destruct (postCalculateHandler_unused_fields
              (Numeric 140) (Numeric 4.0) (Numeric 105) (Numeric 7.4)
              (Numeric 5) Absent Absent Absent
              Absent Unconvertible Absent Absent Absent Absent
              Absent Absent Absent Absent Absent Absent) as (_ & Hthrow).
  split.
  - apply Hsame; repeat split; discriminate.
  - apply (Hthrow (mkValidation true None)); [reflexivity | reflexivity|].
    right. left. reflexivity.
Defined.

Lemma parseOptional_zero (q : Q) : q == 0 -> parseOptional (Some q) = None.
Proof.
  intro H. unfold parseOptional. simpl.
  destruct (Qeqb_spec q 0); [reflexivity | contradiction].
Qed.

(** X4: an optional value of zero is handled exactly like an absent one:
    the handler passes [null] for it, so a body with glucose, hematocrit
    or lactate equal to 0 gets the response of the body without them. *)
Theorem postCalculate_zero_optional_is_absent
    (na k cl pH w u g p h l b hc c n : option Q) (z : Q) :
  z == 0 ->
  postCalculate (mkRequest na k cl pH w u (Some z) p h l b hc c n)
  = postCalculate (mkRequest na k cl pH w u None p h l b hc c n) /\
  postCalculate (mkRequest na k cl pH w u g p (Some z) l b hc c n)
  = postCalculate (mkRequest na k cl pH w u g p None l b hc c n) /\
  postCalculate (mkRequest na k cl pH w u g p h (Some z) b hc c n)
  = postCalculate (mkRequest na k cl pH w u g p h None b hc c n).
Proof.
  intro Hz. rewrite !postCalculate_unfold. unfold snapshotOfRequest. simpl.
  rewrite (parseOptional_zero Hz). repeat split; reflexivity.
Qed.

Lemma postCalculate_zero_optional_is_absent_witness :
  postCalculate
    (mkRequest (Some 140) (Some 4.0) (Some 105) (Some 7.4) (Some 5) None
       (Some 0) None None None None None None None)
  = postCalculate
      (mkRequest (Some 140) (Some 4.0) (Some 105) (Some 7.4) (Some 5) None
         None None None None None None None None).
Proof.
  apply (@postCalculate_zero_optional_is_absent
           (Some 140) (Some 4.0) (Some 105) (Some 7.4) (Some 5) None
           None None None None None None None None 0).
  q_concrete.
Defined.

(** ** Recheck interval and correction-time thresholds *)

(** X5: the two descriptive fields keyed off the correction time always
    agree: the plan says "24 hours" and the 24-hour lab check exactly when
    the correction time exceeds 24, and "12 hours" with the 12-hour lab
    check otherwise. *)
Theorem calculateIHPSFluidPlan_recheck_consistent (s : Snapshot) :
  let p := calculateIHPSFluidPlan s in
  ((24 < correctionTime p)%Z <->
   recheckInterval p = "24 hours" /\
   nextLabCheck p = "Next lab check in 24 hours (monitoring improvement)") /\
  ((correctionTime p <= 24)%Z <->
   recheckInterval p = "12 hours" /\
   nextLabCheck p = "Next lab check in 12 hours (critical first 24 hours)").
Proof.
  intro p. unfold p, calculateIHPSFluidPlan.
  cbn [correctionTime recheckInterval nextLabCheck].
  unfold calculateNextLabCheck.
  set (t := calculateCorrectionTime _ _ _ _ _).
  destruct (Z.leb_spec t 24); split; split;
    try (intros [H' _]; discriminate H'); try lia; intros _; split; reflexivity.
Qed.

(** X6: on finite inputs the correction time is 12 exactly when sodium,
    chloride, pH and weight are all on the normal side of their first
    threshold, and it exceeds 24 (so the recheck interval is 24 hours)
    exactly when sodium < 130, or chloride < 70, or the infant is under
    3 kg and some moderate threshold is crossed. *)
Theorem calculateCorrectionTime_thresholds (na cl pH w : Q) (k : number) :
  let t := calculateCorrectionTime (Fin na) k (Fin cl) (Fin pH) (Fin w) in
  (t = 12%Z <-> 135 <= na /\ 90 <= cl /\ pH <= 7.45 /\ 3 <= w) /\
  ((24 < t)%Z <->
   na < 130 \/ cl < 70 \/
   (w < 3 /\ (na < 135 \/ cl < 90 \/ 7.55 < pH))).
Proof.
  cbv zeta. unfold_time. unfold_cmp. split_cmp; simpl;
    split; split; intros; try lia; try lra; try discriminate;
    try (exfalso; lra);
    try (repeat split; lra).
  all: try (left; lra); try (right; left; lra);
    try (right; right; split; [lra | first [left; lra | right; left; lra | right; right; lra]]).
Qed.

(** X7: the weight penalty is exactly six hours: with the laboratory
    values fixed, an infant under 3 kg gets the correction time of a
    heavier infant plus 6. *)
Theorem calculateCorrectionTime_weight_penalty
    (na k cl pH : number) (w w' : Q) :
  w < 3 -> 3 <= w' ->
  calculateCorrectionTime na k cl pH (Fin w)
  = (calculateCorrectionTime na k cl pH (Fin w') + 6)%Z.
Proof.
  intros Hw Hw'. unfold calculateCorrectionTime, weightTime.
  replace (lt (Fin w) (Fin 3.0)) with true
    by (symmetry; apply lt_Fin; lra).
  replace (lt (Fin w') (Fin 3.0)) with false; [reflexivity|].
  simpl. destruct (Qltb_spec w' 3.0); [lra | reflexivity].
Qed.

Lemma calculateCorrectionTime_weight_penalty_witness :
  calculateCorrectionTime (Fin 129) (Fin 2.8) (Fin 67) (Fin 7.4) (Fin 2.5)
  = (calculateCorrectionTime (Fin 129) (Fin 2.8) (Fin 67) (Fin 7.4) (Fin 3.2)
     + 6)%Z.
Proof.
  apply (@calculateCorrectionTime_weight_penalty
           (Fin 129) (Fin 2.8) (Fin 67) (Fin 7.4) 2.5 3.2); q_concrete.
Defined.

(** ** Rates and volumes *)

Lemma Qround_le (x y : Q) : x <= y -> (Qround x <= Qround y)%Z.
Proof. intro H. unfold Qround. apply Qfloor_resp_le. lra. Qed.

Lemma Qround_inject (z : Z) : Qround (inject_Z z) = z.
Proof. apply Qround_integer. reflexivity. Qed.

Lemma Qround_between (x : Q) (lo hi : Z) :
  inject_Z lo <= x -> x <= inject_Z hi -> (lo <= Qround x <= hi)%Z.
Proof.
  intros Hlo Hhi. split.
  - rewrite <- (Qround_inject lo). apply Qround_le, Hlo.
  - rewrite <- (Qround_inject hi). apply Qround_le, Hhi.
Qed.

(** ** The unrounded rates as functions of the weight *)

Lemma rawRate_value (w : Q) (lo rest : Z) :
  (1 <= lo <= 100)%Z -> (1 <= rest <= 100)%Z ->
  (if le (Fin w) (Fin 10) then mul (Fin w) (ofZ lo)
   else add (mul (Fin 10) (ofZ lo)) (mul (sub (Fin w) (Fin 10)) (ofZ rest)))
  = Fin (rateValue lo rest w).
Proof.
  intros Hlo Hrest.
  assert (P : (100 <= 2 ^ 26)%Z) by (vm_compute; discriminate).
  assert (P' : (2 ^ 26 <= 2 ^ 53)%Z) by (vm_compute; discriminate).
  unfold rateValue. simpl le. destruct (Qle_bool w 10).
  - apply mul_const. lia.
  - change (Fin 10) with (ofZ 10).
    rewrite (mul_ofZ 10 lo), sub_const, mul_const, add_const by lia.
    rewrite !rnd64_idem. reflexivity.
Qed.

Lemma rateValue_mono (lo rest : Z) (w w' : Q) :
  (1 <= lo <= 100)%Z -> (1 <= rest <= 100)%Z ->
  w <= w' -> rateValue lo rest w <= rateValue lo rest w'.
Proof.
  intros Hlo Hrest H.
  assert (P : (1000 <= 2 ^ 53)%Z) by (vm_compute; discriminate).
  assert (Hql : 1 <= inject_Z lo)
    by (change 1 with (inject_Z 1); rewrite <- Zle_Qle; lia).
  assert (Hqr : 1 <= inject_Z rest)
    by (change 1 with (inject_Z 1); rewrite <- Zle_Qle; lia).
  pose proof (rnd64_mono H) as M.
  assert (E10 : rnd64 10 = 10) by (apply (rnd64_integer 10); lia).
  assert (E0 : rnd64 0 = 0) by reflexivity.
  unfold rateValue.
  destruct (Qleb_spec w 10) as [A|A], (Qleb_spec w' 10) as [B|B].
  - apply rnd64_mono. nra.
  - assert (B' : 10 <= w') by lra.
    pose proof (rnd64_mono A) as MA. pose proof (rnd64_mono B') as MB.
    rewrite E10 in MA, MB.
    assert (D : 0 <= rnd64 (rnd64 w' - 10)).
    { rewrite <- E0. apply rnd64_mono. lra. }
    assert (D' : 0 <= rnd64 (rnd64 (rnd64 w' - 10) * inject_Z rest)).
    { rewrite <- E0. apply rnd64_mono. nra. }
    apply Qle_trans with (rnd64 (inject_Z (10 * lo))).
    + apply rnd64_mono. rewrite inject_Z_mult. change (inject_Z 10) with 10. nra.
    + apply rnd64_mono. lra.
  - lra.
  - apply rnd64_mono.
    assert (D : rnd64 (rnd64 w - 10) <= rnd64 (rnd64 w' - 10))
      by (apply rnd64_mono; lra).
    assert (D' : rnd64 (rnd64 (rnd64 w - 10) * inject_Z rest)
                 <= rnd64 (rnd64 (rnd64 w' - 10) * inject_Z rest))
      by (apply rnd64_mono; nra).
    lra.
Qed.

(** X8: both unrounded rates are non-decreasing in the weight, across
    the 10 kg breakpoint and up to overflow: a heavier infant never gets
    a lower maintenance or fluid rate. *)
Theorem rawRates_monotone (w w' : Q) :
  w <= w' ->
  le (rawFluidRate (Fin w)) (rawFluidRate (Fin w')) = true /\
  le (rawMaintenanceRate (Fin w)) (rawMaintenanceRate (Fin w')) = true.
Proof.
  intro H. unfold rawFluidRate, rawMaintenanceRate.
  change (Fin 6) with (ofZ 6). change (Fin 3) with (ofZ 3).
  change (Fin 4) with (ofZ 4). change (Fin 2) with (ofZ 2).
  rewrite !rawRate_value by lia.
  split; apply le_Fin, rateValue_mono; solve [lia | exact H].
Qed.

Lemma rawRates_monotone_witness :
  le (rawFluidRate (Fin 9.5)) (rawFluidRate (Fin 10.5)) = true /\
  le (rawMaintenanceRate (Fin 9.5)) (rawMaintenanceRate (Fin 10.5)) = true.
Proof.
  apply (@rawRates_monotone 9.5 10.5). q_concrete.
Defined.
Lemma correctionTime_weight_bound (na k cl pH : number) (w : Q) :
  let t := calculateCorrectionTime na k cl pH (Fin w) in
  (12 <= t <= 42)%Z /\ (3 <= w -> (t <= 36)%Z).
Proof.
  cbv zeta. unfold calculateCorrectionTime, sodiumTime, chlorideTime, phTime,
    weightTime.
  destruct (lt na (Fin 130)), (lt na (Fin 135)), (ge na (Fin 135)),
    (lt cl (Fin 70)), (lt cl (Fin 90)), (gt pH (Fin 7.55)),
    (gt pH (Fin 7.45));
    simpl; destruct (Qltb_spec w 3.0); simpl; split; try lia; intros; try lia;
    exfalso; lra.
Qed.

(** X9: for a valid snapshot every numeric field of the plan is an
    integer within fixed bounds: maintenance rate in [4, 40], fluid rate
    in [6, 60] and not below the maintenance rate, total fluid volume in
    [72, 2160], bolus total volume in [0, 200]. *)
Theorem calculateIHPSFluidPlan_bounds (s : Snapshot) :
  validSnapshot s ->
  let p := calculateIHPSFluidPlan s in
  exists m r v b : Z,
    maintenanceRate p = ofZ m /\ fluidRatePerHour p = ofZ r /\
    totalFluidVolume p = ofZ v /\
    Bolus.totalVolume (bolusRecommendation p) = ofZ b /\
    (4 <= m <= 40)%Z /\ (6 <= r <= 60)%Z /\ (m <= r)%Z /\
    (72 <= v <= 2160)%Z /\ (0 <= b <= 200)%Z.
Proof.
  intros (_ & _ & _ & _ & Hw) p.
  destruct (weight s) as [|w] eqn:Ew; [destruct Hw|]. simpl in Hw.
  destruct Hw as [Hlo Hhi].
  assert (L1 : 1 <= w) by lra. assert (U1 : w <= 10) by lra.
  unfold p, calculateIHPSFluidPlan.
  cbn [maintenanceRate fluidRatePerHour totalFluidVolume bolusRecommendation].
  rewrite Ew. unfold rawFluidRate, rawMaintenanceRate.
  replace (le (Fin w) (Fin 10)) with true
    by (symmetry; apply le_Fin; lra).
  unfold calculateBolusRecommendation. cbn [Bolus.totalVolume].
  set (t := calculateCorrectionTime _ _ _ _ _).
  set (bv := fst (lactateFactor _ _)).
  pose proof (correctionTime_weight_bound (sodium s) (potassium s)
                (chloride s) (ph s) w) as (Ht & Ht3).
  fold t in Ht, Ht3.
  assert (Hbv : (0 <= bv <= 20)%Z).
  { unfold bv, lactateFactor, hctFactor, bolusTier.
    destruct (lt _ _ || lt _ _ || gt _ _); [|destruct (lt _ _ || lt _ _ || gt _ _)];
      destruct (and_gt (hct s) _), (and_gt (lactate s) _); simpl; lia. }
  destruct (@round_mul_weight w 4 L1 U1) as [M4 R4]; [lia|].
  destruct (@round_mul_weight w 6 L1 U1) as [M6 R6]; [lia|].
  destruct (@mul64_weight w 4 L1 U1) as [L4 U4]; [lia|].
  destruct (@mul64_weight w 6 L1 U1) as [L6 U6]; [lia|].
  assert (Ht' : (12 <= t <= 42)%Z) by lia.
  destruct (total_volume_double L1 U1 Ht') as (Mt & Rt & Lt & Ut).
  cbv zeta in Mt, Rt, Lt, Ut.
  destruct (round_mul_volume Hbv L1 U1) as (Mb & Rb & Lb & Ub).
  change (Fin 4) with (ofZ 4). change (Fin 6) with (ofZ 6).
  rewrite M4, M6, R4, R6. change (inject_Z 6) with 6 in *.
  rewrite Mt, Rt, Mb, Rb.
  do 4 eexists. repeat (split; [reflexivity|]).
  change (inject_Z (10 * 4)) with (inject_Z 40) in U4.
  change (inject_Z (10 * 6)) with (inject_Z 60) in U6.
  split; [apply Qround_between; assumption|].
  split; [apply Qround_between; assumption|].
  split.
  { apply Qround_le. unfold mul64. apply rnd64_mono.
    destruct (weight_double L1 U1) as [Lw Uw].
    assert (E4 : rnd64 4 = 4) by (apply (rnd64_integer 4); vm_compute; discriminate).
    assert (E6 : rnd64 6 = 6) by (apply (rnd64_integer 6); vm_compute; discriminate).
    change (inject_Z 4) with 4. rewrite E4, E6. nra. }
  split.
  - apply Qround_between; [exact Lt|].
    assert (Hq : 12 <= inject_Z t /\ inject_Z t <= 42).
    { split; [change 12 with (inject_Z 12) | change 42 with (inject_Z 42)];
        rewrite <- Zle_Qle; lia. }
    change (inject_Z 60) with 60 in U6.
    assert (Hprod : mul64 w 6 * inject_Z t <= 2160).
    { destruct (Qlt_le_dec w 3) as [Hs|Hs].
      - assert (U18 : mul64 w 6 <= 18).
        { unfold mul64.
          assert (E6 : rnd64 6 = 6)
            by (apply (rnd64_integer 6); vm_compute; discriminate).
          destruct (@rnd64_between w 1 3) as [Lw Uw];
            [vm_compute; discriminate | vm_compute; discriminate
             | exact L1 | apply Qlt_le_weak, Hs |].
          change (inject_Z 1) with 1 in Lw. change (inject_Z 3) with 3 in Uw.
          rewrite E6.
          apply (rnd64_between (lo := 6) (hi := 18));
            [vm_compute; discriminate | vm_compute; discriminate
             | change (inject_Z 6) with 6; nra
             | change (inject_Z 18) with 18; nra]. }
        nra.
      - specialize (Ht3 Hs).
        assert (inject_Z t <= 36).
        { change 36 with (inject_Z 36). rewrite <- Zle_Qle. exact Ht3. }
        nra. }
    assert (Er : rnd64 (mul64 w 6) = mul64 w 6)
      by (unfold mul64; apply rnd64_idem).
    unfold mul64 at 1. rewrite Er, (rnd64_integer t) by lia.
    apply (rnd64_between (lo := 72) (hi := 2160));
      [vm_compute; discriminate | vm_compute; discriminate
       | change (inject_Z 72) with 72; nra | exact Hprod].
  - apply Qround_between; assumption.
Qed.

Lemma calculateIHPSFluidPlan_bounds_witness :
  validSnapshot exampleSevere /\
  exists r v : Z,
    fluidRatePerHour (calculateIHPSFluidPlan exampleSevere) = ofZ r /\
    totalFluidVolume (calculateIHPSFluidPlan exampleSevere) = ofZ v /\
    (6 <= r <= 60)%Z /\ (72 <= v <= 2160)%Z.
Proof.
  assert (V : validSnapshot exampleSevere).
  { apply requiredOnly_valid; split; q_concrete. }
  split; [exact V|].
  destruct (calculateIHPSFluidPlan_bounds V)
    as (m & r & v & b & _ & Hr & Hv & _ & _ & Br & _ & Bv & _).
  exists r, v. repeat split; solve [assumption | apply Br | apply Bv].
Defined.

(** ** Bolus *)

Lemma prefix_append (s t : string) : prefix s (s ++ t) = true.
Proof.
  induction s as [|c s IH]; simpl; [destruct t; reflexivity|].
  destruct (ascii_dec c c) as [_|N]; [exact IH | contradiction].
Qed.

Lemma calculateBolusRecommendation_shape
    (na cl pH w : number) (hct lactate : option number) :
  let tier := bolusTier na cl pH in
  let b := calculateBolusRecommendation na cl pH w hct lactate in
  In (Bolus.volume b) [0; 10; 20]%Z /\
  (Bolus.volume b = 0%Z <->
   fst tier = 0%Z /\ and_gt hct (Fin 50) = false /\
   and_gt lactate (Fin 2.0) = false) /\
  Bolus.volume b
  = (if and_gt hct (Fin 50) || and_gt lactate (Fin 2.0)
     then Z.max (fst tier) 10 else fst tier) /\
  Bolus.reason b
  = snd tier
    ++ (if and_gt hct (Fin 50)
        then " + high hematocrit indicates dehydration" else "")
    ++ (if and_gt lactate (Fin 2.0)
        then " + elevated lactate indicates poor perfusion" else "").
Proof.
  cbv zeta. unfold calculateBolusRecommendation, lactateFactor, hctFactor.
  cbn [Bolus.volume Bolus.reason].
  pose proof (bolusTier_volume na cl pH) as Hin.
  destruct (bolusTier na cl pH) as [v r]. simpl in Hin.
  destruct (and_gt hct (Fin 50)), (and_gt lactate (Fin 2.0)); simpl;
    decompose [or] Hin; subst; try contradiction; simpl;
    (split; [tauto|]); (split; [split; [try discriminate; tauto
                                      | intros (H1 & H2 & H3);
                                        try discriminate; reflexivity]|]);
    split; try reflexivity.
  all: induction r as [|c r IH]; simpl; try reflexivity;
    try (f_equal; exact IH).
  all: rewrite <- ?append_assoc; reflexivity.
Qed.

(** X10: the returned per-kg volume is still one of 0, 10, 20 after the
    two additional factors; it is 0 exactly when the tier is 0 and neither
    factor fires; and the reason is the tier's reason followed by the
    hematocrit fragment and then the lactate fragment, each present
    exactly when its factor fires. *)
Theorem calculateBolusRecommendation_volume_and_reason
    (na cl pH w : number) (hct lactate : option number) :
  let tier := bolusTier na cl pH in
  let b := calculateBolusRecommendation na cl pH w hct lactate in
  In (Bolus.volume b) [0; 10; 20]%Z /\
  (Bolus.volume b = 0%Z <->
   fst tier = 0%Z /\ and_gt hct (Fin 50) = false /\
   and_gt lactate (Fin 2.0) = false) /\
  Bolus.volume b
  = (if and_gt hct (Fin 50) || and_gt lactate (Fin 2.0)
     then Z.max (fst tier) 10 else fst tier) /\
  Bolus.reason b
  = snd tier
    ++ (if and_gt hct (Fin 50)
        then " + high hematocrit indicates dehydration" else "")
    ++ (if and_gt lactate (Fin 2.0)
        then " + elevated lactate indicates poor perfusion" else "").
Proof. exact (calculateBolusRecommendation_shape na cl pH w hct lactate). Qed.

(** X11: with sodium, chloride and pH on the normal side of the moderate
    thresholds, a hematocrit above 50 or a lactate above 2.0 still gives a
    10 mL/kg bolus, and the reason keeps the tier's opening words
    "No bolus needed". *)
Theorem calculateBolusRecommendation_factor_on_no_bolus
    (na cl pH : Q) (w : number) (hct lactate : option number) :
  135 <= na -> 90 <= cl -> pH <= 7.45 ->
  and_gt hct (Fin 50) || and_gt lactate (Fin 2.0) = true ->
  let b := calculateBolusRecommendation (Fin na) (Fin cl) (Fin pH) w hct lactate in
  Bolus.volume b = 10%Z /\
  prefix "No bolus needed - mild abnormalities" (Bolus.reason b) = true.
Proof.
  intros Hna Hcl HpH Hfire b.
  destruct (calculateBolusRecommendation_shape (Fin na) (Fin cl) (Fin pH) w
              hct lactate) as (_ & _ & Hv & Hr).
  fold b in Hv, Hr.
  destruct (bolusTier_cases na cl pH) as (_ & _ & H0).
  rewrite H0 in Hv, Hr by (intro H; lra).
  rewrite Hfire in Hv. split; [exact Hv|].
  rewrite Hr. apply prefix_append.
Qed.

Lemma calculateBolusRecommendation_factor_on_no_bolus_witness :
  let b := calculateBolusRecommendation (Fin 140) (Fin 105) (Fin 7.4) (Fin 5)
             (Some (Fin 55)) None in
  Bolus.volume b = 10%Z /\
  prefix "No bolus needed - mild abnormalities" (Bolus.reason b) = true.
Proof.
  apply (@calculateBolusRecommendation_factor_on_no_bolus
           140 105 7.4 (Fin 5) (Some (Fin 55)) None);
    solve [q_concrete | reflexivity].
Defined.

(** ** Alerts *)

Lemma generateSimpleAlerts_In (na k cl pH : number) :
  (In alertHypokalaemia (generateSimpleAlerts na k cl pH)
   <-> lt k (Fin 3.0) = true) /\
  (In alertHyperkalaemia (generateSimpleAlerts na k cl pH)
   <-> gt k (Fin 5.5) = true) /\
  (In alertHyponatremia (generateSimpleAlerts na k cl pH)
   <-> lt na (Fin 130) = true) /\
  (In alertHypochloremia (generateSimpleAlerts na k cl pH)
   <-> lt cl (Fin 70) = true) /\
  (In alertAlkalosis (generateSimpleAlerts na k cl pH)
   <-> gt pH (Fin 7.55) = true).
Proof.
  unfold generateSimpleAlerts, pushIf.
  destruct (lt k (Fin 3.0)), (gt k (Fin 5.5)), (lt na (Fin 130)),
    (lt cl (Fin 70)), (gt pH (Fin 7.55)); simpl;
    repeat split; intros; try reflexivity; try discriminate; try tauto;
    repeat match goal with
           | H : _ \/ _ |- _ => destruct H
           | H : False |- _ => destruct H
           | H : _ = _ |- _ => discriminate H
           end.
Qed.

Lemma potassium_alerts_exclusive (k : number) :
  lt k (Fin 3.0) = true -> gt k (Fin 5.5) = true -> False.
Proof.
  destruct k as [|q]; [discriminate|]. intros H1 H2.
  apply lt_Fin in H1. apply gt_Fin in H2. lra.
Qed.

(** X12: the alerts never repeat a message, there are at most four of
    them, and the hypokalaemia and hyperkalaemia alerts never occur
    together. *)
Theorem generateSimpleAlerts_at_most_four (na k cl pH : number) :
  NoDup (generateSimpleAlerts na k cl pH) /\
  (List.length (generateSimpleAlerts na k cl pH) <= 4)%nat /\
  ~ (In alertHypokalaemia (generateSimpleAlerts na k cl pH) /\
     In alertHyperkalaemia (generateSimpleAlerts na k cl pH)).
Proof.
  pose proof (potassium_alerts_exclusive k) as Hex.
  destruct (generateSimpleAlerts_In na k cl pH) as (Hlo & Hhi & _).
  split; [|split].
  - unfold generateSimpleAlerts, pushIf.
    destruct (lt k (Fin 3.0)), (gt k (Fin 5.5)), (lt na (Fin 130)),
      (lt cl (Fin 70)), (gt pH (Fin 7.55)); simpl;
      repeat (constructor; [simpl; intro H;
                            repeat (destruct H as [H|H]; [discriminate H|]);
                            exact H|]);
      constructor.
  - unfold generateSimpleAlerts, pushIf.
    destruct (lt k (Fin 3.0)), (gt k (Fin 5.5)); [exfalso; auto | | | ];
      destruct (lt na (Fin 130)), (lt cl (Fin 70)), (gt pH (Fin 7.55));
      simpl; lia.
  - intros [H1 H2]. apply Hlo in H1. apply Hhi in H2. exact (Hex H1 H2).
Qed.

(** ** Agreement between the parts of a plan *)

Lemma overlay_includes_40 (label : string) :
  In label baseLabels ->
  includes "40 mEq/L" (label ++ " + 40 mEq/L KCl") = true /\
  includes "40 mEq/L" (label ++ " + 20 mEq/L KCl") = false /\
  includes "40 mEq/L" label = false.
Proof.
  simpl. intro H. decompose [or] H; subst; try contradiction;
    repeat split; reflexivity.
Qed.

Lemma gt55_gt5 (k : number) : gt k (Fin 5.5) = true -> gt k (Fin 5.0) = true.
Proof.
  destruct k as [|q]; [discriminate|]. intro H. apply gt_Fin in H.
  apply gt_Fin. lra.
Qed.

Lemma bolus_volume_severe (na cl pH w : number) (hct lactate : option number) :
  lt na (Fin 130) || lt cl (Fin 70) || gt pH (Fin 7.55) = true ->
  Bolus.volume (calculateBolusRecommendation na cl pH w hct lactate) = 20%Z.
Proof.
  intro H. unfold calculateBolusRecommendation, lactateFactor, hctFactor,
    bolusTier. rewrite H. cbn [Bolus.volume].
  destruct (and_gt hct (Fin 50)), (and_gt lactate (Fin 2.0)); reflexivity.
Qed.

Lemma correctionTime_severe (na k cl pH w : number) :
  lt na (Fin 130) || lt cl (Fin 70) = true ->
  (36 <= calculateCorrectionTime na k cl pH w)%Z.
Proof.
  intro H. unfold calculateCorrectionTime, sodiumTime, chlorideTime, phTime,
    weightTime.
  destruct (lt na (Fin 130)), (lt cl (Fin 70)); try discriminate H;
    destruct (lt na (Fin 135)), (ge na (Fin 135)), (lt cl (Fin 90)),
      (gt pH (Fin 7.55)), (gt pH (Fin 7.45)), (lt w (Fin 3.0)); simpl; lia.
Qed.

Lemma correctionTime_alkalosis (na k cl pH w : number) :
  gt pH (Fin 7.55) = true -> (24 <= calculateCorrectionTime na k cl pH w)%Z.
Proof.
  intro H. unfold calculateCorrectionTime, phTime, weightTime. rewrite H.
  destruct (lt w (Fin 3.0)); lia.
Qed.

(** X13: the alerts agree with the rest of the plan.  The hypokalaemia
    alert is raised exactly when the fluid carries 40 mEq/L KCl; with the
    hyperkalaemia alert the fluid carries no KCl; with the hyponatremia or
    hypochloremia alert the correction time is at least 36 hours, the
    recheck interval is 24 hours and the bolus is 20 mL/kg; with the
    alkalosis alert the correction time is at least 24 hours and the bolus
    is 20 mL/kg. *)
Theorem calculateIHPSFluidPlan_alerts_agree (s : Snapshot) :
  let p := calculateIHPSFluidPlan s in
  (In alertHypokalaemia (alerts p)
   <-> includes "40 mEq/L" (fluidType p) = true) /\
  (In alertHyperkalaemia (alerts p) -> includes "KCl" (fluidType p) = false) /\
  (In alertHyponatremia (alerts p) \/ In alertHypochloremia (alerts p) ->
   (36 <= correctionTime p)%Z /\ recheckInterval p = "24 hours" /\
   Bolus.volume (bolusRecommendation p) = 20%Z) /\
  (In alertAlkalosis (alerts p) ->
   (24 <= correctionTime p)%Z /\
   Bolus.volume (bolusRecommendation p) = 20%Z).
Proof.
  intro p. unfold p, calculateIHPSFluidPlan.
  cbn [alerts fluidType correctionTime recheckInterval bolusRecommendation].
  destruct (generateSimpleAlerts_In (sodium s) (potassium s) (chloride s) (ph s))
    as (Hk3 & Hk55 & Hna & Hcl & HpH).
  rewrite Hk3, Hk55, Hna, Hcl, HpH.
  destruct (selectOptimalFluidEnhanced_overlay_base (sodium s) (potassium s)
              (chloride s) (ph s) (glucose s) (creatinine s) (bun s) (hct s)
              (lactate s)) as (label & Hin & Hbase & Hlow & Hhigh & Hmid).
  destruct (overlay_includes_40 Hin) as (I40 & I20 & I0).
  split; [|split; [|split]].
  - destruct (lt (potassium s) (Fin 3.0)) eqn:E3.
    + destruct (Hlow eq_refl) as (Hf & _). rewrite Hf. tauto.
    + destruct (gt (potassium s) (Fin 5.0)) eqn:E5.
      * destruct (Hhigh eq_refl) as (Hf & _). rewrite Hf, I0.
        split; discriminate.
      * rewrite (Hmid eq_refl eq_refl), Hbase, I20. split; discriminate.
  - intro H. apply gt55_gt5 in H. destruct (Hhigh H) as (_ & Hno & _).
    exact Hno.
  - intro H.
    assert (Hs : lt (sodium s) (Fin 130) || lt (chloride s) (Fin 70) = true).
    { destruct H as [H|H]; rewrite H; [reflexivity | apply orb_true_r]. }
    pose proof (correctionTime_severe (sodium s) (potassium s) (chloride s)
                  (ph s) (weight s) Hs) as Ht.
    split; [exact Ht|]. split.
    + destruct (Z.leb_spec (calculateCorrectionTime (sodium s) (potassium s)
                              (chloride s) (ph s) (weight s)) 24);
        [lia | reflexivity].
    + apply bolus_volume_severe. rewrite Hs. reflexivity.
  - intro H. split; [apply correctionTime_alkalosis, H|].
    apply bolus_volume_severe. rewrite H. apply orb_true_r.
Qed.

Lemma calculateIHPSFluidPlan_alerts_agree_witness :
  let p := calculateIHPSFluidPlan exampleSevere in
  includes "40 mEq/L" (fluidType p) = true /\
  (36 <= correctionTime p)%Z /\
  Bolus.volume (bolusRecommendation p) = 20%Z.
Proof.
  destruct (calculateIHPSFluidPlan_alerts_agree exampleSevere)
    as (Hk & _ & Hsev & _).
  cbv zeta. split.
  - apply Hk. simpl. tauto.
  - destruct Hsev as (Ht & _ & Hb); [left; simpl; tauto|].
    split; [exact Ht | exact Hb].
Defined.

(** ** Values that are not numbers *)

Ltac unfold_plan :=
  unfold calculateIHPSFluidPlan, selectOptimalFluidEnhanced, selectBaseFluid,
    adjustKCl, calculateBolusRecommendation, bolusTier,
    calculateCorrectionTime, sodiumTime, chlorideTime, phTime, weightTime,
    generateSimpleAlerts, setSodium, setPotassium, setChloride, setPh.

(** X14: a laboratory value that is not a number (as [parseFloat] gives
    for a field missing from the body) yields the plan of a normal value:
    a [NaN] sodium gives the plan of any sodium of at least 135, a [NaN]
    potassium that of any potassium in [3, 5], a [NaN] chloride that of
    any chloride of at least 90, a [NaN] pH that of any pH up to 7.45. *)
Theorem calculateIHPSFluidPlan_NaN_as_normal (s : Snapshot) (q : Q) :
  (135 <= q ->
   calculateIHPSFluidPlan (setSodium NaN s)
   = calculateIHPSFluidPlan (setSodium (Fin q) s)) /\
  (3 <= q -> q <= 5 ->
   calculateIHPSFluidPlan (setPotassium NaN s)
   = calculateIHPSFluidPlan (setPotassium (Fin q) s)) /\
  (90 <= q ->
   calculateIHPSFluidPlan (setChloride NaN s)
   = calculateIHPSFluidPlan (setChloride (Fin q) s)) /\
  (q <= 7.45 ->
   calculateIHPSFluidPlan (setPh NaN s)
   = calculateIHPSFluidPlan (setPh (Fin q) s)).
Proof.
  repeat split; intros; unfold_plan; cbn [sodium potassium chloride ph weight
    glucose hct lactate creatinine bun]; unfold gt, ge; simpl lt; simpl le;
    split_cmp; try lra; reflexivity.
Qed.

Lemma calculateIHPSFluidPlan_NaN_as_normal_witness :
  calculateIHPSFluidPlan (setSodium NaN exampleNormal)
  = calculateIHPSFluidPlan exampleNormal /\
  calculateIHPSFluidPlan (setPh NaN exampleNormal)
  = calculateIHPSFluidPlan exampleNormal.
Proof.
  destruct (calculateIHPSFluidPlan_NaN_as_normal exampleNormal 140)
    as (Hna & _ & _ & _).
  destruct (calculateIHPSFluidPlan_NaN_as_normal exampleNormal 7.4)
    as (_ & _ & _ & HpH).
  split.
  - apply Hna. q_concrete.
  - apply HpH. q_concrete.
Defined.

(** X15: a missing weight cannot be priced: when the weight is [NaN],
    both rates, the total fluid volume and the bolus total volume of the
    plan are [NaN], whatever the other values are. *)
Theorem calculateIHPSFluidPlan_NaN_weight (s : Snapshot) :
  weight s = NaN ->
  let p := calculateIHPSFluidPlan s in
  fluidRatePerHour p = NaN /\ maintenanceRate p = NaN /\
  totalFluidVolume p = NaN /\
  Bolus.totalVolume (bolusRecommendation p) = NaN.
Proof.
  intros Hw p. unfold p, calculateIHPSFluidPlan, calculateBolusRecommendation.
  cbn [fluidRatePerHour maintenanceRate totalFluidVolume bolusRecommendation
         Bolus.totalVolume].
  rewrite Hw. repeat split; reflexivity.
Qed.

Lemma calculateIHPSFluidPlan_NaN_weight_witness :
  fluidRatePerHour
    (calculateIHPSFluidPlan (snapshotOfRequest bodyWithoutWeight)) = NaN /\
  totalFluidVolume
    (calculateIHPSFluidPlan (snapshotOfRequest bodyWithoutWeight)) = NaN.
Proof.
  destruct (@calculateIHPSFluidPlan_NaN_weight
              (snapshotOfRequest bodyWithoutWeight) eq_refl)
    as (Hr & _ & Hv & _).
  split; [exact Hr | exact Hv].
Defined.

(** ** The glucose branches *)

(** X16: the remaining rows of the glucose/sodium table.  A glucose in
    [2.5, 3.0) selects "D10 1/2 NS" when sodium < 135 and "D5 1/2 NS"
    otherwise; a glucose of at least 3.0 selects what an absent glucose
    selects, namely "NS + 5% Dextrose" when sodium < 135 and "D5 1/2 NS"
    otherwise; "D10 NS" is selected only in the first branch. *)
Theorem selectBaseFluid_other_branches (na : number) (g : Q) :
  (2.5 <= g -> g < 3.0 ->
   FluidSelection.fluid (selectBaseFluid na (Some (Fin g)))
   = (if lt na (Fin 135) then "D10 1/2 NS" else "D5 1/2 NS")
     ++ " + 20 mEq/L KCl") /\
  (3.0 <= g ->
   selectBaseFluid na (Some (Fin g)) = selectBaseFluid na None) /\
  FluidSelection.fluid (selectBaseFluid na None)
  = (if lt na (Fin 135) then "NS + 5% Dextrose" else "D5 1/2 NS")
    ++ " + 20 mEq/L KCl" /\
  (forall glucose,
      FluidSelection.fluid (selectBaseFluid na glucose)
      = "D10 NS + 20 mEq/L KCl" ->
      and_lt glucose (Fin 2.5) = true /\ lt na (Fin 135) = false).
Proof.
  split; [|split; [|split]].
  - intros Hlo Hhi. unfold selectBaseFluid, and_lt, truthy. simpl lt.
    split_cmp; try lra; simpl; destruct (lt na (Fin 135)); reflexivity.
  - intros Hlo. unfold selectBaseFluid, and_lt, truthy. simpl lt.
    split_cmp; try lra; simpl; reflexivity.
  - unfold selectBaseFluid. simpl. destruct (lt na (Fin 135)); reflexivity.
  - intro glucose. unfold selectBaseFluid.
    destruct (and_lt glucose (Fin 2.5)), (and_lt glucose (Fin 3.0)),
      (lt na (Fin 135)); simpl; intro H; try discriminate H;
      split; reflexivity.
Qed.

Lemma selectBaseFluid_other_branches_witness :
  FluidSelection.fluid (selectBaseFluid (Fin 140) (Some (Fin 2.7)))
  = "D5 1/2 NS + 20 mEq/L KCl" /\
  FluidSelection.fluid (selectBaseFluid (Fin 130) (Some (Fin 4.5)))
  = "NS + 5% Dextrose + 20 mEq/L KCl".
Proof.
  destruct (selectBaseFluid_other_branches (Fin 140) 2.7) as (Hmild & _).
  destruct (selectBaseFluid_other_branches (Fin 130) 4.5)
    as (_ & Hstd & Hnone & _).
  split.
  - apply Hmild; q_concrete.
  - rewrite Hstd by q_concrete. exact Hnone.
Defined.

(** * Properties of the severity-score protocol *)

(** X17: [calculateInfusionRate] and the live rate calculation agree up
    to 10 kg, where both are [Math.round] of the double product
    [weight * 6]; between 10 and 20 kg [calculateInfusionRate] rounds
    [weight * 3], the 3 mL/kg/hr rate applied to the whole weight, while
    the live path rounds [10*6 + (weight-10)*3]. *)
Theorem calculateInfusionRate_vs_plan (s : Snapshot) (w : Q) :
  weight s = Fin w ->
  let live := fluidRatePerHour (calculateIHPSFluidPlan s) in
  let rate := InfusionRate.totalVolumePerHour (calculateInfusionRate (Fin w)) in
  (w <= 10 -> rate = live /\ live = round (mul (Fin w) (Fin 6))) /\
  (10 < w -> w <= 20 ->
   rate = round (mul (Fin w) (Fin 3)) /\
   live
   = round (add (mul (Fin 10) (Fin 6)) (mul (sub (Fin w) (Fin 10)) (Fin 3)))).
Proof.
  intros Hw live rate.
  assert (E6 : mul (Fin 4) (Fin 1.5) = Fin 6) by (vm_compute; reflexivity).
  assert (E3 : mul (Fin 2) (Fin 1.5) = Fin 3) by (vm_compute; reflexivity).
  unfold live, rate, calculateIHPSFluidPlan, calculateInfusionRate,
    rawFluidRate.
  cbn [fluidRatePerHour InfusionRate.totalVolumePerHour]. rewrite Hw.
  unfold gt, ge. simpl le. simpl lt. split.
  - intro H. split_cmp; try lra; simpl; rewrite E6; split; reflexivity.
  - intros H H'. split_cmp; try lra; simpl; rewrite E3; split; reflexivity.
Qed.

Lemma calculateInfusionRate_vs_plan_witness :
  InfusionRate.totalVolumePerHour (calculateInfusionRate (Fin 1.0833333333333333))
  = Fin 7 /\
  InfusionRate.totalVolumePerHour (calculateInfusionRate (Fin 12)) = Fin 36 /\
  fluidRatePerHour (calculateIHPSFluidPlan (requiredOnly 140 4.0 105 7.4 12))
  = Fin 66.
Proof.
  destruct (@calculateInfusionRate_vs_plan
              (requiredOnly 140 4.0 105 7.4 1.0833333333333333)
              1.0833333333333333 eq_refl) as (Hlow & _).
  destruct (@calculateInfusionRate_vs_plan
              (requiredOnly 140 4.0 105 7.4 12) 12 eq_refl) as (_ & Hhigh).
  destruct Hlow as (H1 & H2); [q_concrete|].
  destruct Hhigh as (H3 & H4); [q_concrete | q_concrete |].
  split; [rewrite H1, H2; vm_compute; reflexivity|].
  split; [rewrite H3 | rewrite H4]; vm_compute; reflexivity.
Defined.

(** X18: [estimateCorrectionTime] returns one of 12, 24, 36, 48, 72; it
    is non-decreasing in the severity score; renal impairment adds
    exactly 24 hours; and without renal impairment it returns 48 exactly
    for the scores [determinePatientCategory] calls "Severe Depletion". *)
Theorem estimateCorrectionTime_values
    (creatinine bun : option number) (score : number) :
  In (estimateCorrectionTime creatinine bun score) [12; 24; 36; 48; 72]%Z /\
  (forall x y : Q,
      x <= y ->
      (estimateCorrectionTime creatinine bun (Fin x)
       <= estimateCorrectionTime creatinine bun (Fin y))%Z) /\
  estimateCorrectionTime creatinine bun score
  = (estimateCorrectionTime None None score
     + (if renalImpairment creatinine bun then 24 else 0))%Z /\
  (estimateCorrectionTime None None score = 48%Z
   <-> determinePatientCategory score = "Severe Depletion").
Proof.
  unfold estimateCorrectionTime, determinePatientCategory.
  split; [|split; [|split]].
  - destruct (gt score (Fin 60)), (gt score (Fin 20)),
      (renalImpairment creatinine bun); simpl; tauto.
  - intros x y H. unfold gt. simpl lt.
    destruct (renalImpairment creatinine bun); split_cmp; try lra; lia.
  - change (renalImpairment None None) with false.
    destruct (gt score (Fin 60)), (gt score (Fin 20)),
      (renalImpairment creatinine bun); reflexivity.
  - change (renalImpairment None None) with false.
    destruct (gt score (Fin 60)), (gt score (Fin 20)); simpl;
      split; intro H; try reflexivity; discriminate H.
Qed.

Lemma estimateCorrectionTime_values_witness :
  (estimateCorrectionTime None None (Fin 15)
   <= estimateCorrectionTime None None (Fin 65))%Z.
Proof.
  destruct (estimateCorrectionTime_values None None (Fin 0)) as (_ & Hmono & _).
  apply Hmono. q_concrete.
Defined.

(** X19: without renal impairment and without a glucose value, the fluid
    label of [selectOptimalFluid] equals the live path's label exactly
    when potassium is below 3.0 or within [3.5, 5.0]: for potassium in
    [3.0, 3.5) it is the base label with 30 mEq/L KCl where the live path
    has the same label with 20, and above 5.0 it is the live path's bare
    label followed by " + 0 mEq/L KCl". *)
Theorem selectOptimalFluid_vs_enhanced
    (na cl pH : number) (k : Q) (creatinine bun hct lactate : option number) :
  renalImpairment creatinine bun = false ->
  let old := OptimalFluid.fluid (selectOptimalFluid na (Fin k) creatinine bun) in
  let live :=
    FluidSelection.fluid
      (selectOptimalFluidEnhanced na (Fin k) cl pH None creatinine bun hct
         lactate) in
  (old = live <-> k < 3 \/ (3.5 <= k /\ k <= 5)) /\
  (3 <= k -> k < 3.5 ->
   exists label,
     In label ["NS + 5% Dextrose"; "D5 1/2 NS"] /\
     old = label ++ " + 30 mEq/L KCl" /\ live = label ++ " + 20 mEq/L KCl") /\
  (5 < k ->
   exists label,
     In label ["NS + 5% Dextrose"; "D5 1/2 NS"] /\
     live = label /\ old = label ++ " + 0 mEq/L KCl").
Proof.
  intros Hrenal old live.
  unfold old, live, selectOptimalFluid, selectOptimalFluidEnhanced,
    selectBaseFluid, adjustKCl.
  rewrite Hrenal. cbn [OptimalFluid.fluid OptimalFluid.kclDose and_lt].
  unfold gt. simpl (lt (Fin _) (Fin _)).
  destruct (lt na (Fin 135)), (ge na (Fin 135) && lt na (Fin 140));
    split_cmp; try lra; cbn;
    (split; [split; [intro H; try (exfalso; discriminate H); lra
                    | intro H; try reflexivity; exfalso; lra]|]);
    (split; [intros; try (exfalso; lra)
            | intros; try (exfalso; lra)]);
    first [ exists "NS + 5% Dextrose"; split; [simpl; tauto|];
            split; reflexivity
          | exists "D5 1/2 NS"; split; [simpl; tauto|]; split; reflexivity ].
Qed.

Lemma selectOptimalFluid_vs_enhanced_witness :
  OptimalFluid.fluid (selectOptimalFluid (Fin 130) (Fin 3.2) None None)
  = "NS + 5% Dextrose + 30 mEq/L KCl" /\
  OptimalFluid.fluid (selectOptimalFluid (Fin 140) (Fin 5.2) None None)
  = "D5 1/2 NS + 0 mEq/L KCl".
Proof.
  destruct (@selectOptimalFluid_vs_enhanced
              (Fin 130) (Fin 100) (Fin 7.4) 3.2 None None None None eq_refl)
    as (_ & Hmid & _).
  destruct (@selectOptimalFluid_vs_enhanced
              (Fin 140) (Fin 100) (Fin 7.4) 5.2 None None None None eq_refl)
    as (_ & _ & Hhigh).
  destruct Hmid as (label & Hin & Hold & _); [q_concrete | q_concrete |].
  destruct Hhigh as (label' & Hin' & Hlive & Hold'); [q_concrete|].
  split.
  - rewrite Hold. simpl in Hin. decompose [or] Hin; subst; try contradiction;
      solve [reflexivity | discriminate Hold].
  - rewrite Hold'. simpl in Hin'. decompose [or] Hin'; subst;
      try contradiction; solve [reflexivity | discriminate Hlive].
Defined.

(** X20: [selectOptimalFluid] doses KCl at 40, 30, 20 or 0 mEq/L by the
    potassium thresholds 3.0, 3.5 and 5.0 (20 when potassium is not a
    number); with renal impairment the base fluid is "D10 1/2 NS" for
    every sodium, while the selection reason still names the sodium-based
    fluid, which the label then does not contain. *)
Theorem selectOptimalFluid_dose_and_override
    (na : number) (k : Q) (creatinine bun : option number) :
  let r := selectOptimalFluid na (Fin k) creatinine bun in
  (k < 3 -> OptimalFluid.kclDose r = 40%Z) /\
  (3 <= k -> k < 3.5 -> OptimalFluid.kclDose r = 30%Z) /\
  (3.5 <= k -> k <= 5 -> OptimalFluid.kclDose r = 20%Z) /\
  (5 < k -> OptimalFluid.kclDose r = 0%Z) /\
  OptimalFluid.kclDose (selectOptimalFluid na NaN creatinine bun) = 20%Z /\
  (renalImpairment creatinine bun = true ->
   OptimalFluid.baseFluid r = "D10 1/2 NS" /\
   prefix "D10 1/2 NS + " (OptimalFluid.fluid r) = true /\
   (lt na (Fin 135) = true ->
    OptimalFluid.selectionReason r = "Low sodium - using NS + 5% Dextrose" /\
    includes "NS + 5% Dextrose" (OptimalFluid.fluid r) = false) /\
   (lt na (Fin 135) = false ->
    OptimalFluid.selectionReason r = "Normal sodium - using D5 1/2 NS" /\
    includes "D5 1/2 NS" (OptimalFluid.fluid r) = false)).
Proof.
  cbv zeta. unfold selectOptimalFluid.
  cbn [OptimalFluid.kclDose OptimalFluid.baseFluid OptimalFluid.fluid
         OptimalFluid.selectionReason].
  unfold gt. simpl (lt (Fin _) (Fin _)). simpl (lt NaN _).
  do 4 (split; [intros; split_cmp; try lra; reflexivity|]).
  split; [reflexivity|].
  intro Hr. rewrite Hr.
  destruct (lt na (Fin 135)); split_cmp; try lra;
    (split; [reflexivity|]); (split; [reflexivity|]);
    split; intro H; try discriminate H; split; reflexivity.
Qed.

Lemma selectOptimalFluid_dose_and_override_witness :
  OptimalFluid.kclDose (selectOptimalFluid (Fin 130) (Fin 2.5) None None)
  = 40%Z /\
  OptimalFluid.baseFluid
    (selectOptimalFluid (Fin 130) (Fin 4) (Some (Fin 120)) None)
  = "D10 1/2 NS" /\
  OptimalFluid.selectionReason
    (selectOptimalFluid (Fin 130) (Fin 4) (Some (Fin 120)) None)
  = "Low sodium - using NS + 5% Dextrose".
Proof.
  destruct (selectOptimalFluid_dose_and_override (Fin 130) 2.5 None None)
    as (Hlow & _).
  destruct (selectOptimalFluid_dose_and_override
              (Fin 130) 4 (Some (Fin 120)) None)
    as (_ & _ & _ & _ & _ & Hren).
  destruct (Hren eq_refl) as (Hb & _ & Hr & _).
  destruct (Hr eq_refl) as (Hreason & _).
  split; [apply Hlow; q_concrete|]. split; [exact Hb | exact Hreason].
Defined.

(** X21: a category of "Severe Depletion" gives the 4-hour interval for
    every score, and when the category is the one
    [determinePatientCategory] computes from the same score, the interval
    and the category determine each other: 4 hours for Severe Depletion,
    6 hours for Classic IHPS, 8 hours for Compensated IHPS. *)
Theorem determineMonitoringInterval_by_category (score : number) :
  determineMonitoringInterval score "Severe Depletion" = "4 hours" /\
  let cat := determinePatientCategory score in
  (determineMonitoringInterval score cat = "4 hours"
   <-> cat = "Severe Depletion") /\
  (determineMonitoringInterval score cat = "6 hours"
   <-> cat = "Classic IHPS") /\
  (determineMonitoringInterval score cat = "8 hours"
   <-> cat = "Compensated IHPS").
Proof.
  unfold determineMonitoringInterval, determinePatientCategory.
  split; [rewrite orb_true_r; reflexivity|].
  cbv zeta. destruct (gt score (Fin 60)), (gt score (Fin 20)); simpl;
    repeat split; intro H; try reflexivity; discriminate H.
Qed.

Lemma clinical_potassium_exclusive (k : number) :
  lt k (Fin 3.0) && gt k (Fin 5.5) = false.
Proof.
  destruct (lt k (Fin 3.0)) eqn:E1, (gt k (Fin 5.5)) eqn:E2; try reflexivity.
  exfalso. exact (potassium_alerts_exclusive k E1 E2).
Qed.

(** X22: [generateClinicalAlerts] returns at most seven alerts, and they
    come grouped by type in the order critical, warning, info. *)
Theorem generateClinicalAlerts_grouped
    (na k cl pH : number) (creatinine bun : option number)
    (w age : number) (category : string) :
  let alerts := generateClinicalAlerts na k cl pH creatinine bun w age category in
  (List.length alerts <= 7)%nat /\
  Sorted Nat.le (map (fun a => typeRank (alertType a)) alerts).
Proof.
  cbv zeta. unfold generateClinicalAlerts, pushAlert.
  pose proof (clinical_potassium_exclusive k) as Hex.
  destruct (lt k (Fin 3.0)), (gt k (Fin 5.5)); try discriminate Hex;
    destruct (renalImpairment creatinine bun), (gt pH (Fin 7.55)),
      (lt na (Fin 130) && lt cl (Fin 80)), (lt w (Fin 3.0)),
      (lt age (Fin 30)), (category =? "Severe Depletion")%string;
    (split; [simpl; lia | vm_compute; repeat constructor]).
Qed.

(** * Agreement with the kernel's binary64 arithmetic *)

(** On the sample operands (ties, subnormals, overflow, an infinity times
    zero, the two opposite infinities) [mul], [add] and [sub] return the
    numbers that the kernel's IEEE 754 operations return. *)
Example float_of_Q_exact :
  forallb (fun xy => sameNumber (number_of_float (float_of_Q (fst xy)))
                                (Fin (rnd64 (fst xy)))) samples = true.
Proof. vm_compute. reflexivity. Qed.

Example mul_agrees : forallb (fun xy => agreesOn mul PrimFloat.mul (fst xy) (snd xy)) samples = true.
Proof. vm_compute. reflexivity. Qed.

Example add_agrees : forallb (fun xy => agreesOn add PrimFloat.add (fst xy) (snd xy)) samples = true.
Proof. vm_compute. reflexivity. Qed.

Example sub_agrees : forallb (fun xy => agreesOn sub PrimFloat.sub (fst xy) (snd xy)) samples = true.
Proof. vm_compute. reflexivity. Qed.

(** The inputs at which rounding the exact product and rounding the
    double product differ. *)
Example double_ties :
  totalFluidVolume (calculateIHPSFluidPlan (requiredOnly 132 4.0 105 7.4 1.025))
  = Fin 184 /\
  fluidRatePerHour
    (calculateIHPSFluidPlan (requiredOnly 132 4.0 105 7.4 1.0833333333333333))
  = Fin 7 /\
  Bolus.totalVolume
    (calculateBolusRecommendation (Fin 132) (Fin 105) (Fin 7.4)
       (Fin 1.8499999999999999) None None)
  = Fin 19 /\
  fluidRatePerHour
    (calculateIHPSFluidPlan (requiredOnly 140 4.0 105 7.4 11.499999999999998))
  = Fin 65 /\
  strict_eq (rawFluidRate (Fin 10.001))
            (mul (Fin 1.5) (rawMaintenanceRate (Fin 10.001))) = false.
Proof. vm_compute. repeat split. Qed.
